(** * svai-frontend: retry policy, fallback selector and content generators

    A shallow embedding of [src/services/geminiService.ts],
    [src/services/mistralDirectService.ts] and the server-side Mistral
    service, followed by the properties the specification states about them.

    Conventions of the embedding:
    - a JavaScript string is a [string] (a sequence of 8-bit characters);
      [toLowerCase] and [toUpperCase] act on the ASCII letters;
    - a thrown exception is the [Throws] case of [Outcome];
    - a JavaScript number is a rational ([Q]); [Math.random()] is a value
      supplied by the caller of the model, as is every answer of the remote
      model endpoint;
    - a plain object used as a table is an association list of its own
      properties in insertion order, looked up through [Object.prototype]
      as JavaScript does. *)

From Stdlib Require Import String Ascii List Bool Arith ZArith QArith Lia.
From Stdlib Require Import Qpower Permutation DecimalString Sorted Lqa.
Import ListNotations.

Local Open Scope list_scope.
Local Open Scope string_scope.

(** ** Strings *)

Definition nl : string := String (ascii_of_nat 10) EmptyString.
Definition dq : string := String (ascii_of_nat 34) EmptyString.

Definition lowerChar (c : ascii) : ascii :=
  let n := nat_of_ascii c in
  if (65 <=? n)%nat && (n <=? 90)%nat then ascii_of_nat (n + 32) else c.

Definition upperChar (c : ascii) : ascii :=
  let n := nat_of_ascii c in
  if (97 <=? n)%nat && (n <=? 122)%nat then ascii_of_nat (n - 32) else c.

(** [s.toLowerCase()] *)
Fixpoint toLowerCase (s : string) : string :=
  match s with
  | EmptyString => EmptyString
  | String c s' => String (lowerChar c) (toLowerCase s')
  end.

(** [s.includes(k)]: [k] occurs in [s] as a contiguous substring. *)
Fixpoint includes (s k : string) : bool :=
  if String.prefix k s then true
  else match s with
       | EmptyString => false
       | String _ s' => includes s' k
       end.

(** [s.charAt(0).toUpperCase() + s.slice(1)] *)
Definition capitalize (s : string) : string :=
  match s with
  | EmptyString => EmptyString
  | String c s' => String (upperChar c) s'
  end.

(** Decimal rendering of a natural number, as template literals print it. *)
Definition showNat (n : nat) : string :=
  NilEmpty.string_of_uint (Nat.to_uint n).

(** ** Exceptions *)

(** The fields of a thrown value that the code inspects:
    [error?.error?.code], [error?.status] and [error?.message] (a string
    when present). [None] stands for [undefined]. *)
Record JsError : Type := mkJsError {
  err_code : option Z;
  err_status : option Z;
  err_message : option string
}.

(** [new Error(msg)] *)
Definition Error (msg : string) : JsError :=
  mkJsError None None (Some msg).

Inductive Outcome (A : Type) : Type :=
| Returns (a : A)
| Throws (e : JsError).
Arguments Returns {A} a.
Arguments Throws {A} e.

Definition bind {A B : Type} (m : Outcome A) (k : A -> Outcome B) : Outcome B :=
  match m with
  | Returns a => k a
  | Throws e => Throws e
  end.

(** [try { body } catch (error) { handler(error) }] *)
Definition tryCatch {A : Type} (body : Outcome A) (handler : JsError -> Outcome A)
  : Outcome A :=
  match body with
  | Returns a => Returns a
  | Throws e => handler e
  end.

Declare Scope js_scope.
Delimit Scope js_scope with js.
Notation "x <- m ;; k" := (bind m (fun x => k))
  (at level 61, m at next level, right associativity) : js_scope.

(** ** Retry policy ([retryWithBackoff]) *)

Module Retry.

(** What an observer of one call sees: each invocation of the operation
    (with the attempt number) and each [setTimeout] wait (with its delay in
    milliseconds). *)
Inductive Event : Type :=
| Invoke (attempt : nat)
| Sleep (delay : Q).

Definition optZ_is (o : option Z) (n : Z) : bool :=
  match o with
  | Some c => Z.eqb c n
  | None => false
  end.

(** [error?.error?.code === 503 || error?.message?.includes('503') ||
    error?.status === 503] *)
Definition is503Error (e : JsError) : bool :=
  optZ_is (err_code e) 503
  || match err_message e with
     | Some m => includes m "503"
     | None => false
     end
  || optZ_is (err_status e) 503.

(** [error?.error?.code === 400 || error?.error?.code === 401] *)
Definition isClientError (e : JsError) : bool :=
  optZ_is (err_code e) 400 || optZ_is (err_code e) 401.

(** [Math.pow(2, n)] for an integer [n]. *)
Definition pow2 (n : Z) : Q := Qpower (2 # 1) n.

(** The [delay] expression; [random] is the value of [Math.random()]. *)
Definition backoffDelay (e : JsError) (baseDelay : Q) (attempt : nat) (random : Q) : Q :=
  if is503Error e
  then (baseDelay * pow2 (Z.of_nat attempt) + random * (2000 # 1))%Q
  else (baseDelay * pow2 (Z.of_nat attempt - 1) + random * (1000 # 1))%Q.

Section Loop.
Context {W T : Type}.
(** The operation: each invocation sees the state [W] of the world left by
    the previous one and either resolves or rejects. *)
Variable operation : W -> Outcome T * W.
(** [random a] is the value [Math.random()] yields during attempt [a]. *)
Variable random : nat -> Q.
Variable maxRetries : nat.
Variable baseDelay : Q.

(** The [for] loop from [attempt] on. [fuel] bounds the iterations still
    possible; the loop is entered with [fuel = maxRetries] at
    [attempt = 1], which is never exhausted before the loop test fails. *)
Fixpoint retryFrom (fuel : nat) (attempt : nat) (s : W)
  : Outcome T * W * list Event :=
  if (attempt <=? maxRetries)%nat then
    match fuel with
    | O => (Throws (Error "Max retries exceeded"), s, [])
    | S fuel' =>
        let (r, s1) := operation s in
        match r with
        | Returns v => (Returns v, s1, [Invoke attempt])
        | Throws e =>
            if isClientError e then (Throws e, s1, [Invoke attempt])
            else if (attempt =? maxRetries)%nat then (Throws e, s1, [Invoke attempt])
            else
              let delay := backoffDelay e baseDelay attempt (random attempt) in
              let '(r', s', tr) := retryFrom fuel' (S attempt) s1 in
              (r', s', Invoke attempt :: Sleep delay :: tr)
        end
    end
  else (Throws (Error "Max retries exceeded"), s, []).

Definition retryWithBackoff (s : W) : Outcome T * W * list Event :=
  retryFrom maxRetries 1 s.
End Loop.

Definition isInvoke (ev : Event) : bool :=
  match ev with Invoke _ => true | Sleep _ => false end.

Definition invocations (tr : list Event) : nat :=
  List.length (filter isInvoke tr).

Definition sleeps (tr : list Event) : list Q :=
  flat_map (fun ev => match ev with Sleep d => [d] | Invoke _ => [] end) tr.

End Retry.

(** ** Plain objects used as tables *)

(** The property names a plain object inherits from [Object.prototype]. All
    of them hold functions, except [__proto__], which yields
    [Object.prototype] itself; every one of these values is truthy. *)
Definition objectPrototype : list string :=
  [ "constructor"; "__defineGetter__"; "__defineSetter__"; "hasOwnProperty";
    "__lookupGetter__"; "__lookupSetter__"; "isPrototypeOf";
    "propertyIsEnumerable"; "toString"; "valueOf"; "__proto__";
    "toLocaleString" ].

Inductive Property (A : Type) : Type :=
| Own (a : A)
| Inherited (name : string).
Arguments Own {A} a.
Arguments Inherited {A} name.

Fixpoint assoc {A : Type} (k : string) (o : list (string * A)) : option A :=
  match o with
  | [] => None
  | (k', a) :: o' => if String.eqb k k' then Some a else assoc k o'
  end.

(** [o[k]] on an object literal [o]; [None] is [undefined]. *)
Definition getProperty {A : Type} (o : list (string * A)) (k : string)
  : option (Property A) :=
  match assoc k o with
  | Some a => Some (Own a)
  | None => if existsb (String.eqb k) objectPrototype
            then Some (Inherited k) else None
  end.

(** ** Fallback selector ([getFallbackQuiz], [generateRandomQuestions]) *)

Module Fallback.

Record QuizQuestion : Type := mkQuizQuestion {
  question : string;
  codeSnippet : option string;
  options : list string;
  correctAnswerIndex : Z
}.

Definition quiz_java : list QuizQuestion :=
  [
    {| question :=
         "What is the output of this Java code considering method overriding and polymorphism?";
       codeSnippet := Some (
         "class Parent {" ++ nl ++ "    void print() { System.out.println(" ++
         dq ++ "Parent" ++ dq ++ "); }" ++ nl ++ "}" ++ nl ++
         "class Child extends Parent {" ++ nl ++
         "    void print() { System.out.println(" ++ dq ++ "Child" ++ dq ++
         "); }" ++ nl ++ "}" ++ nl ++ "Parent p = new Child();" ++ nl ++
         "p.print();");
       options :=
         ["Parent"; "Child"; "Compilation error"; "Runtime exception"];
       correctAnswerIndex := 1 |};
    {| question :=
         "How does this Java code handle memory management and garbage collection?";
       codeSnippet := Some (
         "public class MemoryTest {" ++ nl ++
         "    public static void main(String[] args) {" ++ nl ++
         "        List<String> list = new ArrayList<>();" ++ nl ++
         "        for (int i = 0; i < 1000000; i++) {" ++ nl ++
         "            list.add(new String(" ++ dq ++ "Object " ++ dq ++
         " + i));" ++ nl ++ "        }" ++ nl ++ "        list.clear();" ++ nl ++
         "        System.gc();" ++ nl ++ "    }" ++ nl ++ "}");
       options :=
         ["Objects are immediately eligible for GC"; "Objects remain until GC runs"; "Memory leak occurs"; "OutOfMemoryError thrown"];
       correctAnswerIndex := 1 |};
    {| question :=
         "What happens with this Java concurrent programming scenario?";
       codeSnippet := Some (
         "class Counter {" ++ nl ++ "    private int count = 0;" ++ nl ++
         "    public synchronized void increment() { count++; }" ++ nl ++
         "    public int getCount() { return count; }" ++ nl ++ "}" ++ nl ++
         "// Multiple threads call increment() simultaneously");
       options :=
         ["Race condition occurs"; "Count is thread-safe"; "Deadlock occurs"; "Compilation error"];
       correctAnswerIndex := 1 |};
    {| question :=
         "How does this Java generics code behave with type erasure?";
       codeSnippet := Some (
         "public class Generic<T> {" ++ nl ++
         "    public void printType(T obj) {" ++ nl ++
         "        System.out.println(obj.getClass().getSimpleName());" ++ nl ++
         "    }" ++ nl ++ "}" ++ nl ++ "Generic<String> g1 = new Generic<>();" ++
         nl ++ "Generic<Integer> g2 = new Generic<>();" ++ nl ++
         "System.out.println(g1.getClass() == g2.getClass());");
       options :=
         ["true"; "false"; "Compilation error"; "Runtime exception"];
       correctAnswerIndex := 0 |};
    {| question :=
         "What is the effect of this Java Stream API operation?";
       codeSnippet := Some (
         "List<Integer> numbers = Arrays.asList(1, 2, 3, 4, 5);" ++ nl ++
         "int result = numbers.stream()" ++ nl ++
         "    .filter(n -> n % 2 == 0)" ++ nl ++
         "    .mapToInt(Integer::intValue)" ++ nl ++ "    .sum();" ++ nl ++
         "System.out.println(result);");
       options :=
         ["6"; "9"; "15"; "0"];
       correctAnswerIndex := 0 |}
  ].

Definition quiz_javascript : list QuizQuestion :=
  [
    {| question :=
         "What is the output of this code considering the event loop and microtasks?";
       codeSnippet := Some (
         "Promise.resolve().then(() => console.log(1));" ++ nl ++
         "setTimeout(() => console.log(2), 0);" ++ nl ++
         "Promise.resolve().then(() => console.log(3));" ++ nl ++
         "console.log(4);");
       options :=
         ["4, 1, 3, 2"; "1, 3, 4, 2"; "4, 2, 1, 3"; "2, 4, 1, 3"];
       correctAnswerIndex := 0 |};
    {| question :=
         "Which approach prevents memory leaks in this closure scenario?";
       codeSnippet := Some (
         "function createHandler() {" ++ nl ++
         "  const data = new Array(1000000).fill('x');" ++ nl ++
         "  return () => console.log(data.length);" ++ nl ++ "}" ++ nl ++
         "const handler = createHandler();" ++ nl ++
         "// How to prevent memory leak?");
       options :=
         ["Set data = null after use"; "Use WeakMap instead"; "Return function without closure"; "Use setTimeout to clear data"];
       correctAnswerIndex := 0 |};
    {| question :=
         "What happens with async/await and Promise.all in this race condition?";
       codeSnippet := Some (
         "async function race() {" ++ nl ++
         "  const p1 = new Promise(r => setTimeout(() => r(1), 100));" ++ nl ++
         "  const p2 = Promise.reject(2);" ++ nl ++ "  try {" ++ nl ++
         "    const result = await Promise.all([p1, p2]);" ++ nl ++
         "  } catch(e) { console.log(e); }" ++ nl ++ "}");
       options :=
         ["Logs 2 immediately"; "Logs 1 after 100ms"; "Never logs anything"; "Throws TypeError"];
       correctAnswerIndex := 0 |};
    {| question :=
         "How does this Proxy implementation affect object property access?";
       codeSnippet := Some (
         "const handler = {" ++ nl ++ "  get(target, prop) {" ++ nl ++
         "    return prop in target ? target[prop] : 'default';" ++ nl ++
         "  }," ++ nl ++ "  set(target, prop, value) {" ++ nl ++
         "    target[prop] = value * 2;" ++ nl ++ "  }" ++ nl ++ "};" ++ nl ++
         "const obj = new Proxy({}, handler);" ++ nl ++ "obj.x = 5;" ++ nl ++
         "console.log(obj.x, obj.y);");
       options :=
         ["10, 'default'"; "5, 'default'"; "10, undefined"; "5, undefined"];
       correctAnswerIndex := 0 |};
    {| question :=
         "What is the result of this complex destructuring with default values?";
       codeSnippet := Some (
         "const {a = 1, b: {c = 2} = {}, d = 3} = {a: undefined, b: {c: undefined}};" ++
         nl ++ "console.log(a, c, d);");
       options :=
         ["1, 2, 3"; "undefined, undefined, 3"; "1, undefined, 3"; "undefined, 2, 3"];
       correctAnswerIndex := 0 |}
  ].

Definition quiz_react : list QuizQuestion :=
  [
    {| question :=
         "Which optimization prevents re-renders in this component hierarchy?";
       codeSnippet := Some (
         "const Parent = ({items}) => {" ++ nl ++
         "  const [count, setCount] = useState(0);" ++ nl ++
         "  return <Child data={items} onClick={() => setCount(c => c + 1)} />;" ++
         nl ++ "};" ++ nl ++
         "// Child re-renders on every count change. How to prevent?");
       options :=
         ["useCallback for onClick"; "React.memo for Child"; "useMemo for items"; "Both useCallback and React.memo"];
       correctAnswerIndex := 3 |};
    {| question :=
         "What is the render output of this context provider with multiple consumers?";
       codeSnippet := Some (
         "const ThemeContext = createContext('light');" ++ nl ++
         "const App = () => (" ++ nl ++
         "  <ThemeContext.Provider value='dark'>" ++ nl ++
         "    <ThemeContext.Provider value='light'>" ++ nl ++
         "      <Consumer />" ++ nl ++ "    </ThemeContext.Provider>" ++ nl ++
         "  </ThemeContext.Provider>" ++ nl ++ ");");
       options :=
         ["'light' (nearest provider)"; "'dark' (outer provider)"; "Throws error"; "undefined"];
       correctAnswerIndex := 0 |};
    {| question :=
         "How does this useEffect dependency array affect the cleanup timing?";
       codeSnippet := Some (
         "useEffect(() => {" ++ nl ++ "  console.log('effect');" ++ nl ++
         "  return () => console.log('cleanup');" ++ nl ++ "}, [props.data]);" ++
         nl ++ "// When does cleanup run?");
       options :=
         ["Before next effect and unmount"; "Only on unmount"; "After next effect"; "Never"];
       correctAnswerIndex := 0 |};
    {| question :=
         "What is the state update behavior in this concurrent rendering scenario?";
       codeSnippet := Some (
         "function Counter() {" ++ nl ++
         "  const [count, setCount] = useState(0);" ++ nl ++
         "  const handleClick = () => {" ++ nl ++ "    setCount(c => c + 1);" ++
         nl ++ "    setCount(c => c + 1);" ++ nl ++ "    setCount(2);" ++ nl ++
         "  };" ++ nl ++
         "  return <button onClick={handleClick}>{count}</button>;" ++ nl ++
         "}");
       options :=
         ["Renders once with count=2"; "Renders twice: 1 then 2"; "Renders three times: 1, 2, 2"; "Throws error"];
       correctAnswerIndex := 0 |};
    {| question :=
         "How does this ref forwarding pattern affect component behavior?";
       codeSnippet := Some (
         "const FancyInput = React.forwardRef((props, ref) => {" ++ nl ++
         "  const inputRef = useRef();" ++ nl ++
         "  useImperativeHandle(ref, () => ({" ++ nl ++
         "    focus: () => inputRef.current.focus()," ++ nl ++
         "    value: () => inputRef.current.value" ++ nl ++ "  }));" ++ nl ++
         "  return <input ref={inputRef} {...props} />;" ++ nl ++ "});");
       options :=
         ["Only focus and value methods exposed"; "All input methods available"; "Ref is null"; "Throws error"];
       correctAnswerIndex := 0 |}
  ].

Definition quiz_python : list QuizQuestion :=
  [
    {| question :=
         "What is the method resolution order (MRO) for this complex inheritance?";
       codeSnippet := Some (
         "class A: pass" ++ nl ++ "class B(A): pass" ++ nl ++
         "class C(A): pass" ++ nl ++ "class D(B, C): pass" ++ nl ++
         "print(D.__mro__)");
       options :=
         ["(D, B, C, A, object)"; "(D, B, A, C, object)"; "(D, C, B, A, object)"; "(D, A, B, C, object)"];
       correctAnswerIndex := 0 |};
    {| question :=
         "How does this generator with context manager behave?";
       codeSnippet := Some (
         "from contextlib import contextmanager" ++ nl ++ "@contextmanager" ++
         nl ++ "def cm():" ++ nl ++ "  print('enter')" ++ nl ++ "  yield" ++
         nl ++ "  print('exit')" ++ nl ++ "def gen():" ++ nl ++ "  with cm():" ++
         nl ++ "    yield 1" ++ nl ++ "    yield 2" ++ nl ++ "g = gen()" ++ nl ++
         "print(next(g))" ++ nl ++ "print(next(g))");
       options :=
         ["enter, 1, 2, exit"; "enter, 1, exit, 2"; "1, 2, enter, exit"; "enter, exit, 1, 2"];
       correctAnswerIndex := 0 |};
    {| question :=
         "What is the result of this metaclass manipulation?";
       codeSnippet := Some (
         "class Meta(type):" ++ nl ++
         "  def __new__(cls, name, bases, attrs):" ++ nl ++
         "    attrs['x'] = 42" ++ nl ++
         "    return super().__new__(cls, name, bases, attrs)" ++ nl ++
         "class Test(metaclass=Meta):" ++ nl ++ "  pass" ++ nl ++
         "print(hasattr(Test, 'x'), hasattr(Test(), 'x'))");
       options :=
         ["True, True"; "True, False"; "False, True"; "False, False"];
       correctAnswerIndex := 1 |};
    {| question :=
         "How does this descriptor protocol implementation work?";
       codeSnippet := Some (
         "class Descriptor:" ++ nl ++ "  def __get__(self, obj, cls=None):" ++
         nl ++ "    if obj is None:" ++ nl ++ "      return self" ++ nl ++
         "    return obj.__dict__[self.name]" ++ nl ++
         "  def __set_name__(self, cls, name):" ++ nl ++
         "    self.name = name" ++ nl ++ "class Test:" ++ nl ++
         "  x = Descriptor()");
       options :=
         ["Raises AttributeError on access"; "Works as property"; "Returns descriptor instance"; "Infinite loop"];
       correctAnswerIndex := 0 |};
    {| question :=
         "What is the output of this asyncio event loop with cancellation?";
       codeSnippet := Some (
         "async def task():" ++ nl ++ "  try:" ++ nl ++
         "    await asyncio.sleep(1)" ++ nl ++ "    return 'done'" ++ nl ++
         "  except asyncio.CancelledError:" ++ nl ++ "    return 'cancelled'" ++
         nl ++ "async def main():" ++ nl ++
         "  t = asyncio.create_task(task())" ++ nl ++
         "  await asyncio.sleep(0.1)" ++ nl ++ "  t.cancel()" ++ nl ++
         "  return await t");
       options :=
         ["'cancelled'"; "'done'"; "Raises CancelledError"; "None"];
       correctAnswerIndex := 0 |}
  ].

Definition quiz_html : list QuizQuestion :=
  [
    {| question :=
         "Which semantic HTML structure provides the best accessibility for this complex layout?";
       codeSnippet := Some (
         "<header>" ++ nl ++ "  <nav aria-label='main'>" ++ nl ++
         "    <ul><li><a href='/'>Home</a></li></ul>" ++ nl ++ "  </nav>" ++
         nl ++ "</header>" ++ nl ++ "<main>" ++ nl ++ "  <article>" ++ nl ++
         "    <section aria-labelledby='title'>" ++ nl ++
         "      <h2 id='title'>Article Title</h2>" ++ nl ++ "    </section>" ++
         nl ++ "  </article>" ++ nl ++
         "  <aside aria-label='sidebar'></aside>" ++ nl ++ "</main>");
       options :=
         ["Current structure is optimal"; "Use <div> instead of semantic tags"; "Remove aria-labels"; "Add role='application'"];
       correctAnswerIndex := 0 |};
    {| question :=
         "How does this custom element with shadow DOM behave?";
       codeSnippet := Some (
         "class CustomEl extends HTMLElement {" ++ nl ++
         "  connectedCallback() {" ++ nl ++
         "    this.attachShadow({mode: 'open'});" ++ nl ++
         "    this.shadowRoot.innerHTML = `<slot></slot>`;" ++ nl ++ "  }" ++
         nl ++ "}" ++ nl ++ "customElements.define('custom-el', CustomEl);" ++
         nl ++ "// What happens with light DOM?");
       options :=
         ["Light DOM renders in slot"; "Light DOM is hidden"; "Throws error"; "Requires named slot"];
       correctAnswerIndex := 0 |};
    {| question :=
         "What is the security implication of this content security policy?";
       codeSnippet := Some (
         "Content-Security-Policy: default-src 'self'; script-src 'self' 'unsafe-inline'; style-src 'self' 'unsafe-inline';");
       options :=
         ["'unsafe-inline' reduces security"; "Too restrictive"; "Missing object-src"; "Should use nonce"];
       correctAnswerIndex := 0 |};
    {| question :=
         "How does this form validation pattern work with constraint API?";
       codeSnippet := Some (
         "<form id='form'>" ++ nl ++
         "  <input type='email' required pattern='[a-z]+@[a-z]+\.[a-z]+'>" ++
         nl ++ "  <input type='submit'>" ++ nl ++ "</form>" ++ nl ++
         "<script>" ++ nl ++ "form.addEventListener('submit', e => {" ++ nl ++
         "  if (!form.checkValidity()) e.preventDefault();" ++ nl ++ "});" ++
         nl ++ "</script>");
       options :=
         ["Prevents invalid submission"; "Always prevents submission"; "No validation occurs"; "Validates on blur only"];
       correctAnswerIndex := 0 |};
    {| question :=
         "What is the rendering behavior of this complex table structure?";
       codeSnippet := Some (
         "<table>" ++ nl ++ "  <thead>" ++ nl ++ "    <tr>" ++ nl ++
         "      <th colspan='2'>Header</th>" ++ nl ++ "    </tr>" ++ nl ++
         "  </thead>" ++ nl ++ "  <tbody>" ++ nl ++ "    <tr>" ++ nl ++
         "      <td rowspan='2'>Cell 1</td>" ++ nl ++ "      <td>Cell 2</td>" ++
         nl ++ "    </tr>" ++ nl ++ "    <tr>" ++ nl ++
         "      <td>Cell 3</td>" ++ nl ++ "    </tr>" ++ nl ++ "  </tbody>" ++
         nl ++ "</table>");
       options :=
         ["2x2 grid with merged cells"; "Invalid HTML structure"; "3x2 grid"; "Renders as separate tables"];
       correctAnswerIndex := 0 |}
  ].

Definition quiz_css : list QuizQuestion :=
  [
    {| question :=
         "Which layout algorithm provides best performance for this animation scenario?";
       codeSnippet := Some (
         ".container {" ++ nl ++ "  /* 1000 animated children */" ++ nl ++
         "  width: 1000px;" ++ nl ++ "  height: 1000px;" ++ nl ++ "}" ++ nl ++
         ".child {" ++ nl ++ "  width: 10px;" ++ nl ++ "  height: 10px;" ++ nl ++
         "  transform: translate(var(--x), var(--y));" ++ nl ++
         "  will-change: transform;" ++ nl ++ "}");
       options :=
         ["CSS Grid with transform"; "Flexbox with transform"; "Absolute positioning with transform"; "CSS custom properties"];
       correctAnswerIndex := 2 |};
    {| question :=
         "How does this CSS containment strategy affect rendering?";
       codeSnippet := Some (
         ".card {" ++ nl ++ "  contain: layout style paint;" ++ nl ++
         "  overflow: hidden;" ++ nl ++ "}" ++ nl ++ ".card:hover {" ++ nl ++
         "  transform: scale(1.05);" ++ nl ++ "  transition: transform 0.3s;" ++
         nl ++ "}");
       options :=
         ["Optimizes repaints and reflows"; "Prevents transform animation"; "Triggers layout recalculation"; "No effect on performance"];
       correctAnswerIndex := 0 |};
    {| question :=
         "What is the specificity calculation for this selector combination?";
       codeSnippet := Some (
         "#app .container > div.item[data-type='primary']:not(.disabled)::before");
       options :=
         ["(1, 3, 1, 1)"; "(1, 2, 2, 1)"; "(0, 3, 2, 1)"; "(1, 3, 0, 2)"];
       correctAnswerIndex := 0 |};
    {| question :=
         "How does this CSS custom property cascade with fallbacks?";
       codeSnippet := Some (
         ":root { --color: blue; }" ++ nl ++ ".parent { --color: red; }" ++ nl ++
         ".child { color: var(--color, var(--fallback, green)); }");
       options :=
         ["red (parent overrides)"; "blue (root value)"; "green (fallback)"; "invalid CSS"];
       correctAnswerIndex := 0 |};
    {| question :=
         "What is the stacking context order in this complex z-index scenario?";
       codeSnippet := Some (
         ".a { position: relative; z-index: 1; }" ++ nl ++
         ".b { position: absolute; z-index: 2; }" ++ nl ++
         ".c { position: relative; z-index: 1; transform: translateZ(0); }" ++
         nl ++ ".d { position: sticky; z-index: 3; }");
       options :=
         ["d, b, c, a"; "d, c, b, a"; "b, d, c, a"; "d, b, a, c"];
       correctAnswerIndex := 2 |}
  ].

Definition fallbackQuizzes : list (string * list QuizQuestion) :=
  [ ("java", quiz_java);
    ("javascript", quiz_javascript);
    ("react", quiz_react);
    ("python", quiz_python);
    ("html", quiz_html);
    ("css", quiz_css) ].

(** What [getFallbackQuiz] hands back: an array of questions, or the member
    of [Object.prototype] found under the given name. *)
Inductive FallbackResult : Type :=
| Questions (qs : list QuizQuestion)
| PrototypeMember (name : string).

Definition skillMatches : list (string * list string) :=
  [ ("java", ["java"; "spring"; "jvm"; "maven"; "gradle"]);
    ("javascript", ["javascript"; "js"; "ecmascript"; "es6"]);
    ("react", ["react"; "reactjs"; "react.js"; "jsx"]);
    ("python", ["python"; "py"; "django"; "flask"]);
    ("html", ["html"; "html5"; "markup"; "hypertext"]);
    ("css", ["css"; "css3"; "stylesheet"; "styling"]);
    ("typescript", ["typescript"; "ts"; "tsx"]);
    ("vue", ["vue"; "vuejs"; "vue.js"]);
    ("angular", ["angular"; "ng"; "angularjs"]);
    ("c++", ["c++"; "cpp"; "cplusplus"]);
    ("c#", ["c#"; "csharp"; ".net"]);
    ("sql", ["sql"; "database"; "mysql"; "postgresql"]);
    ("git", ["git"; "github"; "gitlab"; "version control"]);
    ("docker", ["docker"; "container"; "kubernetes"; "k8s"]);
    ("aws", ["aws"; "amazon"; "cloud"; "lambda"]);
    ("node", ["node"; "nodejs"; "node.js"; "backend"]) ].

(** [fallbackQuizzes[k] || fallbackQuizzes['javascript']] *)
Definition quizOrJavascript (k : string) : FallbackResult :=
  match getProperty fallbackQuizzes k with
  | Some (Own qs) => Questions qs
  | Some (Inherited name) => PrototypeMember name
  | None => Questions quiz_javascript
  end.

(** An element of [matches]: [{ quizKey, keyword, length: keyword.length }]. *)
Record Match : Type := mkMatch {
  quizKey : string;
  keyword : string;
  length : nat
}.

(** The inner loop over one key's keywords: the first keyword the topic
    includes is recorded, then [break]. *)
Definition matchOf (lowerSkillName : string) (entry : string * list string)
  : list Match :=
  let (key, keywords) := entry in
  match find (fun kw => includes lowerSkillName kw) keywords with
  | Some kw => [mkMatch key kw (String.length kw)]
  | None => []
  end.

(** The outer loop over [Object.entries(skillMatches)]. *)
Definition collectMatches (lowerSkillName : string) : list Match :=
  flat_map (matchOf lowerSkillName) skillMatches.

(** [matches.sort((a, b) => b.length - a.length)]: a stable sort, longest
    keyword first. *)
Fixpoint insertMatch (m : Match) (l : list Match) : list Match :=
  match l with
  | [] => [m]
  | x :: l' => if (length m <? length x)%nat then x :: insertMatch m l'
               else m :: x :: l'
  end.

Fixpoint sortMatches (l : list Match) : list Match :=
  match l with
  | [] => []
  | m :: l' => insertMatch m (sortMatches l')
  end.

(** [matches[0]] after the sort. *)
Definition bestMatch (lowerSkillName : string) : option Match :=
  hd_error (sortMatches (collectMatches lowerSkillName)).

Definition domains : list (string * list string) :=
  [ ("technical", ["code"; "programming"; "software"; "development";
                   "algorithm"; "data"; "system"; "network"; "security";
                   "database"]);
    ("creative", ["design"; "art"; "music"; "writing"; "content"; "creative";
                  "visual"; "media"]);
    ("business", ["management"; "marketing"; "sales"; "finance"; "strategy";
                  "leadership"; "project"; "business"]);
    ("science", ["research"; "analysis"; "experiment"; "theory"; "scientific";
                 "study"; "method"]);
    ("general", []) ].

(** [keywords.some(keyword => lowerSkillName.includes(keyword))] *)
Definition someKeyword (lowerSkillName : string) (keywords : list string) : bool :=
  existsb (fun keyword => includes lowerSkillName keyword) keywords.

(** The loop that sets [detectedDomain]. *)
Definition detectDomain (lowerSkillName : string) : string :=
  match find (fun entry => someKeyword lowerSkillName (snd entry)) domains with
  | Some (domain, _) => domain
  | None => "general"
  end.

Definition templates_technical (skillName : string) : list QuizQuestion :=
  [
    {| question :=
         "What is the most critical performance consideration when working with " ++
         skillName ++ "?";
       codeSnippet := Some (
         "// " ++ skillName ++ " performance analysis" ++ nl ++
         "const factors = {" ++ nl ++ "  speed: 'Execution efficiency'," ++ nl ++
         "  memory: 'Resource usage'," ++ nl ++
         "  scalability: 'Growth capability'," ++ nl ++
         "  reliability: 'System stability'" ++ nl ++ "};" ++ nl ++
         "// Which factor impacts " ++ skillName ++ " most?");
       options :=
         ["Execution speed"; "Memory efficiency"; "Scalability"; "Reliability"];
       correctAnswerIndex := 2 |};
    {| question :=
         "How would you optimize this " ++ skillName ++
         " implementation for production use?";
       codeSnippet := Some (
         "// " ++ skillName ++ " optimization scenario" ++ nl ++
         "function process" ++ capitalize skillName ++ "(data) {" ++ nl ++
         "  // Implementation details" ++ nl ++ "  return transform(data);" ++
         nl ++ "}" ++ nl ++ "// Best optimization approach?");
       options :=
         ["Caching"; "Parallel processing"; "Code refactoring"; "Algorithm improvement"];
       correctAnswerIndex := 1 |};
    {| question :=
         "What security considerations are most important for " ++ skillName ++
         " applications?";
       codeSnippet := Some (
         "// " ++ skillName ++ " security assessment" ++ nl ++
         "const concerns = {" ++ nl ++ "  data: 'Information protection'," ++
         nl ++ "  access: 'Control mechanisms'," ++ nl ++
         "  integrity: 'Data validation'," ++ nl ++
         "  availability: 'System uptime'" ++ nl ++ "};" ++ nl ++
         "// Priority for " ++ skillName ++ "?");
       options :=
         ["Data protection"; "Access control"; "Data integrity"; "System availability"];
       correctAnswerIndex := 0 |};
    {| question :=
         "Which architectural pattern best suits " ++ skillName ++
         " development?";
       codeSnippet := Some (
         "// " ++ skillName ++ " architecture options" ++ nl ++
         "const patterns = {" ++ nl ++ "  monolithic: 'Single unit'," ++ nl ++
         "  modular: 'Separated components'," ++ nl ++
         "  microservices: 'Distributed services'," ++ nl ++
         "  serverless: 'Event-driven'" ++ nl ++ "};" ++ nl ++ "// Best for " ++
         skillName ++ "?");
       options :=
         ["Monolithic"; "Modular"; "Microservices"; "Serverless"];
       correctAnswerIndex := 1 |};
    {| question :=
         "How do you handle error management in " ++ skillName ++ " projects?";
       codeSnippet := Some (
         "// " ++ skillName ++ " error handling" ++ nl ++ "try {" ++ nl ++
         "  process" ++ capitalize skillName ++ "();" ++ nl ++
         "} catch (error) {" ++ nl ++ "  // Error strategy?" ++ nl ++ "}");
       options :=
         ["Silent failure"; "Graceful degradation"; "Immediate crash"; "Retry mechanism"];
       correctAnswerIndex := 1 |}
  ].

Definition templates_creative (skillName : string) : list QuizQuestion :=
  [
    {| question :=
         "What principle guides effective " ++ skillName ++ " design?";
       codeSnippet := Some (
         "// " ++ skillName ++ " design principles" ++ nl ++
         "const principles = {" ++ nl ++ "  balance: 'Visual harmony'," ++ nl ++
         "  contrast: 'Element differentiation'," ++ nl ++
         "  hierarchy: 'Importance structure'," ++ nl ++
         "  rhythm: 'Pattern repetition'" ++ nl ++ "};" ++ nl ++
         "// Most important for " ++ skillName ++ "?");
       options :=
         ["Balance"; "Contrast"; "Hierarchy"; "Rhythm"];
       correctAnswerIndex := 2 |};
    {| question :=
         "How would you approach creative problem-solving in " ++ skillName ++
         "?";
       codeSnippet := Some (
         "// " ++ skillName ++ " creative process" ++ nl ++
         "1. Research and analysis" ++ nl ++ "2. Ideation and brainstorming" ++
         nl ++ "3. Prototyping and testing" ++ nl ++
         "4. Refinement and finalization" ++ nl ++ "// Critical phase for " ++
         skillName ++ "?");
       options :=
         ["Research"; "Ideation"; "Prototyping"; "Refinement"];
       correctAnswerIndex := 1 |};
    {| question :=
         "What makes " ++ skillName ++ " work impactful?";
       codeSnippet := Some (
         "// " ++ skillName ++ " impact factors" ++ nl ++ "const factors = {" ++
         nl ++ "  originality: 'Unique approach'," ++ nl ++
         "  execution: 'Technical quality'," ++ nl ++
         "  relevance: 'Audience connection'," ++ nl ++
         "  innovation: 'New perspective'" ++ nl ++ "};" ++ nl ++
         "// Key impact driver?");
       options :=
         ["Originality"; "Execution"; "Relevance"; "Innovation"];
       correctAnswerIndex := 2 |};
    {| question :=
         "How do you balance creativity and constraints in " ++ skillName ++
         "?";
       codeSnippet := Some (
         "// " ++ skillName ++ " constraint management" ++ nl ++
         "const constraints = {" ++ nl ++ "  time: 'Deadline pressure'," ++ nl ++
         "  budget: 'Resource limits'," ++ nl ++
         "  scope: 'Project boundaries'," ++ nl ++
         "  quality: 'Standards requirements'" ++ nl ++ "};" ++ nl ++
         "// Biggest challenge for " ++ skillName ++ "?");
       options :=
         ["Time constraints"; "Budget limits"; "Scope boundaries"; "Quality standards"];
       correctAnswerIndex := 0 |};
    {| question :=
         "What tools enhance " ++ skillName ++ " productivity?";
       codeSnippet := Some (
         "// " ++ skillName ++ " tool selection" ++ nl ++ "const tools = {" ++
         nl ++ "  digital: 'Software solutions'," ++ nl ++
         "  traditional: 'Manual methods'," ++ nl ++
         "  hybrid: 'Combined approach'," ++ nl ++
         "  automated: 'AI-assisted'" ++ nl ++ "};" ++ nl ++ "// Best for " ++
         skillName ++ "?");
       options :=
         ["Digital tools"; "Traditional methods"; "Hybrid approach"; "AI automation"];
       correctAnswerIndex := 2 |}
  ].

Definition templates_business (skillName : string) : list QuizQuestion :=
  [
    {| question :=
         "What strategy drives success in " ++ skillName ++ "?";
       codeSnippet := Some (
         "// " ++ skillName ++ " strategic planning" ++ nl ++
         "const strategies = {" ++ nl ++ "  cost: 'Price leadership'," ++ nl ++
         "  differentiation: 'Unique value'," ++ nl ++
         "  focus: 'Niche specialization'," ++ nl ++
         "  growth: 'Market expansion'" ++ nl ++ "};" ++ nl ++ "// Best for " ++
         skillName ++ "?");
       options :=
         ["Cost leadership"; "Differentiation"; "Focus strategy"; "Growth strategy"];
       correctAnswerIndex := 1 |};
    {| question :=
         "How do you measure ROI for " ++ skillName ++ " initiatives?";
       codeSnippet := Some (
         "// " ++ skillName ++ " ROI metrics" ++ nl ++ "const metrics = {" ++
         nl ++ "  financial: 'Monetary returns'," ++ nl ++
         "  operational: 'Efficiency gains'," ++ nl ++
         "  strategic: 'Market position'," ++ nl ++
         "  customer: 'Satisfaction scores'" ++ nl ++ "};" ++ nl ++
         "// Primary measure for " ++ skillName ++ "?");
       options :=
         ["Financial returns"; "Operational efficiency"; "Strategic position"; "Customer satisfaction"];
       correctAnswerIndex := 1 |};
    {| question :=
         "What risk management approach suits " ++ skillName ++ " projects?";
       codeSnippet := Some (
         "// " ++ skillName ++ " risk assessment" ++ nl ++ "const risks = {" ++
         nl ++ "  market: 'Demand changes'," ++ nl ++
         "  operational: 'Process failures'," ++ nl ++
         "  financial: 'Budget overruns'," ++ nl ++
         "  reputational: 'Brand damage'" ++ nl ++ "};" ++ nl ++
         "// Highest priority for " ++ skillName ++ "?");
       options :=
         ["Market risks"; "Operational risks"; "Financial risks"; "Reputational risks"];
       correctAnswerIndex := 0 |};
    {| question :=
         "How do you build teams for " ++ skillName ++ " success?";
       codeSnippet := Some (
         "// " ++ skillName ++ " team composition" ++ nl ++ "const roles = {" ++
         nl ++ "  leadership: 'Strategic direction'," ++ nl ++
         "  execution: 'Implementation'," ++ nl ++
         "  support: 'Enabling functions'," ++ nl ++
         "  innovation: 'Creative input'" ++ nl ++ "};" ++ nl ++
         "// Critical for " ++ skillName ++ "?");
       options :=
         ["Leadership"; "Execution"; "Support"; "Innovation"];
       correctAnswerIndex := 1 |};
    {| question :=
         "What metrics indicate " ++ skillName ++ " performance?";
       codeSnippet := Some (
         "// " ++ skillName ++ " KPI tracking" ++ nl ++ "const indicators = {" ++
         nl ++ "  quantitative: 'Numerical measures'," ++ nl ++
         "  qualitative: 'Subjective assessment'," ++ nl ++
         "  leading: 'Predictive signals'," ++ nl ++
         "  lagging: 'Historical results'" ++ nl ++ "};" ++ nl ++
         "// Best for " ++ skillName ++ "?");
       options :=
         ["Quantitative"; "Qualitative"; "Leading"; "Lagging"];
       correctAnswerIndex := 2 |}
  ].

Definition templates_science (skillName : string) : list QuizQuestion :=
  [
    {| question :=
         "What methodology ensures valid " ++ skillName ++ " research?";
       codeSnippet := Some (
         "// " ++ skillName ++ " research methods" ++ nl ++
         "const methods = {" ++ nl ++ "  experimental: 'Controlled studies'," ++
         nl ++ "  observational: 'Natural behavior'," ++ nl ++
         "  theoretical: 'Mathematical models'," ++ nl ++
         "  computational: 'Simulation analysis'" ++ nl ++ "};" ++ nl ++
         "// Most rigorous for " ++ skillName ++ "?");
       options :=
         ["Experimental"; "Observational"; "Theoretical"; "Computational"];
       correctAnswerIndex := 0 |};
    {| question :=
         "How do you validate " ++ skillName ++ " findings?";
       codeSnippet := Some (
         "// " ++ skillName ++ " validation process" ++ nl ++
         "const steps = {" ++ nl ++ "  replication: 'Repeat studies'," ++ nl ++
         "  peer: 'Expert review'," ++ nl ++ "  statistical: 'Data analysis'," ++
         nl ++ "  practical: 'Real-world testing'" ++ nl ++ "};" ++ nl ++
         "// Essential for " ++ skillName ++ "?");
       options :=
         ["Replication"; "Peer review"; "Statistical analysis"; "Practical testing"];
       correctAnswerIndex := 0 |};
    {| question :=
         "What ethical considerations apply to " ++ skillName ++ "?";
       codeSnippet := Some (
         "// " ++ skillName ++ " ethics assessment" ++ nl ++
         "const concerns = {" ++ nl ++ "  consent: 'Participant agreement'," ++
         nl ++ "  privacy: 'Data protection'," ++ nl ++
         "  integrity: 'Honest reporting'," ++ nl ++
         "  impact: 'Societal effects'" ++ nl ++ "};" ++ nl ++
         "// Priority for " ++ skillName ++ "?");
       options :=
         ["Informed consent"; "Privacy protection"; "Research integrity"; "Societal impact"];
       correctAnswerIndex := 1 |};
    {| question :=
         "How do you analyze data in " ++ skillName ++ " studies?";
       codeSnippet := Some (
         "// " ++ skillName ++ " data analysis" ++ nl ++
         "const approaches = {" ++ nl ++
         "  descriptive: 'Summary statistics'," ++ nl ++
         "  inferential: 'Hypothesis testing'," ++ nl ++
         "  predictive: 'Model forecasting'," ++ nl ++
         "  prescriptive: 'Optimization'" ++ nl ++ "};" ++ nl ++
         "// Most appropriate for " ++ skillName ++ "?");
       options :=
         ["Descriptive"; "Inferential"; "Predictive"; "Prescriptive"];
       correctAnswerIndex := 1 |};
    {| question :=
         "What tools enhance " ++ skillName ++ " research?";
       codeSnippet := Some (
         "// " ++ skillName ++ " research tools" ++ nl ++
         "const equipment = {" ++ nl ++ "  measurement: 'Data collection'," ++
         nl ++ "  analysis: 'Processing software'," ++ nl ++
         "  visualization: 'Result presentation'," ++ nl ++
         "  collaboration: 'Team coordination'" ++ nl ++ "};" ++ nl ++
         "// Critical for " ++ skillName ++ "?");
       options :=
         ["Measurement tools"; "Analysis software"; "Visualization tools"; "Collaboration platforms"];
       correctAnswerIndex := 1 |}
  ].

Definition templates_general (skillName : string) : list QuizQuestion :=
  [
    {| question :=
         "What skill is most valuable for " ++ skillName ++ " mastery?";
       codeSnippet := Some (
         "// " ++ skillName ++ " skill assessment" ++ nl ++
         "const abilities = {" ++ nl ++ "  technical: 'Domain knowledge'," ++
         nl ++ "  creative: 'Innovative thinking'," ++ nl ++
         "  analytical: 'Problem solving'," ++ nl ++
         "  communication: 'Information exchange'" ++ nl ++ "};" ++ nl ++
         "// Essential for " ++ skillName ++ "?");
       options :=
         ["Technical knowledge"; "Creative thinking"; "Analytical skills"; "Communication"];
       correctAnswerIndex := 2 |};
    {| question :=
         "How do you approach learning " ++ skillName ++ " effectively?";
       codeSnippet := Some (
         "// " ++ skillName ++ " learning strategy" ++ nl ++
         "const methods = {" ++ nl ++ "  theoretical: 'Study concepts'," ++ nl ++
         "  practical: 'Hands-on experience'," ++ nl ++
         "  collaborative: 'Group learning'," ++ nl ++
         "  selfDirected: 'Independent exploration'" ++ nl ++ "};" ++ nl ++
         "// Best for " ++ skillName ++ "?");
       options :=
         ["Theory study"; "Practice"; "Collaboration"; "Self-directed"];
       correctAnswerIndex := 1 |};
    {| question :=
         "What challenges are common when learning " ++ skillName ++ "?";
       codeSnippet := Some (
         "// " ++ skillName ++ " learning obstacles" ++ nl ++
         "const barriers = {" ++ nl ++ "  complexity: 'Difficult concepts'," ++
         nl ++ "  resources: 'Limited materials'," ++ nl ++
         "  time: 'Insufficient practice'," ++ nl ++
         "  motivation: 'Low engagement'" ++ nl ++ "};" ++ nl ++
         "// Biggest hurdle for " ++ skillName ++ "?");
       options :=
         ["Complexity"; "Resource limits"; "Time constraints"; "Motivation"];
       correctAnswerIndex := 0 |};
    {| question :=
         "How do you apply " ++ skillName ++ " in real situations?";
       codeSnippet := Some (
         "// " ++ skillName ++ " practical application" ++ nl ++
         "const contexts = {" ++ nl ++ "  academic: 'Educational settings'," ++
         nl ++ "  professional: 'Work environments'," ++ nl ++
         "  personal: 'Individual projects'," ++ nl ++
         "  community: 'Group activities'" ++ nl ++ "};" ++ nl ++
         "// Most relevant for " ++ skillName ++ "?");
       options :=
         ["Academic"; "Professional"; "Personal"; "Community"];
       correctAnswerIndex := 1 |};
    {| question :=
         "What resources support " ++ skillName ++ " development?";
       codeSnippet := Some (
         "// " ++ skillName ++ " resource types" ++ nl ++
         "const materials = {" ++ nl ++ "  books: 'Written guides'," ++ nl ++
         "  courses: 'Structured learning'," ++ nl ++
         "  mentors: 'Expert guidance'," ++ nl ++
         "  practice: 'Applied experience'" ++ nl ++ "};" ++ nl ++
         "// Most valuable for " ++ skillName ++ "?");
       options :=
         ["Books"; "Courses"; "Mentors"; "Practice"];
       correctAnswerIndex := 3 |}
  ].

Definition questionTemplates (skillName : string) : list (string * list QuizQuestion) :=
  [ ("technical", templates_technical skillName);
    ("creative", templates_creative skillName);
    ("business", templates_business skillName);
    ("science", templates_science skillName);
    ("general", templates_general skillName) ].

(** [shuffle] stands for [l => [...l].sort(() => Math.random() - 0.5)], the
    one random step: it rearranges the elements of its argument.
    [detectedDomain] is always one of the own keys of [questionTemplates]. *)
Definition generateRandomQuestions
    (shuffle : list QuizQuestion -> list QuizQuestion) (skillName : string)
  : list QuizQuestion :=
  let lowerSkillName := toLowerCase skillName in
  let detectedDomain := detectDomain lowerSkillName in
  let domainQuestions :=
    match assoc detectedDomain (questionTemplates skillName) with
    | Some qs => qs
    | None => templates_general skillName
    end in
  let shuffled := shuffle domainQuestions in
  firstn 5 shuffled.

Definition getFallbackQuiz
    (shuffle : list QuizQuestion -> list QuizQuestion) (skillName : string)
  : FallbackResult :=
  let lowerSkillName := toLowerCase skillName in
  match getProperty skillMatches lowerSkillName with
  | Some _ => quizOrJavascript lowerSkillName
  | None =>
      match bestMatch lowerSkillName with
      | Some best => quizOrJavascript (quizKey best)
      | None =>
          match find (fun entry => includes lowerSkillName (fst entry))
                     fallbackQuizzes with
          | Some (_, questions) => Questions questions
          | None => Questions (generateRandomQuestions shuffle skillName)
          end
      end
  end.

End Fallback.

(** ** Decoded responses *)

(** A value produced by [JSON.parse] (or carried by a provider response).
    An object is the list of its own properties. *)
#[local] Set Warnings "-register-all".
Inductive Json : Type :=
| JNull
| JBool (b : bool)
| JNum (q : Q)
| JStr (s : string)
| JArr (items : list Json)
| JObj (fields : list (string * Json)).

(** JavaScript truthiness; [None] is [undefined]. *)
Definition truthy (v : option Json) : bool :=
  match v with
  | None | Some JNull => false
  | Some (JBool b) => b
  | Some (JNum q) => negb (Qeq_bool q 0)
  | Some (JStr s) => negb (String.eqb s "")
  | Some (JArr _) | Some (JObj _) => true
  end.

(** [Array.isArray(v)] *)
Definition isArray (v : option Json) : bool :=
  match v with
  | Some (JArr _) => true
  | _ => false
  end.

(** [v.name], for the property names the services read ([skills],
    [roadmap], [choices], [message], [content], [title], [description],
    [duration], [resources]), none of which a prototype defines: reading
    from [null] or [undefined] throws a [TypeError]. *)
Definition member (v : option Json) (name : string) : Outcome (option Json) :=
  match v with
  | None => Throws (Error ("Cannot read properties of undefined (reading '" ++ name ++ "')"))
  | Some JNull => Throws (Error ("Cannot read properties of null (reading '" ++ name ++ "')"))
  | Some (JObj fields) => Returns (assoc name fields)
  | Some _ => Returns None
  end.

(** [v?.name] *)
Definition optMember (v : option Json) (name : string) : Outcome (option Json) :=
  match v with
  | None | Some JNull => Returns None
  | _ => member v name
  end.

(** [v[0]] *)
Definition index0 (v : option Json) : Outcome (option Json) :=
  match v with
  | None => Throws (Error "Cannot read properties of undefined (reading '0')")
  | Some JNull => Throws (Error "Cannot read properties of null (reading '0')")
  | Some (JArr items) => Returns (hd_error items)
  | Some (JObj fields) => Returns (assoc "0" fields)
  | Some (JStr (String c _)) => Returns (Some (JStr (String c EmptyString)))
  | Some _ => Returns None
  end.

(** [{ score, reasoning, commonInterests }] *)
Definition matchResult (score : Z) (reasoning : string) (commonInterests : list Json)
  : Json :=
  JObj [ ("score", JNum (inject_Z score));
         ("reasoning", JStr reasoning);
         ("commonInterests", JArr commonInterests) ].

(** [content.replace(/```json\n?|```/g, '')]: scanning left to right, each
    occurrence of the fence (with its [json] tag and one following newline
    when present) is dropped. [skip] counts characters of a match still to
    drop. *)
Fixpoint stripFences (skip : nat) (s : string) : string :=
  match s with
  | EmptyString => EmptyString
  | String c s' =>
      match skip with
      | S k => stripFences k s'
      | O =>
          if String.prefix "```json" s then
            if String.prefix ("```json" ++ nl) s then stripFences 7 s'
            else stripFences 6 s'
          else if String.prefix "```" s then stripFences 2 s'
          else String c (stripFences 0 s')
      end
  end.

Definition isSpace (c : ascii) : bool :=
  let n := nat_of_ascii c in
  ((9 <=? n)%nat && (n <=? 13)%nat) || (n =? 32)%nat.

Fixpoint trimStart (s : string) : string :=
  match s with
  | String c s' => if isSpace c then trimStart s' else s
  | EmptyString => EmptyString
  end.

Fixpoint trimEnd (s : string) : string :=
  match s with
  | EmptyString => EmptyString
  | String c s' =>
      match trimEnd s' with
      | EmptyString => if isSpace c then EmptyString else String c EmptyString
      | t => String c t
      end
  end.

(** [s.trim()] *)
Definition trim (s : string) : string := trimEnd (trimStart s).

(** [content.replace(/```json\n?|```/g, '').trim()]; reading [replace]
    from [undefined] or [null] throws, and any other [content] that is not
    a string has no [replace] method. *)
Definition cleanContent (content : option Json) : Outcome string :=
  match content with
  | Some (JStr s) => Returns (trim (stripFences 0 s))
  | None =>
      Throws (Error "Cannot read properties of undefined (reading 'replace')")
  | Some JNull =>
      Throws (Error "Cannot read properties of null (reading 'replace')")
  | Some _ => Throws (Error "content.replace is not a function")
  end.

(** [${error.message}] *)
Definition messageOf (e : JsError) : string :=
  match err_message e with
  | Some m => m
  | None => "undefined"
  end.

(** ** Gemini service ([geminiService.ts]) *)

Module Gemini.
Import Fallback.
Local Open Scope js_scope.

(** The two environment variables read by [getAIClient]. *)
Record Env : Type := mkEnv {
  API_KEY : option string;
  GEMINI_API_KEY : option string
}.

Inductive AIClient : Type :=
| GoogleGenAI (apiKey : string).

(** [a || b] on optional strings: the empty string is falsy. *)
Definition orElse (a b : option string) : option string :=
  match a with
  | Some s => if String.eqb s "" then b else a
  | None => b
  end.

Definition getAIClient (env : Env) : Outcome AIClient :=
  match orElse (API_KEY env) (GEMINI_API_KEY env) with
  | Some apiKey =>
      if String.eqb apiKey "" then Throws (Error "API Key not found")
      else Returns (GoogleGenAI apiKey)
  | None => Throws (Error "API Key not found")
  end.

(** The value a quiz call resolves to: the decoded response as received,
    or the fallback selector's result. *)
Inductive QuizResult : Type :=
| Decoded (j : Json)
| Fallback (r : FallbackResult).

Section Generators.
(** [JSON.parse] *)
Variable JSON_parse : string -> Outcome Json.

(** [if (response.text) return JSON.parse(response.text); return dflt;] *)
Definition parseTextOr (dflt : Json) (text : option string) : Outcome Json :=
  match text with
  | Some t => if String.eqb t "" then Returns dflt else JSON_parse t
  | None => Returns dflt
  end.

Section Quiz.
Context {W : Type}.
(** One [ai.models.generateContent] call: it sees the state of the
    world and resolves with [response.text] or rejects. *)
Variable generateContent : W -> Outcome (option string) * W.
Variable random : nat -> Q.
Variable shuffle : list QuizQuestion -> list QuizQuestion.
Variable env : Env.

Definition generateQuizInternal (w : W) : Outcome Json * W :=
  match getAIClient env with
  | Throws e => (Throws e, w)
  | Returns ai =>
      let (response, w1) := generateContent w in
      (text <- response ;; parseTextOr (JArr []) text, w1)
  end.

Definition generateQuiz (skillName : string) (w : W)
  : Outcome QuizResult * W * list Retry.Event :=
  let '(r, w', tr) :=
    Retry.retryWithBackoff generateQuizInternal random 3 (1000 # 1) w in
  (tryCatch (j <- r ;; Returns (Decoded j))
            (fun error => Returns (Fallback (getFallbackQuiz shuffle skillName))),
   w', tr).
End Quiz.

(** In the three operations below [response] is the outcome of the single
    [ai.models.generateContent] call: [response.text], or a rejection. *)

Definition generateRoadmap (env : Env) (response : Outcome (option string))
  : Outcome Json :=
  ai <- getAIClient env ;;
  tryCatch (text <- response ;; parseTextOr (JArr []) text)
           (fun error => Throws error).

Definition analyzeMatch (env : Env) (response : Outcome (option string))
  : Outcome Json :=
  ai <- getAIClient env ;;
  tryCatch (text <- response ;;
            parseTextOr (matchResult 0 "Could not analyze match." []) text)
           (fun error => Returns (matchResult 50 "AI analysis unavailable." [])).

Definition defaults : list string :=
  ["Machine Learning"; "Cloud Computing"; "Cybersecurity"; "DevOps"; "Blockchain"].

(** [l.includes(s)] on an array of strings *)
Definition arrayIncludes (l : list string) (s : string) : bool :=
  existsb (String.eqb s) l.

Definition suggestSkills (env : Env) (currentSkills currentGoals : list string)
    (response : Outcome (option string)) : Outcome Json :=
  ai <- getAIClient env ;;
  tryCatch
    (text <- response ;;
     match text with
     | Some t =>
         if String.eqb t "" then Returns (JArr [])
         else
           data <- JSON_parse t ;;
           skills <- member (Some data) "skills" ;;
           match skills with            (* data.skills || [] *)
           | Some v => if truthy skills then Returns v else Returns (JArr [])
           | None => Returns (JArr [])
           end
     | None => Returns (JArr [])
     end)
    (fun e =>
       Returns (JArr (map JStr
         (filter (fun s => negb (arrayIncludes currentSkills s)
                           && negb (arrayIncludes currentGoals s))
                 defaults)))).
End Generators.

End Gemini.

(** ** Direct Mistral integration ([mistralDirectService.ts]) *)

Module MistralDirect.
Local Open Scope js_scope.

(** What [await fetch(...)] resolves to: the status line and the outcome
    of [response.json()]. *)
Record Response : Type := mkResponse {
  ok : bool;
  status : nat;
  statusText : string;
  json : Outcome Json
}.

(** [{ step, title, description, duration, resources }] *)
Definition roadmapStep (step : Z) (title description duration : string)
    (resources : list string) : Json :=
  JObj [ ("step", JNum (inject_Z step));
         ("title", JStr title);
         ("description", JStr description);
         ("duration", JStr duration);
         ("resources", JArr (map JStr resources)) ].

Definition fallbackSkills : Json :=
  JArr (map JStr ["React"; "Node.js"; "TypeScript"; "Docker"; "AWS"]).

Definition fallbackRoadmap (skill : string) : Json :=
  JArr
    [ roadmapStep 1 ("Getting Started with " ++ skill)
        ("Learn the fundamentals and basic concepts of " ++ skill)
        "1-2 weeks"
        ["Official documentation"; "Beginner tutorials"; "Practice exercises"];
      roadmapStep 2 ("Core " ++ skill ++ " Concepts")
        "Deep dive into essential concepts and principles"
        "2-3 weeks"
        ["Video courses"; "Hands-on projects"; "Community forums"];
      roadmapStep 3 "Practical Application"
        "Apply your knowledge through real-world projects"
        "3-4 weeks"
        ["Project templates"; "Code repositories"; "Mentorship programs"];
      roadmapStep 4 "Advanced Techniques"
        "Master advanced concepts and best practices"
        "4-6 weeks"
        ["Advanced documentation"; "Expert tutorials"; "Case studies"];
      roadmapStep 5 "Specialization"
        ("Focus on specific areas of expertise within " ++ skill)
        "6-8 weeks"
        ["Specialized courses"; "Research papers"; "Professional workshops"];
      roadmapStep 6 "Mastery & Portfolio"
        "Build a comprehensive portfolio and contribute to the community"
        "8-12 weeks"
        ["Portfolio projects"; "Open source contributions";
         "Speaking opportunities"] ].

Section Direct.
(** [JSON.parse] *)
Variable JSON_parse : string -> Outcome Json.

(** The [try] body shared by both operations up to the decoded value:
    the HTTP status check, [data.choices[0]?.message?.content], the
    fence stripping and [JSON.parse]. *)
Definition decodeReply (fetch : Outcome Response) : Outcome Json :=
  response <- fetch ;;
  if negb (ok response) then
    Throws (Error ("Mistral API error: " ++ showNat (status response) ++ " "
                   ++ statusText response))
  else
    data <- json response ;;
    choices <- member (Some data) "choices" ;;
    choice <- index0 choices ;;
    message <- optMember choice "message" ;;
    content <- optMember message "content" ;;
    if negb (truthy content) then
      Throws (Error "No content received from Mistral API")
    else
      clean <- cleanContent content ;;
      JSON_parse clean.

(** [if (!parsed.f || !Array.isArray(parsed.f)) throw ...; return parsed.f] *)
Definition arrayField (parsed : Json) (f : string) : Outcome Json :=
  v <- member (Some parsed) f ;;
  match v with
  | Some (JArr items) => Returns (JArr items)
  | _ => Throws (Error "Invalid response format")
  end.

Definition suggestSkillsDirect (fetch : Outcome Response) : Outcome Json :=
  tryCatch (parsed <- decodeReply fetch ;; arrayField parsed "skills")
           (fun error => Returns fallbackSkills).

Definition generateRoadmapDirect (skill : string) (fetch : Outcome Response)
  : Outcome Json :=
  tryCatch (parsed <- decodeReply fetch ;; arrayField parsed "roadmap")
           (fun error => Returns (fallbackRoadmap skill)).
End Direct.

End MistralDirect.

(** ** Server-side Mistral service (LangChain client) *)

Module MistralServer.
Local Open Scope js_scope.

Section Server.
(** [JSON.parse] *)
Variable JSON_parse : string -> Outcome Json.

(** [invoke] is the outcome of formatting the prompt and awaiting
    [mistral.invoke]: [response.content], or a rejection. *)
Definition decodeContent (invoke : Outcome (option Json)) : Outcome Json :=
  content <- invoke ;;
  clean <- cleanContent content ;;
  JSON_parse clean.

(** [if (!data.f || !Array.isArray(data.f)) throw new Error(msg)] *)
Definition requireArray (data : Json) (f msg : string) : Outcome (list Json) :=
  v <- member (Some data) f ;;
  match v with
  | Some (JArr items) => Returns items
  | _ => Throws (Error msg)
  end.

Definition suggestSkills (invoke : Outcome (option Json)) : Outcome Json :=
  tryCatch
    (data <- decodeContent invoke ;;
     skills <- requireArray data "skills" "Invalid skills response structure" ;;
     if negb (List.length skills =? 5)%nat then
       Throws (Error ("Expected 5 skills, got " ++ showNat (List.length skills)))
     else Returns (JArr skills))
    (fun error => Throws (Error ("Failed to suggest skills: " ++ messageOf error))).

(** [!v || typeof v !== 'string'] *)
Definition notNonEmptyString (v : option Json) : bool :=
  match v with
  | Some (JStr s) => String.eqb s ""
  | _ => true
  end.

(** The body of the [forEach] callback for the step at [index]. *)
Definition validateStep (step : Json) (index : nat) : Outcome unit :=
  let label := "Step " ++ showNat (index + 1) in
  title <- member (Some step) "title" ;;
  if notNonEmptyString title then Throws (Error (label ++ ": Invalid title"))
  else
    description <- member (Some step) "description" ;;
    if notNonEmptyString description
    then Throws (Error (label ++ ": Invalid description"))
    else
      duration <- member (Some step) "duration" ;;
      if notNonEmptyString duration
      then Throws (Error (label ++ ": Invalid duration"))
      else
        resources <- member (Some step) "resources" ;;
        match resources with
        | Some (JArr rs) =>
            if negb (List.length rs =? 3)%nat
            then Throws (Error (label ++ ": Must have exactly 3 resources"))
            else Returns tt
        | _ => Throws (Error (label ++ ": Must have exactly 3 resources"))
        end.

(** [steps.forEach((step, index) => ...)] from [index] on. *)
Fixpoint validateSteps (steps : list Json) (index : nat) : Outcome unit :=
  match steps with
  | [] => Returns tt
  | step :: rest =>
      _ <- validateStep step index ;; validateSteps rest (S index)
  end.

Definition generateRoadmap (invoke : Outcome (option Json)) : Outcome Json :=
  tryCatch
    (data <- decodeContent invoke ;;
     roadmap <- requireArray data "roadmap" "Invalid roadmap response structure" ;;
     if negb (List.length roadmap =? 6)%nat then
       Throws (Error ("Expected 6 roadmap steps, got "
                      ++ showNat (List.length roadmap)))
     else
       _ <- validateSteps roadmap 0 ;;
       Returns (JArr roadmap))
    (fun error => Throws (Error ("Failed to generate roadmap: " ++ messageOf error))).
End Server.

End MistralServer.

(** ** Declared shapes *)

Module Shape.
Import Fallback.

(** [0 <= correctAnswerIndex < options.length] *)
Definition answerInRange (q : QuizQuestion) : bool :=
  ((0 <=? correctAnswerIndex q)
   && (correctAnswerIndex q <? Z.of_nat (List.length (options q))))%Z.

(** Exactly five questions, each with its answer index in range. *)
Definition quizShape (qs : list QuizQuestion) : bool :=
  (List.length qs =? 5)%nat && forallb answerInRange qs.


End Shape.

(** ** Sample exchanges *)

Module Samples.

(** The text [{"skills":["Go"]}] *)
Definition oneSkillText : string :=
  "{" ++ dq ++ "skills" ++ dq ++ ":[" ++ dq ++ "Go" ++ dq ++ "]}".

(** What [JSON.parse] makes of [oneSkillText]. *)
Definition oneSkill : Json := JObj [("skills", JArr [JStr "Go"])].

(** A chat-completion body whose first choice carries [content]. *)
Definition chatBody (content : string) : Json :=
  JObj [("choices", JArr [JObj [("message", JObj [("content", JStr content)])]])].

(** An HTTP 200 reply with that body. *)
Definition okReply (content : string) : Outcome MistralDirect.Response :=
  Returns (MistralDirect.mkResponse true 200 "OK" (Returns (chatBody content))).

(** An operation that is rejected with "503 Service Unavailable" at every
    invocation; its state counts the invocations. *)
Definition unavailable : JsError :=
  mkJsError (Some 503%Z) None (Some "Service Unavailable").

Definition alwaysUnavailable {T : Type} (calls : nat) : Outcome T * nat :=
  (Throws unavailable, S calls).

(** An operation that is rejected with "401 Unauthorized". *)
Definition unauthorized : JsError :=
  mkJsError (Some 401%Z) None (Some "Unauthorized").

Definition alwaysUnauthorized {T : Type} (calls : nat) : Outcome T * nat :=
  (Throws unauthorized, S calls).

(** [Math.random()] yielding 0.5 at every draw. *)
Definition halves (attempt : nat) : Q := 1 # 2.

(** [l => [...l].reverse()], one possible outcome of the random sort. *)
Definition reversed (l : list Fallback.QuizQuestion) : list Fallback.QuizQuestion :=
  rev l.

Definition withKey : Gemini.Env := Gemini.mkEnv (Some "key") None.
Definition withoutKey : Gemini.Env := Gemini.mkEnv None None.

Definition quoted (s : string) : string := dq ++ s ++ dq.

(** The text [{"skills":["Go","Rust","SQL","Docker","Git"]}] and its
    decoding. *)
Definition fiveSkillsText : string :=
  "{" ++ quoted "skills" ++ ":[" ++ quoted "Go" ++ "," ++ quoted "Rust" ++ ","
  ++ quoted "SQL" ++ "," ++ quoted "Docker" ++ "," ++ quoted "Git" ++ "]}".

Definition fiveSkills : Json :=
  JObj [("skills", JArr (map JStr ["Go"; "Rust"; "SQL"; "Docker"; "Git"]))].

(** The text of one roadmap step with resources [a], [b], [c], and its
    decoding. *)
Definition stepText (n title : string) : string :=
  "{" ++ quoted "step" ++ ":" ++ n ++ "," ++ quoted "title" ++ ":" ++ quoted title
  ++ "," ++ quoted "description" ++ ":" ++ quoted "Practice" ++ ","
  ++ quoted "duration" ++ ":" ++ quoted "1 week" ++ ","
  ++ quoted "resources" ++ ":[" ++ quoted "a" ++ "," ++ quoted "b" ++ ","
  ++ quoted "c" ++ "]}".

Definition step (n : Z) (title : string) : Json :=
  MistralDirect.roadmapStep n title "Practice" "1 week" ["a"; "b"; "c"].

Definition sixStepsText : string :=
  "{" ++ quoted "roadmap" ++ ":[" ++ stepText "1" "Basics" ++ ","
  ++ stepText "2" "Syntax" ++ "," ++ stepText "3" "Tooling" ++ ","
  ++ stepText "4" "Projects" ++ "," ++ stepText "5" "Testing" ++ ","
  ++ stepText "6" "Mastery" ++ "]}".

Definition sixSteps : Json :=
  JObj [("roadmap", JArr [ step 1 "Basics"; step 2 "Syntax"; step 3 "Tooling";
                           step 4 "Projects"; step 5 "Testing"; step 6 "Mastery" ])].

(** [JSON.parse] restricted to the two texts above. *)
Definition parseSamples (s : string) : Outcome Json :=
  if String.eqb s fiveSkillsText then Returns fiveSkills
  else if String.eqb s sixStepsText then Returns sixSteps
  else Throws (Error "Unexpected token").

End Samples.

(** ** Observations on a retry trace *)

Module Trace.
Import Retry.

(** The attempt numbers of the invocations, in order. *)
Definition invokedAttempts (tr : list Event) : list nat :=
  flat_map (fun ev => match ev with Invoke a => [a] | Sleep _ => [] end) tr.

(** The state of the world after [j] invocations of [operation]. *)
Definition stateAfter {W T : Type} (operation : W -> Outcome T * W) (j : nat) (w : W)
  : W :=
  Nat.iter j (fun s => snd (operation s)) w.

(** An outcome that ends the loop whatever the attempt: a value, or a
    client error. *)
Definition endsLoop {T : Type} (r : Outcome T) : bool :=
  match r with
  | Returns _ => true
  | Throws e => isClientError e
  end.

(** The trace that starts with the invocation at attempt [a] and goes on,
    for each delay in turn, with a wait of that delay followed by the next
    invocation. *)
Fixpoint schedule (a : nat) (delays : list Q) : list Event :=
  match delays with
  | [] => [Invoke a]
  | d :: rest => Invoke a :: Sleep d :: schedule (S a) rest
  end.

End Trace.

(** ** Question relevance ([validateQuestionRelevance]) *)

Module Relevance.

(** [l.includes(s)] on an array of strings *)
Definition arrayIncludes (l : list string) (s : string) : bool :=
  existsb (String.eqb s) l.

(** The terms pushed after the skill itself, by kind of skill. *)
Definition relatedTerms (lowerSkill : string) : list string :=
  if arrayIncludes ["javascript"; "python"; "java"; "c++"; "c#"; "typescript"] lowerSkill
  then ["code"; "function"; "variable"; "class"; "method"; "algorithm"]
  else if arrayIncludes ["react"; "vue"; "angular"] lowerSkill
  then ["component"; "props"; "state"; "hook"; "render"; "jsx"]
  else if arrayIncludes ["html"; "css"] lowerSkill
  then ["element"; "style"; "layout"; "selector"; "property"; "tag"]
  else if arrayIncludes ["sql"; "database"] lowerSkill
  then ["query"; "table"; "database"; "sql"; "join"; "index"]
  else [].

Definition validateQuestionRelevance (question skillName : string) : bool :=
  let lowerQuestion := toLowerCase question in
  let lowerSkill := toLowerCase skillName in
  let skillKeywords := lowerSkill :: relatedTerms lowerSkill in
  existsb (fun keyword => includes lowerQuestion keyword) skillKeywords.

End Relevance.

(** ** Complete questions *)

Module Checks.
Import Fallback.

(** A question with a code snippet, exactly four options, and an answer
    index among them. *)
Definition completeQuestion (q : QuizQuestion) : bool :=
  match codeSnippet q with Some _ => true | None => false end
  && (List.length (options q) =? 4)%nat
  && (0 <=? correctAnswerIndex q)%Z && (correctAnswerIndex q <? 4)%Z.

(** Matches of one recorded length. *)
Definition ofLength (n : nat) (m : Match) : bool := (length m =? n)%nat.

(** [x] comes no later than [y] in descending order of length. *)
Definition longerFirst (x y : Match) : Prop := (length y <= length x)%nat.

End Checks.

(** ** Well-formed payloads *)

Module Payload.

(** The text contains no backtick. *)
Fixpoint noBacktick (s : string) : bool :=
  match s with
  | EmptyString => true
  | String c s' => negb (Ascii.eqb c "`"%char) && noBacktick s'
  end.

(** A roadmap step with non-empty string [title], [description] and
    [duration] and exactly three [resources]. *)
Definition validStep (step : Json) : Prop :=
  exists fields title description duration r1 r2 r3,
    step = JObj fields
    /\ assoc "title" fields = Some (JStr title) /\ title <> ""
    /\ assoc "description" fields = Some (JStr description) /\ description <> ""
    /\ assoc "duration" fields = Some (JStr duration) /\ duration <> ""
    /\ assoc "resources" fields = Some (JArr [r1; r2; r3]).

(** The three ways a reply wraps a payload: bare, in a fence, in a fence
    tagged [json]. *)
Definition fenced (body : string) : string := "```" ++ nl ++ body ++ nl ++ "```".
Definition fencedJson (body : string) : string :=
  "```json" ++ nl ++ body ++ nl ++ "```".

End Payload.

(** ** Further sample exchanges *)

Module MoreSamples.

(** An operation that is rejected with 503 at its first invocation and
    resolves with the count of earlier invocations afterwards. *)
Definition failsOnce (calls : nat) : Outcome nat * nat :=
  match calls with
  | O => (Throws Samples.unavailable, 1%nat)
  | S _ => (Returns calls, S calls)
  end.

(** A remote endpoint that answers [text] at every call. *)
Definition answers (text : option string) (calls : nat)
  : Outcome (option string) * nat :=
  (Returns text, S calls).

(** A timeout error: no code, no status, no "503" in the message. *)
Definition timeout : JsError := Error "Request timed out".

(** [JSON.parse] restricted to the one-skill text. *)
Definition parseOneSkill (s : string) : Outcome Json :=
  if String.eqb s Samples.oneSkillText then Returns Samples.oneSkill
  else Throws (Error "Unexpected token").

(** An HTTP 500 reply. *)
Definition serverError : Outcome MistralDirect.Response :=
  Returns (MistralDirect.mkResponse false 500 "Internal Server Error"
                                    (Returns JNull)).

Definition yogaQuestion : string := "How do you apply Yoga in real situations?".

End MoreSamples.

(** ** Kinds of remote failure *)

Module Failure.
Local Open Scope js_scope.

(** [data.choices[0]?.message?.content] *)
Definition replyContent (data : Json) : Outcome (option Json) :=
  choices <- member (Some data) "choices" ;;
  choice <- index0 choices ;;
  message <- optMember choice "message" ;;
  optMember message "content".

(** A decoded answer whose [field] is an array: what the direct operations
    check. *)
Definition hasArray (field : string) (parsed : Json) : Prop :=
  exists fields items,
    parsed = JObj fields /\ assoc field fields = Some (JArr items).

(** A decoded answer with an array of five skills, and one with an array
    of six valid steps: what the server-side operations check. *)
Definition hasFiveSkills (parsed : Json) : Prop :=
  exists fields items,
    parsed = JObj fields /\ assoc "skills" fields = Some (JArr items)
    /\ List.length items = 5%nat.

Definition hasSixValidSteps (parsed : Json) : Prop :=
  exists fields items,
    parsed = JObj fields /\ assoc "roadmap" fields = Some (JArr items)
    /\ List.length items = 6%nat /\ Forall Payload.validStep items.

Section Kinds.
Variable JSON_parse : string -> Outcome Json.

(** How the remote path of a single-call Gemini operation fails, with the
    error raised: the call is rejected, or its text does not decode. *)
Inductive GeminiFails : Outcome (option string) -> JsError -> Prop :=
| CallRejected (e : JsError) : GeminiFails (Throws e) e
| TextUndecodable (t : string) (e : JsError) :
    t <> "" -> JSON_parse t = Throws e -> GeminiFails (Returns (Some t)) e.

(** How the remote path of a direct operation fails, [valid] being its
    check of the decoded answer: the request is rejected; the HTTP reply is
    not OK; its body cannot be read; the content cannot be reached, is
    missing or empty, or is not a text; the text does not decode; the
    decoded answer fails the check. *)
Inductive DirectFails (valid : Json -> Prop)
  : Outcome MistralDirect.Response -> Prop :=
| FetchRejected (e : JsError) : DirectFails valid (Throws e)
| HttpNotOk (response : MistralDirect.Response) :
    MistralDirect.ok response = false -> DirectFails valid (Returns response)
| BodyUnreadable (response : MistralDirect.Response) (e : JsError) :
    MistralDirect.ok response = true ->
    MistralDirect.json response = Throws e ->
    DirectFails valid (Returns response)
| ContentUnreachable (response : MistralDirect.Response) (data : Json) (e : JsError) :
    MistralDirect.ok response = true ->
    MistralDirect.json response = Returns data ->
    replyContent data = Throws e ->
    DirectFails valid (Returns response)
| ContentEmpty (response : MistralDirect.Response) (data : Json)
               (content : option Json) :
    MistralDirect.ok response = true ->
    MistralDirect.json response = Returns data ->
    replyContent data = Returns content -> truthy content = false ->
    DirectFails valid (Returns response)
| ContentNotText (response : MistralDirect.Response) (data : Json)
                 (content : option Json) :
    MistralDirect.ok response = true ->
    MistralDirect.json response = Returns data ->
    replyContent data = Returns content -> truthy content = true ->
    (forall s, content <> Some (JStr s)) ->
    DirectFails valid (Returns response)
| ReplyUndecodable (response : MistralDirect.Response) (data : Json)
                   (s : string) (e : JsError) :
    MistralDirect.ok response = true ->
    MistralDirect.json response = Returns data ->
    replyContent data = Returns (Some (JStr s)) -> s <> "" ->
    JSON_parse (trim (stripFences 0 s)) = Throws e ->
    DirectFails valid (Returns response)
| ReplyInvalid (response : MistralDirect.Response) (data : Json)
               (s : string) (parsed : Json) :
    MistralDirect.ok response = true ->
    MistralDirect.json response = Returns data ->
    replyContent data = Returns (Some (JStr s)) -> s <> "" ->
    JSON_parse (trim (stripFences 0 s)) = Returns parsed ->
    ~ valid parsed ->
    DirectFails valid (Returns response).

(** How the remote path of a server-side operation fails: the call is
    rejected; the content is not a text; the text does not decode; the
    decoded answer fails the validation [valid]. *)
Inductive ServerFails (valid : Json -> Prop) : Outcome (option Json) -> Prop :=
| InvokeRejected (e : JsError) : ServerFails valid (Throws e)
| AnswerNotText (content : option Json) :
    (forall s, content <> Some (JStr s)) -> ServerFails valid (Returns content)
| AnswerUndecodable (s : string) (e : JsError) :
    JSON_parse (trim (stripFences 0 s)) = Throws e ->
    ServerFails valid (Returns (Some (JStr s)))
| AnswerInvalid (s : string) (parsed : Json) :
    JSON_parse (trim (stripFences 0 s)) = Returns parsed ->
    ~ valid parsed ->
    ServerFails valid (Returns (Some (JStr s))).
End Kinds.

End Failure.

(** * Properties *)

(** ** Retry policy *)

Section RetryFacts.
Import Retry.
Context {W T : Type}.
Variable operation : W -> Outcome T * W.
Variable random : nat -> Q.
Variable baseDelay : Q.

(** One unfolding of the loop when the invocation rejects with a
    retryable error before the last attempt. *)
Lemma retryFrom_retry maxRetries fuel a w e :
  (a < maxRetries)%nat ->
  fst (operation w) = Throws e ->
  isClientError e = false ->
  retryFrom operation random maxRetries baseDelay (S fuel) a w =
    (let '(r', w', tr) := retryFrom operation random maxRetries baseDelay fuel (S a) (snd (operation w)) in
     (r', w',
      Invoke a :: Sleep (backoffDelay e baseDelay a (random a)) :: tr)).
Proof.
  intros Hlt Hop Hfatal. simpl.
  destruct (operation w) as [r w1]; simpl in *; subst r.
  replace (a <=? maxRetries)%nat with true
    by (symmetry; apply Nat.leb_le; lia).
  rewrite Hfatal.
  replace (a =? maxRetries)%nat with false
    by (symmetry; apply Nat.eqb_neq; lia).
  reflexivity.
Qed.

(** The last attempt rethrows what the invocation threw. *)
Lemma retryFrom_last maxRetries fuel w e :
  fst (operation w) = Throws e ->
  retryFrom operation random maxRetries baseDelay (S fuel) maxRetries w =
    (Throws e, snd (operation w), [Invoke maxRetries]).
Proof.
  intros Hop. simpl.
  destruct (operation w) as [r w1]; simpl in *; subst r.
  rewrite Nat.leb_refl, Nat.eqb_refl.
  destruct (isClientError e); reflexivity.
Qed.

(** A client error ends the loop at once, at any attempt. *)
Lemma retryFrom_client_error maxRetries fuel a w e :
  (a <= maxRetries)%nat ->
  fst (operation w) = Throws e ->
  isClientError e = true ->
  retryFrom operation random maxRetries baseDelay (S fuel) a w = (Throws e, snd (operation w), [Invoke a]).
Proof.
  intros Hle Hop Hfatal. simpl.
  destruct (operation w) as [r w1]; simpl in *; subst r.
  replace (a <=? maxRetries)%nat with true
    by (symmetry; apply Nat.leb_le; lia).
  now rewrite Hfatal.
Qed.

(** The loop bound is never what stops the loop: any larger bound gives
    the same run. *)
Lemma retryFrom_fuel maxRetries fuel fuel' a w :
  (maxRetries < fuel + a)%nat -> (maxRetries < fuel' + a)%nat ->
  retryFrom operation random maxRetries baseDelay fuel a w = retryFrom operation random maxRetries baseDelay fuel' a w.
Proof.
  revert fuel' a w. induction fuel as [|fuel IH]; intros fuel' a w H1 H2.
  - destruct fuel'; simpl;
      replace (a <=? maxRetries)%nat with false
        by (symmetry; apply Nat.leb_gt; lia); reflexivity.
  - destruct fuel' as [|fuel'].
    + simpl. replace (a <=? maxRetries)%nat with false
        by (symmetry; apply Nat.leb_gt; lia). reflexivity.
    + simpl. destruct (a <=? maxRetries)%nat; [|reflexivity].
      destruct (operation w) as [[v|e] w1]; [reflexivity|].
      destruct (isClientError e); [reflexivity|].
      destruct (a =? maxRetries)%nat; [reflexivity|].
      rewrite (IH fuel' (S a) w1) by lia. reflexivity.
Qed.

(** C3: an operation that rejects with a retryable error on every
    invocation is invoked exactly three times by
    [retryWithBackoff(op, 3, d)], which then rethrows the error of the
    third invocation. *)
Theorem retry_exhaustion_three (w : W) :
  (forall s, exists e, fst (operation s) = Throws e /\ isClientError e = false) ->
  let w1 := snd (operation w) in
  let w2 := snd (operation w1) in
  let '(r, w', tr) := retryWithBackoff operation random 3 baseDelay w in
  invocations tr = 3%nat
  /\ r = fst (operation w2)
  /\ (exists e3, r = Throws e3)
  /\ w' = snd (operation w2).
Proof.
  intros Hall w1 w2. unfold retryWithBackoff.
  destruct (Hall w) as [e1 [H1 F1]].
  destruct (Hall w1) as [e2 [H2 F2]].
  destruct (Hall w2) as [e3 [H3 F3]].
  rewrite (retryFrom_retry 3 2 1 w e1) by (assumption || lia).
  fold w1.
  rewrite (retryFrom_retry 3 1 2 w1 e2) by (assumption || lia).
  fold w2.
  rewrite (retryFrom_last 3 0 w2 e3) by assumption.
  cbn. rewrite H3. repeat split. now exists e3.
Qed.

(** C4: when the operation rejects with a client error (code 400 or 401),
    [retryWithBackoff(op, 3, d)] has invoked it exactly once, waits for no
    delay, and rethrows that error. *)
Theorem retry_fatal_once (w : W) (e : JsError) :
  fst (operation w) = Throws e ->
  (err_code e = Some 400%Z \/ err_code e = Some 401%Z) ->
  let '(r, w', tr) := retryWithBackoff operation random 3 baseDelay w in
  r = Throws e
  /\ w' = snd (operation w)
  /\ tr = [Invoke 1]
  /\ invocations tr = 1%nat
  /\ sleeps tr = [].
Proof.
  intros Hop Hcode. unfold retryWithBackoff.
  assert (Hfatal : isClientError e = true).
  { unfold isClientError. destruct Hcode as [-> | ->]; reflexivity. }
  rewrite (retryFrom_client_error 3 2 1 w e) by (assumption || lia).
  repeat split.
Qed.
End RetryFacts.

(** [Math.pow(2, n)] for a natural [n] is the integer power. *)
Lemma pow2_nat (n : nat) :
  (Retry.pow2 (Z.of_nat n) == inject_Z (2 ^ Z.of_nat n))%Q.
Proof.
  unfold Retry.pow2. rewrite Zpower_Qpower by lia. reflexivity.
Qed.

(** C5: at a failed attempt [a] with [1 <= a < maxRetries] and a retryable
    error, the loop waits [delay] and goes on to attempt [a + 1]; for an
    error classified 503 the delay is [baseDelay * 2^a] plus the jitter
    [Math.random() * 2000], which lies in [[0, 2000)]; for any other
    retryable error it is [baseDelay * 2^(a-1)] plus the jitter
    [Math.random() * 1000], which lies in [[0, 1000)]. *)
Theorem backoff_delay_by_class {W T : Type}
    (operation : W -> Outcome T * W) (random : nat -> Q)
    (maxRetries : nat) (baseDelay : Q) (fuel a : nat) (w : W) (e : JsError) :
  (1 <= a)%nat -> (a < maxRetries)%nat ->
  fst (operation w) = Throws e ->
  Retry.isClientError e = false ->
  (0 <= random a)%Q -> (random a < 1)%Q ->
  exists delay jitter : Q,
    Retry.retryFrom operation random maxRetries baseDelay (S fuel) a w =
      (let '(r', w', tr) :=
         Retry.retryFrom operation random maxRetries baseDelay fuel (S a)
                         (snd (operation w)) in
       (r', w', Retry.Invoke a :: Retry.Sleep delay :: tr))
    /\ (if Retry.is503Error e
        then (delay == baseDelay * inject_Z (2 ^ Z.of_nat a) + jitter)%Q
             /\ jitter = (random a * (2000 # 1))%Q
             /\ (0 <= jitter)%Q /\ (jitter < 2000 # 1)%Q
        else (delay == baseDelay * inject_Z (2 ^ (Z.of_nat a - 1)) + jitter)%Q
             /\ jitter = (random a * (1000 # 1))%Q
             /\ (0 <= jitter)%Q /\ (jitter < 1000 # 1)%Q).
Proof.
  intros Ha Hlt Hop Hfatal Hr0 Hr1.
  exists (Retry.backoffDelay e baseDelay a (random a)).
  unfold Retry.backoffDelay.
  destruct (Retry.is503Error e) eqn:H503.
  - exists (random a * (2000 # 1))%Q. split.
    + rewrite (retryFrom_retry operation random baseDelay maxRetries fuel a w e)
        by assumption.
      unfold Retry.backoffDelay. rewrite H503. reflexivity.
    + split; [|split; [reflexivity|split]].
      * rewrite pow2_nat. reflexivity.
      * apply Qmult_le_0_compat; [assumption|discriminate].
      * setoid_replace (2000 # 1)%Q with (1 * (2000 # 1))%Q at 2 by ring.
        apply Qmult_lt_compat_r; [reflexivity|assumption].
  - exists (random a * (1000 # 1))%Q. split.
    + rewrite (retryFrom_retry operation random baseDelay maxRetries fuel a w e)
        by assumption.
      unfold Retry.backoffDelay. rewrite H503. reflexivity.
    + split; [|split; [reflexivity|split]].
      * replace (Z.of_nat a - 1)%Z with (Z.of_nat (a - 1)) by lia.
        rewrite pow2_nat. reflexivity.
      * apply Qmult_le_0_compat; [assumption|discriminate].
      * setoid_replace (1000 # 1)%Q with (1 * (1000 # 1))%Q at 2 by ring.
        apply Qmult_lt_compat_r; [reflexivity|assumption].
Qed.

(** ** Fallback selector *)

Section FallbackFacts.
Import Fallback Shape.

Lemma assoc_In {A : Type} (k : string) (o : list (string * A)) (v : A) :
  assoc k o = Some v -> In (k, v) o.
Proof.
  induction o as [|[k' a] o IH]; simpl; [discriminate|].
  destruct (String.eqb k k') eqn:E.
  - intros [= ->]. apply String.eqb_eq in E. subst. now left.
  - intros H. right. now apply IH.
Qed.

Lemma In_unique_key {A : Type} (k : string) (v1 v2 : A) (o : list (string * A)) :
  NoDup (map fst o) -> In (k, v1) o -> In (k, v2) o -> v1 = v2.
Proof.
  induction o as [|[k' a] o IH]; simpl; [tauto|].
  intros Hnd [H1 | H1] [H2 | H2]; inversion Hnd as [|? ? Hnotin Hnd']; subst.
  - congruence.
  - inversion H1; subst. exfalso. apply Hnotin.
    change k with (fst (k, v2)). now apply in_map.
  - inversion H2; subst. exfalso. apply Hnotin.
    change k with (fst (k, v1)). now apply in_map.
  - now apply IH.
Qed.

Lemma skillMatches_keys_distinct : NoDup (map fst skillMatches).
Proof.
  simpl. repeat (constructor; [simpl; intuition discriminate|]). constructor.
Qed.

Lemma lowerChar_idem (c : ascii) : lowerChar (lowerChar c) = lowerChar c.
Proof. destruct c as [[] [] [] [] [] [] [] []]; reflexivity. Qed.

Lemma toLowerCase_idem (s : string) : toLowerCase (toLowerCase s) = toLowerCase s.
Proof.
  induction s as [|c s IH]; simpl; [reflexivity|].
  now rewrite lowerChar_idem, IH.
Qed.

(** A lower-cased topic that names a member of [Object.prototype]
    includes no keyword of [skillMatches]. *)
Lemma inherited_name_has_no_match (T : string) :
  existsb (String.eqb (toLowerCase T)) objectPrototype = true ->
  collectMatches (toLowerCase T) = [].
Proof.
  intros H. apply existsb_exists in H as [n [Hin Heq]].
  apply String.eqb_eq in Heq.
  pose proof (toLowerCase_idem T) as Hid. rewrite Heq in *. clear Heq.
  simpl in Hin.
  repeat (destruct Hin as [<- | Hin];
          [first [reflexivity | vm_compute in Hid; discriminate]|]).
  contradiction.
Qed.

(** *** The sort puts a strictly longest match first *)

Lemma insertMatch_In (m x : Match) (l : list Match) :
  In x (insertMatch m l) -> x = m \/ In x l.
Proof.
  induction l as [|y l IH]; simpl.
  - intros [<- | []]. now left.
  - destruct (length m <? length y)%nat; simpl.
    + intros [<- | H]; [right; now left|].
      destruct (IH H) as [-> | H']; [now left | right; now right].
    + intros [<- | [<- | H]]; [now left | right; now left | right; now right].
Qed.

Lemma sortMatches_In (x : Match) (l : list Match) :
  In x (sortMatches l) -> In x l.
Proof.
  revert x. induction l as [|m l IH]; simpl; [tauto|].
  intros x H. apply insertMatch_In in H as [-> | H]; [now left|].
  right. now apply IH.
Qed.

Lemma insertMatch_head (m : Match) (l : list Match) :
  hd_error (insertMatch m l) =
    match hd_error l with
    | Some y => if (length m <? length y)%nat then Some y else Some m
    | None => Some m
    end.
Proof.
  destruct l as [|y l]; simpl; [reflexivity|].
  destruct (length m <? length y)%nat; reflexivity.
Qed.

Lemma Match_eq_dec (a b : Match) : {a = b} + {a <> b}.
Proof.
  decide equality; [apply Nat.eq_dec | apply string_dec | apply string_dec].
Qed.

Lemma sortMatches_head_longest (m : Match) (l : list Match) :
  In m l ->
  (forall x, In x l -> x <> m -> (length x < length m)%nat) ->
  hd_error (sortMatches l) = Some m.
Proof.
  induction l as [|x l IH]; simpl; [tauto|].
  intros Hin Hlong. rewrite insertMatch_head.
  destruct (Match_eq_dec x m) as [-> | Hne].
  - destruct (hd_error (sortMatches l)) as [y|] eqn:Hy; [|reflexivity].
    assert (Hyl : In y l).
    { apply sortMatches_In. destruct (sortMatches l); inversion Hy; subst.
      now left. }
    destruct (Match_eq_dec y m) as [-> | Hym].
    + now rewrite Nat.ltb_irrefl.
    + assert (length y < length m)%nat by (apply Hlong; auto).
      replace (length m <? length y)%nat with false; [reflexivity|].
      symmetry. apply Nat.ltb_ge. lia.
  - destruct Hin as [Hx | Hin]; [contradiction|].
    rewrite IH by auto.
    assert (length x < length m)%nat by (apply Hlong; auto).
    replace (length x <? length m)%nat with true; [reflexivity|].
    symmetry. apply Nat.ltb_lt. lia.
Qed.

Lemma collectMatches_In (lower : string) (x : Match) :
  In x (collectMatches lower) ->
  exists keywords kw,
    In (quizKey x, keywords) skillMatches
    /\ find (fun k => includes lower k) keywords = Some kw
    /\ x = mkMatch (quizKey x) kw (String.length kw).
Proof.
  unfold collectMatches. rewrite in_flat_map.
  intros [[key keywords] [Hin Hx]]. unfold matchOf in Hx.
  destruct (find (fun kw => includes lower kw) keywords) as [kw|] eqn:Hf;
    [|contradiction].
  destruct Hx as [<- | []]. simpl. now exists keywords, kw.
Qed.

Lemma collectMatches_intro (lower key : string) (keywords : list string) (kw : string) :
  In (key, keywords) skillMatches ->
  find (fun k => includes lower k) keywords = Some kw ->
  In (mkMatch key kw (String.length kw)) (collectMatches lower).
Proof.
  intros Hin Hf. unfold collectMatches. rewrite in_flat_map.
  exists (key, keywords). split; [assumption|].
  unfold matchOf. rewrite Hf. now left.
Qed.
End FallbackFacts.

Section FallbackSelection.
Import Fallback Shape.
Variable shuffle : list QuizQuestion -> list QuizQuestion.

Lemma static_quizzes_shape (k : string) (qs : list QuizQuestion) :
  In (k, qs) fallbackQuizzes -> quizShape qs = true.
Proof.
  simpl. intros H.
  repeat (destruct H as [[= <- <-] | H]; [reflexivity|]). contradiction.
Qed.

Lemma quizOrJavascript_own (k : string) :
  existsb (String.eqb k) objectPrototype = false ->
  quizOrJavascript k =
    Questions (match assoc k fallbackQuizzes with
               | Some qs => qs
               | None => quiz_javascript
               end).
Proof.
  intros H. unfold quizOrJavascript, getProperty.
  destruct (assoc k fallbackQuizzes); [reflexivity|]. now rewrite H.
Qed.

Lemma skill_keys_not_inherited (k : string) :
  In k (map fst skillMatches) ->
  existsb (String.eqb k) objectPrototype = false.
Proof.
  simpl. intros H.
  repeat (destruct H as [<- | H]; [reflexivity|]). contradiction.
Qed.

Lemma detectDomain_cases (lower : string) :
  In (detectDomain lower) ["technical"; "creative"; "business"; "science"; "general"].
Proof.
  unfold detectDomain, domains. cbn [find snd].
  repeat match goal with
         | |- context [someKeyword lower ?l] => destruct (someKeyword lower l)
         end; simpl; tauto.
Qed.

Lemma domain_pool (T : string) :
  exists pool,
    assoc (detectDomain (toLowerCase T)) (questionTemplates T) = Some pool
    /\ quizShape pool = true.
Proof.
  pose proof (detectDomain_cases (toLowerCase T)) as H. simpl in H.
  repeat (destruct H as [<- | H];
          [eexists; split; [reflexivity | reflexivity]|]).
  contradiction.
Qed.

Lemma quizShape_spec (qs : list QuizQuestion) :
  quizShape qs = true <->
  List.length qs = 5%nat
  /\ Forall (fun q => (0 <= correctAnswerIndex q
                       < Z.of_nat (List.length (options q)))%Z) qs.
Proof.
  unfold quizShape. rewrite andb_true_iff, Nat.eqb_eq, forallb_forall, Forall_forall.
  unfold answerInRange. split; intros [H1 H2]; (split; [assumption|]);
    intros q Hq; specialize (H2 q Hq);
    [apply andb_true_iff in H2 as [Ha Hb] | apply andb_true_iff];
    rewrite Z.leb_le, Z.ltb_lt in *; lia.
Qed.

Section WithShuffle.
Hypothesis shuffle_permutes : forall l, Permutation l (shuffle l).

(** The random branch returns the whole pool of the detected domain,
    rearranged. *)
Lemma generateRandomQuestions_pool (T : string) :
  exists pool,
    assoc (detectDomain (toLowerCase T)) (questionTemplates T) = Some pool
    /\ Permutation pool (generateRandomQuestions shuffle T)
    /\ quizShape (generateRandomQuestions shuffle T) = true.
Proof.
  destruct (domain_pool T) as [pool [Hpool Hshape]].
  exists pool. split; [assumption|].
  unfold generateRandomQuestions. rewrite Hpool.
  pose proof (shuffle_permutes pool) as Hperm.
  apply quizShape_spec in Hshape as [Hlen Hall].
  assert (Hlen' : List.length (shuffle pool) = 5%nat)
    by (rewrite <- Hlen; symmetry; now apply Permutation_length).
  rewrite firstn_all2 by lia.
  split; [assumption|]. apply quizShape_spec. split; [assumption|].
  eapply Permutation_Forall; eassumption.
Qed.

(** Apart from the two lower-case names inherited from
    [Object.prototype], every topic gets five questions with in-range
    answer indices. *)
Lemma fallback_quiz_shape (T : string) :
  existsb (String.eqb (toLowerCase T)) objectPrototype = false ->
  exists qs,
    getFallbackQuiz shuffle T = Questions qs
    /\ List.length qs = 5%nat
    /\ Forall (fun q => (0 <= correctAnswerIndex q
                         < Z.of_nat (List.length (options q)))%Z) qs.
Proof.
  intros Hown.
  assert (Hjs : quizShape quiz_javascript = true) by reflexivity.
  assert (Hkey : forall k, existsb (String.eqb k) objectPrototype = false ->
            exists qs, quizOrJavascript k = Questions qs /\ quizShape qs = true).
  { intros k Hk. rewrite quizOrJavascript_own by assumption.
    eexists; split; [reflexivity|].
    destruct (assoc k fallbackQuizzes) as [qs|] eqn:E; [|assumption].
    eapply static_quizzes_shape, assoc_In, E. }
  cut (exists qs, getFallbackQuiz shuffle T = Questions qs /\ quizShape qs = true).
  { intros [qs [Hq Hs]]. exists qs. split; [assumption|].
    now apply quizShape_spec. }
  unfold getFallbackQuiz, getProperty. rewrite Hown.
  destruct (assoc (toLowerCase T) skillMatches); [now apply Hkey|].
  destruct (bestMatch (toLowerCase T)) as [best|] eqn:Hbest.
  - apply Hkey, skill_keys_not_inherited.
    unfold bestMatch in Hbest.
    assert (Hin : In best (collectMatches (toLowerCase T))).
    { apply sortMatches_In.
      destruct (sortMatches (collectMatches (toLowerCase T)));
        inversion Hbest; subst; now left. }
    apply collectMatches_In in Hin as [kws [kw [Hin _]]].
    change (quizKey best) with (fst (quizKey best, kws)). now apply in_map.
  - destruct (find _ fallbackQuizzes) as [[k qs]|] eqn:Hfind.
    + exists qs. split; [reflexivity|].
      apply find_some in Hfind as [Hin _].
      eapply static_quizzes_shape, Hin.
    + destruct (generateRandomQuestions_pool T) as [pool [_ [_ Hs]]].
      eexists; split; [reflexivity | assumption].
Qed.
End WithShuffle.

(** C1 (failing input): the topic ["constructor"] passes the exact-match
    test through the property every object inherits, and the selector
    hands back that inherited member instead of five questions. *)
Theorem fallback_constructor_not_a_quiz :
  getFallbackQuiz shuffle "constructor" = PrototypeMember "constructor"
  /\ (forall qs, getFallbackQuiz shuffle "constructor" <> Questions qs)
  /\ In "constructor" objectPrototype
  /\ assoc "constructor" skillMatches = None.
Proof.
  split; [reflexivity|]. split; [|split; [simpl; tauto | reflexivity]].
  intros qs H. vm_compute in H. discriminate.
Qed.
End FallbackSelection.

Section KeywordScan.
Import Fallback Shape.
Variable shuffle : list QuizQuestion -> list QuizQuestion.

(** C6 (as stated, refuted): ["html on github"] is no canonical key and
    includes the alias ["html"] of key [html] and the longer alias
    ["github"] of key [git], yet the scan resolves to [html]: for [git]
    it recorded the alias ["git"], listed before ["github"]. *)
Lemma longest_alias_counterexample :
  ~ (forall (T A B a b : string) (kwsA kwsB : list string),
        assoc (toLowerCase T) skillMatches = None ->
        In (A, kwsA) skillMatches -> In a kwsA ->
        In (B, kwsB) skillMatches -> In b kwsB ->
        A <> B ->
        includes (toLowerCase T) a = true ->
        includes (toLowerCase T) b = true ->
        (String.length a < String.length b)%nat ->
        option_map quizKey (bestMatch (toLowerCase T)) = Some B).
Proof.
  intros H.
  specialize (H "html on github" "html" "git" "html" "github"
                ["html"; "html5"; "markup"; "hypertext"]
                ["git"; "github"; "gitlab"; "version control"]).
  assert (Hbest : option_map quizKey (bestMatch (toLowerCase "html on github"))
                  = Some "html") by reflexivity.
  rewrite H in Hbest; try reflexivity; try discriminate;
    simpl; try lia; tauto.
Qed.

(** C6 (amended): for a topic that is not itself a canonical key, the
    scan records for each key the first alias in its list that the
    lower-cased topic includes; when the alias recorded for key [B] is
    strictly longer than the alias recorded for every other key, the
    selection resolves to [B]. *)
Theorem longest_recorded_alias_wins (T B b : string) (kwsB : list string) :
  assoc (toLowerCase T) skillMatches = None ->
  In (B, kwsB) skillMatches ->
  find (fun k => includes (toLowerCase T) k) kwsB = Some b ->
  (forall A kwsA a,
      In (A, kwsA) skillMatches -> A <> B ->
      find (fun k => includes (toLowerCase T) k) kwsA = Some a ->
      (String.length a < String.length b)%nat) ->
  bestMatch (toLowerCase T) = Some (mkMatch B b (String.length b))
  /\ getFallbackQuiz shuffle T = quizOrJavascript B.
Proof.
  intros Hkey HB Hb Hlong.
  assert (Hbest : bestMatch (toLowerCase T) = Some (mkMatch B b (String.length b))).
  { unfold bestMatch. apply sortMatches_head_longest.
    - eapply collectMatches_intro; eassumption.
    - intros x Hx Hne.
      apply collectMatches_In in Hx as [kws [kw [Hin [Hf Hxeq]]]].
      destruct (string_dec (quizKey x) B) as [HeqB | HneB].
      + exfalso. apply Hne. rewrite Hxeq, HeqB. rewrite HeqB in Hin.
        assert (kws = kwsB)
          by (eapply In_unique_key;
              [apply skillMatches_keys_distinct | eassumption | eassumption]).
        subst kws. rewrite Hb in Hf. now inversion Hf.
      + rewrite Hxeq. simpl. eapply Hlong; eassumption. }
  split; [assumption|].
  unfold getFallbackQuiz, getProperty. rewrite Hkey.
  destruct (existsb (String.eqb (toLowerCase T)) objectPrototype) eqn:Hproto.
  - apply inherited_name_has_no_match in Hproto.
    unfold bestMatch in Hbest. rewrite Hproto in Hbest. discriminate.
  - now rewrite Hbest.
Qed.

(** C7 (as stated, refuted): ["typescript"] is a key of [skillMatches]
    but has no precomputed content of its own to be returned. *)
Lemma exact_key_typescript_counterexample :
  ~ (forall T keywords,
        assoc (toLowerCase T) skillMatches = Some keywords ->
        exists own,
          assoc (toLowerCase T) fallbackQuizzes = Some own
          /\ getFallbackQuiz (fun l => l) T = Questions own).
Proof.
  intros H.
  destruct (H "typescript" ["typescript"; "ts"; "tsx"] eq_refl) as [own [Hown _]].
  discriminate Hown.
Qed.

(** C7 (amended): for every topic whose lower-case form is a key of
    [skillMatches], the selector returns at once that key's own entry of
    [fallbackQuizzes] when it has one (java, javascript, react, python,
    html, css) and the javascript entry otherwise; in particular
    ["java"] gets the java questions. *)
Theorem exact_key_lookup (T : string) (keywords : list string) :
  assoc (toLowerCase T) skillMatches = Some keywords ->
  getFallbackQuiz shuffle T =
    Questions (match assoc (toLowerCase T) fallbackQuizzes with
               | Some own => own
               | None => quiz_javascript
               end)
  /\ (In (toLowerCase T) ["java"; "javascript"; "react"; "python"; "html"; "css"]
      <-> assoc (toLowerCase T) fallbackQuizzes <> None)
  /\ getFallbackQuiz shuffle "java" = Questions quiz_java.
Proof.
  intros Hkey. split; [|split; [|reflexivity]].
  - unfold getFallbackQuiz, getProperty. rewrite Hkey.
    apply quizOrJavascript_own, skill_keys_not_inherited.
    apply assoc_In in Hkey.
    change (toLowerCase T) with (fst (toLowerCase T, keywords)). now apply in_map.
  - apply assoc_In in Hkey. simpl in Hkey.
    repeat (destruct Hkey as [[= <- _] | Hkey];
            [vm_compute; intuition (discriminate || congruence)|]).
    contradiction.
Qed.
End KeywordScan.

Section DomainClassification.
Import Fallback Shape.
Variable shuffle : list QuizQuestion -> list QuizQuestion.
Hypothesis shuffle_permutes : forall l, Permutation l (shuffle l).



End DomainClassification.

(** ** Content generators *)

Section GeneratorFacts.
Import Fallback.
Variable JSON_parse : string -> Outcome Json.

(** *** The quiz path *)

Section QuizPath.
Context {W : Type}.
Variable generateContent : W -> Outcome (option string) * W.
Variable random : nat -> Q.
Variable shuffle : list QuizQuestion -> list QuizQuestion.
Variable env : Gemini.Env.

(** [generateQuiz] never rejects; it resolves with the fallback
    selection exactly when the retried operation ends in a failure. *)
Lemma generateQuiz_falls_back (skillName : string) (w : W) :
  let run := Retry.retryWithBackoff
               (Gemini.generateQuizInternal JSON_parse generateContent env)
               random 3 (1000 # 1) w in
  let result := Gemini.generateQuiz JSON_parse generateContent random shuffle
                                    env skillName w in
  (forall e, fst (fst run) = Throws e ->
             fst (fst result)
             = Returns (Gemini.Fallback (getFallbackQuiz shuffle skillName)))
  /\ (forall j, fst (fst run) = Returns j ->
                fst (fst result) = Returns (Gemini.Decoded j))
  /\ (exists v, fst (fst result) = Returns v)
  /\ snd result = snd run.
Proof.
  intros run result. unfold result, Gemini.generateQuiz. fold run.
  destruct run as [[[j|e] w'] tr]; simpl; repeat split;
    try discriminate; try (intros ? [= <-]; reflexivity); eauto.
Qed.

(** Without a key every attempt fails before the remote call. *)
Lemma generateQuizInternal_no_key (w : W) :
  Gemini.getAIClient env = Throws (Error "API Key not found") ->
  Gemini.generateQuizInternal JSON_parse generateContent env w
  = (Throws (Error "API Key not found"), w).
Proof. intros H. unfold Gemini.generateQuizInternal. now rewrite H. Qed.
End QuizPath.

Lemma getAIClient_no_key (env : Gemini.Env) :
  Gemini.API_KEY env = None -> Gemini.GEMINI_API_KEY env = None ->
  Gemini.getAIClient env = Throws (Error "API Key not found").
Proof. intros H1 H2. unfold Gemini.getAIClient. now rewrite H1, H2. Qed.

(** With neither [API_KEY] nor [GEMINI_API_KEY] set, [analyzeMatch]
    rejects with "API Key not found" whatever the remote call would do
    (the client is built before the [try]), while [generateQuiz], which
    builds the client inside the retried operation, makes its three
    attempts and resolves with what [getFallbackQuiz] gives for the
    topic. *)
Theorem missing_api_key {W : Type}
    (generateContent : W -> Outcome (option string) * W)
    (random : nat -> Q) (shuffle : list QuizQuestion -> list QuizQuestion)
    (env : Gemini.Env) (response : Outcome (option string))
    (skillName : string) (w : W) :
  Gemini.API_KEY env = None ->
  Gemini.GEMINI_API_KEY env = None ->
  Gemini.analyzeMatch JSON_parse env response = Throws (Error "API Key not found")
  /\ Gemini.analyzeMatch JSON_parse env response
     <> Returns (matchResult 50 "AI analysis unavailable." [])
  /\ (let '(r, w', tr) :=
        Gemini.generateQuiz JSON_parse generateContent random shuffle env skillName w in
      r = Returns (Gemini.Fallback (getFallbackQuiz shuffle skillName))
      /\ w' = w
      /\ Retry.invocations tr = 3%nat).
Proof.
  intros H1 H2. pose proof (getAIClient_no_key env H1 H2) as Hc.
  split; [|split].
  - unfold Gemini.analyzeMatch. now rewrite Hc.
  - unfold Gemini.analyzeMatch. rewrite Hc. discriminate.
  - unfold Gemini.generateQuiz, Retry.retryWithBackoff.
    set (op := Gemini.generateQuizInternal JSON_parse generateContent env).
    assert (Hop : forall s, op s = (Throws (Error "API Key not found"), s))
      by (intros s; now apply generateQuizInternal_no_key).
    rewrite (retryFrom_retry op random (1000 # 1) 3 2 1 w (Error "API Key not found"))
      by (rewrite ?Hop; (reflexivity || lia)).
    rewrite (Hop w). cbn [snd].
    rewrite (retryFrom_retry op random (1000 # 1) 3 1 2 w (Error "API Key not found"))
      by (rewrite ?Hop; (reflexivity || lia)).
    rewrite (Hop w). cbn [snd].
    rewrite (retryFrom_last op random (1000 # 1) 3 0 w (Error "API Key not found"))
      by (rewrite ?Hop; reflexivity).
    rewrite (Hop w). cbn. repeat split.
Qed.
End GeneratorFacts.

Section FailureHandling.
Import Fallback.
Variable JSON_parse : string -> Outcome Json.

(** The direct operations never reject. *)
Lemma suggestSkillsDirect_total (fetch : Outcome MistralDirect.Response) :
  MistralDirect.suggestSkillsDirect JSON_parse fetch
    = Returns MistralDirect.fallbackSkills
  \/ exists items,
       MistralDirect.suggestSkillsDirect JSON_parse fetch = Returns (JArr items).
Proof.
  unfold MistralDirect.suggestSkillsDirect, MistralDirect.arrayField.
  destruct (MistralDirect.decodeReply JSON_parse fetch) as [parsed|e];
    cbn [bind tryCatch]; [|now left].
  destruct (member (Some parsed) "skills") as [[[]|]|e]; cbn [bind tryCatch];
    first [now left | right; eexists; reflexivity].
Qed.

Lemma generateRoadmapDirect_total (skill : string)
    (fetch : Outcome MistralDirect.Response) :
  MistralDirect.generateRoadmapDirect JSON_parse skill fetch
    = Returns (MistralDirect.fallbackRoadmap skill)
  \/ exists items,
       MistralDirect.generateRoadmapDirect JSON_parse skill fetch
       = Returns (JArr items).
Proof.
  unfold MistralDirect.generateRoadmapDirect, MistralDirect.arrayField.
  destruct (MistralDirect.decodeReply JSON_parse fetch) as [parsed|e];
    cbn [bind tryCatch]; [|now left].
  destruct (member (Some parsed) "roadmap") as [[[]|]|e]; cbn [bind tryCatch];
    first [now left | right; eexists; reflexivity].
Qed.

(** C2 (as stated, refuted): with a key present and a rejected remote
    call, the Gemini [generateRoadmap] does not resolve with any value,
    whatever [JSON.parse] does. *)
Lemma roadmap_rethrows_counterexample :
  ~ (exists parse : string -> Outcome Json,
        forall (env : Gemini.Env) (ai : Gemini.AIClient) (e : JsError),
          Gemini.getAIClient env = Returns ai ->
          exists fallback,
            Gemini.generateRoadmap parse env (Throws e) = Returns fallback).
Proof.
  intros [parse H].
  destruct (H Samples.withKey (Gemini.GoogleGenAI "key") Samples.unavailable
              eq_refl) as [fallback Hf].
  discriminate Hf.
Qed.

End FailureHandling.

(** ** Shape of the returned results *)

Section ShapeValidation.
Import Shape.

(** Whatever [JSON.parse] is, once it decodes [{"skills":["Go"]}] as the
    one-element skill list, the direct operation resolves with that list
    of one skill. *)
Lemma suggestSkillsDirect_one_skill (JSON_parse : string -> Outcome Json) :
  JSON_parse Samples.oneSkillText = Returns Samples.oneSkill ->
  MistralDirect.suggestSkillsDirect JSON_parse (Samples.okReply Samples.oneSkillText)
  = Returns (JArr [JStr "Go"]).
Proof.
  intros Hparse. unfold MistralDirect.suggestSkillsDirect, MistralDirect.decodeReply.
  cbn -[Samples.oneSkillText].
  change (trim (stripFences 0 Samples.oneSkillText)) with Samples.oneSkillText.
  rewrite Hparse. reflexivity.
Qed.

(** C9 (as stated, refuted): no [JSON.parse] that decodes
    [{"skills":["Go"]}] as it should makes every list returned by
    [suggestSkillsDirect] a list of five: that one-skill response is returned
    as received. *)
Lemma direct_skills_unvalidated_counterexample :
  ~ (exists parse : string -> Outcome Json,
        parse Samples.oneSkillText = Returns Samples.oneSkill
        /\ forall (fetch : Outcome MistralDirect.Response) (skills : list Json),
             MistralDirect.suggestSkillsDirect parse fetch = Returns (JArr skills) ->
             List.length skills = 5%nat).
Proof.
  intros [parse [Hparse H]].
  specialize (H (Samples.okReply Samples.oneSkillText) [JStr "Go"]
                (suggestSkillsDirect_one_skill parse Hparse)).
  discriminate H.
Qed.

Variable JSON_parse : string -> Outcome Json.

Lemma validateStep_shape (step : Json) (index : nat) :
  MistralServer.validateStep step index = Returns tt ->
  exists fields title description duration r1 r2 r3,
    step = JObj fields
    /\ assoc "title" fields = Some (JStr title) /\ title <> ""
    /\ assoc "description" fields = Some (JStr description) /\ description <> ""
    /\ assoc "duration" fields = Some (JStr duration) /\ duration <> ""
    /\ assoc "resources" fields = Some (JArr [r1; r2; r3]).
Proof.
  unfold MistralServer.validateStep.
  destruct step as [| | | | |fields]; cbn [member bind MistralServer.notNonEmptyString];
    try discriminate.
  destruct (assoc "title" fields) as [[| | |title| |]|] eqn:Etitle;
    cbn [bind MistralServer.notNonEmptyString]; try discriminate.
  destruct (String.eqb_spec title ""); [discriminate|].
  destruct (assoc "description" fields) as [[| | |description| |]|] eqn:Edescription;
    cbn [bind MistralServer.notNonEmptyString]; try discriminate.
  destruct (String.eqb_spec description ""); [discriminate|].
  destruct (assoc "duration" fields) as [[| | |duration| |]|] eqn:Eduration;
    cbn [bind MistralServer.notNonEmptyString]; try discriminate.
  destruct (String.eqb_spec duration ""); [discriminate|].
  destruct (assoc "resources" fields) as [[| | | |rs|]|] eqn:Eresources;
    cbn [bind]; try discriminate.
  destruct rs as [|r1 [|r2 [|r3 [|r4 rs]]]]; cbn; try discriminate.
  intros _. exists fields, title, description, duration, r1, r2, r3.
  repeat (split; [first [reflexivity | assumption]|]). assumption.
Qed.

Lemma validateSteps_shape (steps : list Json) (index : nat) :
  MistralServer.validateSteps steps index = Returns tt ->
  Forall (fun step => exists i, MistralServer.validateStep step i = Returns tt) steps.
Proof.
  revert index. induction steps as [|step rest IH]; intros index; cbn [MistralServer.validateSteps].
  - constructor.
  - destruct (MistralServer.validateStep step index) as [[]|e] eqn:E;
      cbn [bind]; [|discriminate].
    intros H. constructor; [now exists index | eapply IH, H].
Qed.

(** C9 (amended): the server-side operations validate the decoded
    response before returning it: [suggestSkills] resolves only with an
    array of exactly 5 skills, and [generateRoadmap] only with an array of
    exactly 6 steps, each an object with non-empty string [title],
    [description] and [duration] and exactly 3 [resources]; any other
    response makes them throw. *)
Theorem server_results_validated (invoke : Outcome (option Json)) (v : Json) :
  (MistralServer.suggestSkills JSON_parse invoke = Returns v ->
   exists s1 s2 s3 s4 s5, v = JArr [s1; s2; s3; s4; s5])
  /\ (MistralServer.generateRoadmap JSON_parse invoke = Returns v ->
      exists steps,
        v = JArr steps
        /\ List.length steps = 6%nat
        /\ Forall (fun step =>
             exists fields title description duration r1 r2 r3,
               step = JObj fields
               /\ assoc "title" fields = Some (JStr title) /\ title <> ""
               /\ assoc "description" fields = Some (JStr description)
               /\ description <> ""
               /\ assoc "duration" fields = Some (JStr duration)
               /\ duration <> ""
               /\ assoc "resources" fields = Some (JArr [r1; r2; r3])) steps).
Proof.
  split.
  - unfold MistralServer.suggestSkills.
    destruct (MistralServer.decodeContent JSON_parse invoke) as [data|e];
      cbn [bind tryCatch]; [|discriminate].
    destruct (MistralServer.requireArray data "skills" _) as [skills|e];
      cbn [bind tryCatch]; [|discriminate].
    destruct skills as [|s1 [|s2 [|s3 [|s4 [|s5 [|s6 skills]]]]]];
      cbn; try discriminate.
    intros [= <-]. now exists s1, s2, s3, s4, s5.
  - unfold MistralServer.generateRoadmap.
    destruct (MistralServer.decodeContent JSON_parse invoke) as [data|e];
      cbn [bind tryCatch]; [|discriminate].
    destruct (MistralServer.requireArray data "roadmap" _) as [roadmap|e];
      cbn [bind tryCatch]; [|discriminate].
    destruct (List.length roadmap =? 6)%nat eqn:Hlen;
      cbn [negb bind tryCatch]; [|discriminate].
    destruct (MistralServer.validateSteps roadmap 0) as [[]|e] eqn:Hsteps;
      cbn [bind tryCatch]; [|discriminate].
    intros [= <-]. exists roadmap. split; [reflexivity|].
    split; [now apply Nat.eqb_eq|].
    apply validateSteps_shape in Hsteps.
    eapply Forall_impl; [|exact Hsteps].
    intros step [i Hi]. eapply validateStep_shape, Hi.
Qed.
End ShapeValidation.

(** * Instances

    Each property with a premise, applied to a concrete run. *)

(** C3 on an operation that always answers 503. *)
Lemma retry_exhaustion_three_witness :
  (forall s, exists e,
      fst (@Samples.alwaysUnavailable unit s) = Throws e
      /\ Retry.isClientError e = false)
  /\ (let w1 := snd (@Samples.alwaysUnavailable unit 0) in
      let w2 := snd (@Samples.alwaysUnavailable unit w1) in
      let '(r, w', tr) :=
        Retry.retryWithBackoff (@Samples.alwaysUnavailable unit) Samples.halves 3
                               (10 # 1) 0%nat in
      Retry.invocations tr = 3%nat
      /\ r = fst (@Samples.alwaysUnavailable unit w2)
      /\ (exists e3, r = Throws e3)
      /\ w' = snd (@Samples.alwaysUnavailable unit w2)).
Proof.
  assert (H : forall s, exists e,
             fst (@Samples.alwaysUnavailable unit s) = Throws e
             /\ Retry.isClientError e = false)
    by (intros s; exists Samples.unavailable; split; reflexivity).
  split; [exact H|].
  exact (retry_exhaustion_three (@Samples.alwaysUnavailable unit) Samples.halves
                                (10 # 1) 0%nat H).
Defined.

(** C4 on an operation that answers 401. *)
Lemma retry_fatal_once_witness :
  let '(r, w', tr) :=
    Retry.retryWithBackoff (@Samples.alwaysUnauthorized unit) Samples.halves 3
                           (10 # 1) 0%nat in
  r = Throws Samples.unauthorized
  /\ w' = snd (@Samples.alwaysUnauthorized unit 0)
  /\ tr = [Retry.Invoke 1]
  /\ Retry.invocations tr = 1%nat
  /\ Retry.sleeps tr = [].
Proof.
  apply (retry_fatal_once (@Samples.alwaysUnauthorized unit) Samples.halves
                          (10 # 1) 0%nat Samples.unauthorized).
  - reflexivity.
  - right. reflexivity.
Defined.

(** C5 at the first attempt of three, base delay 1000, on a 503. *)
Lemma backoff_delay_by_class_witness :
  exists delay jitter : Q,
    Retry.retryFrom (@Samples.alwaysUnavailable unit) Samples.halves 3 (1000 # 1)
                    3 1 0%nat =
      (let '(r', w', tr) :=
         Retry.retryFrom (@Samples.alwaysUnavailable unit) Samples.halves 3
                         (1000 # 1) 2 2 (snd (@Samples.alwaysUnavailable unit 0)) in
       (r', w', Retry.Invoke 1 :: Retry.Sleep delay :: tr))
    /\ (if Retry.is503Error Samples.unavailable
        then (delay == (1000 # 1) * inject_Z (2 ^ Z.of_nat 1) + jitter)%Q
             /\ jitter = (Samples.halves 1 * (2000 # 1))%Q
             /\ (0 <= jitter)%Q /\ (jitter < 2000 # 1)%Q
        else (delay == (1000 # 1) * inject_Z (2 ^ (Z.of_nat 1 - 1)) + jitter)%Q
             /\ jitter = (Samples.halves 1 * (1000 # 1))%Q
             /\ (0 <= jitter)%Q /\ (jitter < 1000 # 1)%Q).
Proof.
  apply (backoff_delay_by_class (@Samples.alwaysUnavailable unit) Samples.halves 3
                                (1000 # 1) 2 1 0%nat Samples.unavailable).
  - lia.
  - lia.
  - reflexivity.
  - reflexivity.
  - vm_compute. discriminate.
  - reflexivity.
Defined.

(** C6 on a topic that includes [react] (5), [css] (3), [js] and [ts] (2). *)
Lemma longest_recorded_alias_wins_witness :
  let T := "My ReactJS app with CSS3 and TS" in
  Fallback.bestMatch (toLowerCase T) = Some (Fallback.mkMatch "react" "react" 5)
  /\ Fallback.getFallbackQuiz Samples.reversed T = Fallback.quizOrJavascript "react".
Proof.
  apply (longest_recorded_alias_wins Samples.reversed
           "My ReactJS app with CSS3 and TS" "react" "react"
           ["react"; "reactjs"; "react.js"; "jsx"]).
  - reflexivity.
  - simpl. tauto.
  - reflexivity.
  - intros A kwsA a HIn Hne Hf. simpl in HIn.
    repeat (destruct HIn as [HIn | HIn];
            [injection HIn as <- <-;
             first [ exfalso; apply Hne; reflexivity
                   | vm_compute in Hf; discriminate Hf
                   | vm_compute in Hf; injection Hf as <-; simpl; lia ]|]).
    contradiction.
Defined.

(** C7 on the topic [Java]. *)
Lemma exact_key_lookup_witness :
  Fallback.getFallbackQuiz Samples.reversed "Java" =
    Fallback.Questions
      (match assoc (toLowerCase "Java") Fallback.fallbackQuizzes with
       | Some own => own
       | None => Fallback.quiz_javascript
       end)
  /\ (In (toLowerCase "Java") ["java"; "javascript"; "react"; "python"; "html"; "css"]
      <-> assoc (toLowerCase "Java") Fallback.fallbackQuizzes <> None)
  /\ Fallback.getFallbackQuiz Samples.reversed "java"
     = Fallback.Questions Fallback.quiz_java.
Proof.
  apply (exact_key_lookup Samples.reversed "Java"
           ["java"; "spring"; "jvm"; "maven"; "gradle"]).
  reflexivity.
Defined.


(** C9 on a five-skill response and on a six-step roadmap response. *)
Lemma server_results_validated_witness :
  (exists s1 s2 s3 s4 s5,
      JArr (map JStr ["Go"; "Rust"; "SQL"; "Docker"; "Git"]) = JArr [s1; s2; s3; s4; s5])
  /\ (exists steps,
        JArr [ Samples.step 1 "Basics"; Samples.step 2 "Syntax";
               Samples.step 3 "Tooling"; Samples.step 4 "Projects";
               Samples.step 5 "Testing"; Samples.step 6 "Mastery" ] = JArr steps
        /\ List.length steps = 6%nat
        /\ Forall (fun step =>
             exists fields title description duration r1 r2 r3,
               step = JObj fields
               /\ assoc "title" fields = Some (JStr title) /\ title <> ""
               /\ assoc "description" fields = Some (JStr description)
               /\ description <> ""
               /\ assoc "duration" fields = Some (JStr duration)
               /\ duration <> ""
               /\ assoc "resources" fields = Some (JArr [r1; r2; r3])) steps).
Proof.
  split.
  - apply (proj1 (server_results_validated Samples.parseSamples
                    (Returns (Some (JStr Samples.fiveSkillsText))) _)).
    reflexivity.
  - apply (proj2 (server_results_validated Samples.parseSamples
                    (Returns (Some (JStr Samples.sixStepsText))) _)).
    reflexivity.
Defined.

(** The same in an environment without keys, for the topic [Java]. *)
Lemma missing_api_key_witness :
  Gemini.analyzeMatch Samples.parseSamples Samples.withoutKey
    (Returns (Some Samples.fiveSkillsText))
  = Throws (Error "API Key not found")
  /\ Gemini.analyzeMatch Samples.parseSamples Samples.withoutKey
       (Returns (Some Samples.fiveSkillsText))
     <> Returns (matchResult 50 "AI analysis unavailable." [])
  /\ (let '(r, w', tr) :=
        Gemini.generateQuiz Samples.parseSamples
          (@Samples.alwaysUnavailable (option string)) Samples.halves
          Samples.reversed Samples.withoutKey "Java" 0%nat in
      r = Returns (Gemini.Fallback (Fallback.getFallbackQuiz Samples.reversed "Java"))
      /\ w' = 0%nat
      /\ Retry.invocations tr = 3%nat).
Proof.
  apply (missing_api_key Samples.parseSamples
           (@Samples.alwaysUnavailable (option string)) Samples.halves
           Samples.reversed Samples.withoutKey
           (Returns (Some Samples.fiveSkillsText)) "Java" 0%nat);
    reflexivity.
Defined.


(** * Further properties *)

(** ** Retry policy: the whole run *)

Section RetryRuns.
Import Retry Trace.
Context {W T : Type}.
Variable operation : W -> Outcome T * W.
Variable random : nat -> Q.
Variable maxRetries : nat.
Variable baseDelay : Q.

Lemma stateAfter_succ_r (j : nat) (w : W) :
  stateAfter operation (S j) w = stateAfter operation j (snd (operation w)).
Proof. unfold stateAfter. now rewrite Nat.iter_succ_r. Qed.

(** From attempt [a], after [n] retryable failures, an outcome that ends
    the loop (or any outcome at the last attempt) is what the loop gives. *)
Lemma retryFrom_run (n fuel a : nat) (s : W) :
  (a + n <= maxRetries)%nat -> (maxRetries < fuel + a)%nat ->
  (forall j, (j < n)%nat ->
     exists e, fst (operation (stateAfter operation j s)) = Throws e
               /\ isClientError e = false) ->
  (endsLoop (fst (operation (stateAfter operation n s))) = true
   \/ (a + n = maxRetries)%nat) ->
  exists tr,
    retryFrom operation random maxRetries baseDelay fuel a s
    = (fst (operation (stateAfter operation n s)),
       stateAfter operation (S n) s, tr)
    /\ invokedAttempts tr = seq a (S n)
    /\ List.length (sleeps tr) = n.
Proof.
  revert fuel a s. induction n as [|n IH]; intros fuel a s Hle Hfuel Hfail Hend.
  - destruct fuel as [|fuel]; [lia|]. cbn [retryFrom].
    replace (a <=? maxRetries)%nat with true by (symmetry; apply Nat.leb_le; lia).
    unfold stateAfter in *. cbn [Nat.iter nat_rect] in *.
    destruct (operation s) as [[v|e] s1]; cbn [fst snd] in *.
    + eexists; split; [reflexivity|]. split; reflexivity.
    + destruct (isClientError e) eqn:Hc.
      * eexists; split; [reflexivity|]. split; reflexivity.
      * destruct Hend as [Hend | Hend]; [cbn in Hend; congruence|].
        replace (a =? maxRetries)%nat with true
          by (symmetry; apply Nat.eqb_eq; lia).
        eexists; split; [reflexivity|]. split; reflexivity.
  - destruct fuel as [|fuel]; [lia|].
    destruct (Hfail 0%nat ltac:(lia)) as [e [He Hc]].
    unfold stateAfter in He. cbn [Nat.iter nat_rect] in He.
    rewrite (retryFrom_retry operation random baseDelay maxRetries fuel a s e)
      by (assumption || lia).
    destruct (IH fuel (S a) (snd (operation s))) as [tr [Hrun [Hinv Hsl]]];
      try lia.
    + intros j Hj. rewrite <- stateAfter_succ_r. apply Hfail. lia.
    + rewrite <- stateAfter_succ_r. destruct Hend; [now left | right; lia].
    + rewrite Hrun. rewrite <- !stateAfter_succ_r.
      eexists; split; [reflexivity|].
      unfold invokedAttempts, sleeps in *. cbn [flat_map app List.length].
      rewrite Hinv, Hsl. split; reflexivity.
Qed.

(** X1: the loop stops at the first attempt [k] whose outcome is a value or
    a client error, or at attempt [maxRetries] when every attempt fails
    with a retryable error: it gives the outcome of that invocation, after
    exactly [k] invocations numbered [1..k] and [k - 1] waits. *)
Theorem retry_stops_at_first_final_outcome (k : nat) (w : W) :
  (1 <= k)%nat -> (k <= maxRetries)%nat ->
  (forall j, (j < k - 1)%nat ->
     exists e, fst (operation (stateAfter operation j w)) = Throws e
               /\ isClientError e = false) ->
  (endsLoop (fst (operation (stateAfter operation (k - 1) w))) = true
   \/ k = maxRetries) ->
  let '(r, w', tr) := retryWithBackoff operation random maxRetries baseDelay w in
  r = fst (operation (stateAfter operation (k - 1) w))
  /\ w' = stateAfter operation k w
  /\ invokedAttempts tr = seq 1 k
  /\ invocations tr = k
  /\ List.length (sleeps tr) = (k - 1)%nat.
Proof.
  intros Hk Hle Hfail Hend. unfold retryWithBackoff.
  destruct (retryFrom_run (k - 1) maxRetries 1 w) as [tr [Hrun [Hinv Hsl]]];
    try lia; try assumption.
  { destruct Hend; [now left | right; lia]. }
  rewrite Hrun. replace (S (k - 1)) with k in * by lia.
  repeat split; try assumption.
  unfold invocations.
  assert (Hcount : forall l, List.length (filter isInvoke l)
                             = List.length (invokedAttempts l)).
  { induction l as [|[a|d] l IHl]; cbn; [reflexivity | now rewrite IHl | assumption]. }
  rewrite Hcount, Hinv. apply length_seq.
Qed.

(** The shape of every trace of the loop from attempt [a]. *)
Lemma retryFrom_trace (fuel a : nat) (s : W) :
  (maxRetries < fuel + a)%nat ->
  exists k,
    invokedAttempts (snd (retryFrom operation random maxRetries baseDelay fuel a s))
    = seq a k
    /\ (a + k <= S maxRetries \/ k = 0)%nat
    /\ List.length (sleeps (snd (retryFrom operation random maxRetries baseDelay fuel a s)))
       = (k - 1)%nat
    /\ ((a <= maxRetries)%nat <-> (1 <= k)%nat).
Proof.
  revert a s. induction fuel as [|fuel IH]; intros a s Hfuel; cbn [retryFrom].
  - exists 0%nat.
    replace (a <=? maxRetries)%nat with false by (symmetry; apply Nat.leb_gt; lia).
    cbn. repeat split; auto; lia.
  - destruct (a <=? maxRetries)%nat eqn:Hle;
      [|exists 0%nat; cbn; apply Nat.leb_gt in Hle; repeat split; auto; lia].
    apply Nat.leb_le in Hle.
    destruct (operation s) as [[v|e] s1].
    + exists 1%nat. cbn. repeat split; auto; lia.
    + destruct (isClientError e); [exists 1%nat; cbn; repeat split; auto; lia|].
      destruct (a =? maxRetries)%nat eqn:Heq;
        [exists 1%nat; cbn; repeat split; auto; lia|].
      apply Nat.eqb_neq in Heq.
      destruct (IH (S a) s1 ltac:(lia)) as [k [Hinv [Hb [Hsl Hpos]]]].
      destruct (retryFrom operation random maxRetries baseDelay fuel (S a) s1)
        as [[r' w'] tr].
      cbn [snd] in *. exists (S k).
      unfold invokedAttempts, sleeps in *. cbn [flat_map app seq List.length].
      rewrite Hinv, Hsl.
      assert (1 <= k)%nat by (apply Hpos; lia).
      repeat split; auto; lia.
Qed.

(** From an attempt within the budget on, the trace is an invocation
    followed, for each of its waits in turn, by that wait and the next
    invocation. *)
Lemma retryFrom_schedule (fuel a : nat) (s : W) :
  (maxRetries < fuel + a)%nat -> (a <= maxRetries)%nat ->
  snd (retryFrom operation random maxRetries baseDelay fuel a s)
  = schedule a (sleeps (snd (retryFrom operation random maxRetries baseDelay
                                       fuel a s))).
Proof.
  revert a s. induction fuel as [|fuel IH]; intros a s Hfuel Hle; [lia|].
  cbn [retryFrom].
  replace (a <=? maxRetries)%nat with true by (symmetry; apply Nat.leb_le; lia).
  destruct (operation s) as [[v|e] s1]; [reflexivity|].
  destruct (isClientError e); [reflexivity|].
  destruct (a =? maxRetries)%nat eqn:Heq; [reflexivity|].
  apply Nat.eqb_neq in Heq.
  specialize (IH (S a) s1 ltac:(lia) ltac:(lia)).
  destruct (retryFrom operation random maxRetries baseDelay fuel (S a) s1)
    as [[r' w'] tr].
  cbn [snd] in *. unfold sleeps in *. cbn [flat_map app schedule].
  now rewrite <- IH.
Qed.

(** X2: whatever the operation does, [retryWithBackoff] invokes it at most
    [maxRetries] times, at attempts numbered [1, 2, ...] without gaps, at
    least once when [maxRetries >= 1], and waits exactly once between two
    consecutive invocations: its trace is the first invocation followed,
    for each wait in turn, by that wait and the next invocation (and is
    empty when [maxRetries = 0]). *)
Theorem retry_trace_shape (w : W) :
  exists k,
    invokedAttempts (snd (retryWithBackoff operation random maxRetries baseDelay w))
    = seq 1 k
    /\ (k <= maxRetries)%nat
    /\ ((1 <= maxRetries)%nat -> (1 <= k)%nat)
    /\ List.length (sleeps (snd (retryWithBackoff operation random maxRetries
                                                  baseDelay w)))
       = (k - 1)%nat
    /\ (maxRetries = 0%nat ->
        snd (retryWithBackoff operation random maxRetries baseDelay w) = [])
    /\ ((1 <= maxRetries)%nat ->
        snd (retryWithBackoff operation random maxRetries baseDelay w)
        = schedule 1 (sleeps (snd (retryWithBackoff operation random maxRetries
                                                    baseDelay w)))).
Proof.
  unfold retryWithBackoff.
  destruct (retryFrom_trace maxRetries 1 w ltac:(lia)) as [k [Hinv [Hb [Hsl Hpos]]]].
  exists k. repeat split; try assumption; [lia | apply Hpos | |].
  - intros ->. reflexivity.
  - intros Hle. apply retryFrom_schedule; lia.
Qed.

(** X3: with [maxRetries = 0] the operation is never invoked and the call
    rejects with "Max retries exceeded". *)
Theorem retry_zero_never_invokes (w : W) :
  retryWithBackoff operation random 0 baseDelay w
  = (Throws (Error "Max retries exceeded"), w, []).
Proof. reflexivity. Qed.

(** X4: with [maxRetries = 1] the operation is invoked exactly once and
    its outcome, value or error of any kind, is the outcome of the call,
    without any wait. *)
Theorem retry_single_attempt (w : W) :
  retryWithBackoff operation random 1 baseDelay w
  = (fst (operation w), snd (operation w), [Invoke 1]).
Proof.
  unfold retryWithBackoff. cbn.
  destruct (operation w) as [[v|e] w1]; [reflexivity|].
  destruct (isClientError e); reflexivity.
Qed.

End RetryRuns.

(** ** Retry policy: the delays *)

Section RetryDelays.
Import Retry Trace.

Lemma pow2_ge_1 (n : nat) : (1 <= pow2 (Z.of_nat n))%Q.
Proof.
  rewrite pow2_nat. change 1%Q with (inject_Z 1). rewrite <- Zle_Qle.
  assert (0 < 2 ^ Z.of_nat n)%Z by (apply Z.pow_pos_nonneg; lia). lia.
Qed.

Lemma pow2_succ (n : nat) :
  (pow2 (Z.of_nat (S n)) == (2 # 1) * pow2 (Z.of_nat n))%Q.
Proof.
  rewrite !pow2_nat. rewrite Nat2Z.inj_succ, Z.pow_succ_r by lia.
  rewrite inject_Z_mult. reflexivity.
Qed.

(** The delay computed at attempt [a >= 1] is at least the base delay. *)
Lemma backoffDelay_ge_base (e : JsError) (baseDelay r : Q) (a : nat) :
  (1 <= a)%nat -> (0 <= baseDelay)%Q -> (0 <= r)%Q ->
  (baseDelay <= backoffDelay e baseDelay a r)%Q.
Proof.
  intros Ha Hb Hr. unfold backoffDelay.
  pose proof (pow2_ge_1 a) as H1. pose proof (pow2_ge_1 (a - 1)) as H2.
  replace (Z.of_nat (a - 1)) with (Z.of_nat a - 1)%Z in H2 by lia.
  destruct (is503Error e); nra.
Qed.

(** X5: "for 503 errors, wait longer": at the same attempt and with the
    same random draw, the delay after an error classified 503 is at least
    the delay after any other retryable error (base delay and draw being
    non-negative); it is exactly twice that delay. *)
Theorem delay_503_at_least_other (e503 e : JsError) (baseDelay r : Q) (a : nat) :
  (1 <= a)%nat -> (0 <= baseDelay)%Q -> (0 <= r)%Q ->
  is503Error e503 = true -> is503Error e = false ->
  (backoffDelay e baseDelay a r <= backoffDelay e503 baseDelay a r)%Q
  /\ (backoffDelay e503 baseDelay a r == (2 # 1) * backoffDelay e baseDelay a r)%Q.
Proof.
  intros Ha Hb Hr H503 Hother. unfold backoffDelay. rewrite H503, Hother.
  destruct a as [|n]; [lia|].
  replace (Z.of_nat (S n) - 1)%Z with (Z.of_nat n) by lia.
  pose proof (pow2_succ n) as Hs. pose proof (pow2_ge_1 n) as H1.
  split; [rewrite Hs; nra | rewrite Hs; ring].
Qed.

Variables W T : Type.
Variable operation : W -> Outcome T * W.
Variable random : nat -> Q.
Variable maxRetries : nat.
Variable baseDelay : Q.
Hypothesis baseDelay_nonneg : (0 <= baseDelay)%Q.
Hypothesis random_nonneg : forall a, (0 <= random a)%Q.

Lemma retryFrom_sleeps_ge_base (fuel a : nat) (s : W) :
  (1 <= a)%nat ->
  Forall (fun d => (baseDelay <= d)%Q)
         (sleeps (snd (retryFrom operation random maxRetries baseDelay fuel a s))).
Proof.
  revert a s. induction fuel as [|fuel IH]; intros a s Ha; cbn [retryFrom].
  - destruct (a <=? maxRetries)%nat; constructor.
  - destruct (a <=? maxRetries)%nat; [|constructor].
    destruct (operation s) as [[v|e] s1]; [constructor|].
    destruct (isClientError e); [constructor|].
    destruct (a =? maxRetries)%nat; [constructor|].
    specialize (IH (S a) s1 ltac:(lia)).
    destruct (retryFrom operation random maxRetries baseDelay fuel (S a) s1)
      as [[r' w'] tr].
    cbn [snd sleeps flat_map app] in *. constructor; [|exact IH].
    apply backoffDelay_ge_base; auto.
Qed.

(** X6: with a non-negative base delay (and [Math.random()] never
    negative), every delay that a run computes and hands to [setTimeout] is
    at least the base delay. *)
Theorem retry_waits_at_least_base (w : W) :
  Forall (fun d => (baseDelay <= d)%Q)
         (sleeps (snd (retryWithBackoff operation random maxRetries baseDelay w))).
Proof. unfold retryWithBackoff. apply retryFrom_sleeps_ge_base. lia. Qed.
End RetryDelays.


(** ** Keyword scan: the sort and the best match *)

Section ScanFacts.
Import Fallback Checks.

Lemma insertMatch_perm (m : Match) (l : list Match) :
  Permutation (m :: l) (insertMatch m l).
Proof.
  induction l as [|x l IH]; cbn [insertMatch]; [reflexivity|].
  destruct (length m <? length x)%nat; [|reflexivity].
  rewrite perm_swap. now constructor.
Qed.

Lemma insertMatch_sorted (m : Match) (l : list Match) :
  StronglySorted longerFirst l -> StronglySorted longerFirst (insertMatch m l).
Proof.
  induction l as [|x l IH]; cbn [insertMatch]; intros Hs.
  - repeat constructor.
  - inversion Hs as [|? ? Hs' Hall]; subst.
    destruct (length m <? length x)%nat eqn:E.
    + apply Nat.ltb_lt in E. constructor; [now apply IH|].
      apply Forall_forall. intros y Hy.
      apply (Permutation_in _ (Permutation_sym (insertMatch_perm m l))) in Hy.
      destruct Hy as [<- | Hy]; [unfold longerFirst; lia|].
      rewrite Forall_forall in Hall. now apply Hall.
    + apply Nat.ltb_ge in E. constructor; [assumption|].
      constructor; [exact E|].
      eapply Forall_impl; [|exact Hall]. unfold longerFirst. intros; lia.
Qed.

Lemma insertMatch_filter (n : nat) (m : Match) (l : list Match) :
  filter (ofLength n) (insertMatch m l) = filter (ofLength n) (m :: l).
Proof.
  induction l as [|x l IH]; [reflexivity|].
  cbn [insertMatch]. destruct (length m <? length x)%nat eqn:E; [|reflexivity].
  apply Nat.ltb_lt in E. cbn [filter] in *. rewrite IH. unfold ofLength.
  destruct (length x =? n)%nat eqn:Ex, (length m =? n)%nat eqn:Em;
    try reflexivity.
  apply Nat.eqb_eq in Ex, Em. lia.
Qed.

(** X7: the sort of the matches rearranges them, puts them in descending
    order of keyword length, and keeps matches of equal length in the
    order in which the scan recorded them (it is stable). *)
Theorem sortMatches_stable_descending (l : list Match) :
  Permutation l (sortMatches l)
  /\ StronglySorted longerFirst (sortMatches l)
  /\ forall n, filter (ofLength n) (sortMatches l) = filter (ofLength n) l.
Proof.
  induction l as [|m l [Hp [Hs Hf]]]; cbn [sortMatches].
  - repeat split; constructor.
  - split; [|split].
    + rewrite <- insertMatch_perm. now constructor.
    + now apply insertMatch_sorted.
    + intros n. rewrite insertMatch_filter. cbn [filter]. now rewrite Hf.
Qed.

Lemma sortMatches_nil (l : list Match) : sortMatches l = [] -> l = [].
Proof.
  intros H. destruct (sortMatches_stable_descending l) as [Hp _].
  rewrite H in Hp. now apply Permutation_sym, Permutation_nil in Hp.
Qed.

Lemma sortMatches_head_split (l : list Match) (m : Match) :
  hd_error (sortMatches l) = Some m ->
  exists before after,
    l = (before ++ m :: after)%list
    /\ Forall (fun x => (length x < length m)%nat) before
    /\ Forall (fun x => (length x <= length m)%nat) after.
Proof.
  revert m. induction l as [|x l IH]; intros m; cbn [sortMatches]; [discriminate|].
  rewrite insertMatch_head.
  destruct (hd_error (sortMatches l)) as [y|] eqn:Hy.
  - destruct (IH y eq_refl) as [before [after [-> [Hb Ha]]]].
    destruct (length x <? length y)%nat eqn:E; intros [= <-].
    + apply Nat.ltb_lt in E. exists (x :: before), after.
      repeat split; [constructor|]; assumption.
    + apply Nat.ltb_ge in E. exists [], (before ++ y :: after)%list.
      repeat split; [constructor|].
      apply Forall_app. split; [|constructor].
      * eapply Forall_impl; [|exact Hb]. cbn. intros; lia.
      * exact E.
      * eapply Forall_impl; [|exact Ha]. cbn. intros; lia.
  - intros [= <-]. exists [], l. repeat split; [constructor|].
    destruct (sortMatches l) eqn:Hl; [|discriminate].
    apply sortMatches_nil in Hl. subst. constructor.
Qed.

(** X8: the best match is the first of the longest recorded matches: every
    match recorded before it (for a key earlier in [skillMatches]) is
    strictly shorter, every later one at most as long; and there is a best
    match as soon as one key matches. *)
Theorem bestMatch_first_longest (lower : string) :
  (bestMatch lower = None <-> collectMatches lower = [])
  /\ forall m, bestMatch lower = Some m ->
       exists before after,
         collectMatches lower = (before ++ m :: after)%list
         /\ Forall (fun x => (length x < length m)%nat) before
         /\ Forall (fun x => (length x <= length m)%nat) after.
Proof.
  unfold bestMatch. split.
  - split.
    + intros H. apply sortMatches_nil.
      destruct (sortMatches (collectMatches lower)); [reflexivity | discriminate].
    + intros ->. reflexivity.
  - intros m. apply sortMatches_head_split.
Qed.
End ScanFacts.

(** ** Keyword scan: what is recorded *)

Section ScanRecords.
Import Fallback Checks.

Lemma matchOf_key (lower : string) (entry : string * list string) (m : Match) :
  In m (matchOf lower entry) -> quizKey m = fst entry.
Proof.
  destruct entry as [key kws]. unfold matchOf.
  destruct (find _ kws); [intros [<- | []]; reflexivity | contradiction].
Qed.

Lemma matchOf_at_most_one (lower : string) (entry : string * list string) :
  matchOf lower entry = []
  \/ exists m, matchOf lower entry = [m].
Proof.
  destruct entry as [key kws]. unfold matchOf.
  destruct (find _ kws); [right; eexists; reflexivity | now left].
Qed.

Lemma flat_map_matchOf_keys (lower : string) (table : list (string * list string)) :
  NoDup (map fst table) ->
  NoDup (map quizKey (flat_map (matchOf lower) table))
  /\ (List.length (flat_map (matchOf lower) table) <= List.length table)%nat.
Proof.
  induction table as [|entry table IH]; cbn [flat_map map]; intros Hnd.
  - split; [constructor | constructor].
  - inversion Hnd as [|? ? Hnotin Hnd']; subst.
    destruct (IH Hnd') as [IHnd IHlen].
    destruct (matchOf_at_most_one lower entry) as [-> | [m Hm]];
      cbn [app map List.length]; [split; [assumption | lia]|].
    rewrite Hm. cbn [app map List.length]. split; [|lia].
    constructor; [|assumption].
    intros Hin. apply in_map_iff in Hin as [m' [Hk Hin']].
    apply in_flat_map in Hin' as [entry' [He Hm']].
    apply matchOf_key in Hm'.
    assert (Hm0 : quizKey m = fst entry)
      by (apply (matchOf_key lower); rewrite Hm; now left).
    apply Hnotin. rewrite <- Hm0, <- Hk, Hm'. now apply in_map.
Qed.

Lemma find_first (A : Type) (f : A -> bool) (l : list A) (x : A) :
  find f l = Some x ->
  exists before after,
    l = (before ++ x :: after)%list /\ f x = true
    /\ Forall (fun y => f y = false) before.
Proof.
  induction l as [|y l IH]; cbn [find]; [discriminate|].
  destruct (f y) eqn:E.
  - intros [= <-]. exists [], l. repeat split; [assumption | constructor].
  - intros H. destruct (IH H) as [before [after [-> [Hx Hb]]]].
    exists (y :: before), after. repeat split; [assumption|].
    now constructor.
Qed.

(** X9: the scan records at most one match per canonical key (so at most
    16), and each recorded match carries an alias of its key that the topic
    includes, with that alias's length, no alias listed before it for that
    key being included in the topic. *)
Theorem collectMatches_one_per_key (lower : string) :
  NoDup (map quizKey (collectMatches lower))
  /\ (List.length (collectMatches lower) <= 16)%nat
  /\ forall m, In m (collectMatches lower) ->
       exists before after,
         In (quizKey m, (before ++ keyword m :: after)%list) skillMatches
         /\ includes lower (keyword m) = true
         /\ Forall (fun alias => includes lower alias = false) before
         /\ length m = String.length (keyword m).
Proof.
  destruct (flat_map_matchOf_keys lower skillMatches skillMatches_keys_distinct)
    as [Hnd Hlen].
  split; [exact Hnd|]. split; [exact Hlen|].
  intros m Hm. apply collectMatches_In in Hm as [kws [kw [Hin [Hf Hm]]]].
  apply find_first in Hf as [before [after [-> [Hinc Hb]]]].
  exists before, after. rewrite Hm. cbn [keyword length quizKey].
  repeat split; assumption.
Qed.

(** X10: the "original fallback logic" loop over the keys of
    [fallbackQuizzes] never selects anything: whenever the keyword scan has
    found no best match, no key of [fallbackQuizzes] is included in the
    topic either. *)
Theorem legacy_loop_never_selects (lower : string) :
  bestMatch lower = None ->
  find (fun entry => includes lower (fst entry)) fallbackQuizzes = None.
Proof.
  intros Hbest. apply (proj1 (bestMatch_first_longest lower)) in Hbest.
  destruct (find _ fallbackQuizzes) as [[k qs]|] eqn:Hfind; [|reflexivity].
  exfalso. apply find_some in Hfind as [Hin Hinc]. cbn [fst] in Hinc.
  assert (Hm : exists kws, In (k, kws) skillMatches
                 /\ find (fun kw => includes lower kw) kws <> None).
  { simpl in Hin.
    repeat (destruct Hin as [[= <- _] | Hin];
            [eexists; split; [simpl; auto 20|];
             cbn [find]; rewrite Hinc; discriminate|]).
    contradiction. }
  destruct Hm as [kws [Hk Hf]].
  destruct (find (fun kw => includes lower kw) kws) as [kw|] eqn:E; [|congruence].
  pose proof (collectMatches_intro lower k kws kw Hk E) as Hc.
  rewrite Hbest in Hc. contradiction.
Qed.

(** X11: on the exact-match and keyword-scan paths the selection depends
    on the topic only through its lower-case form and not on the random
    rearrangement: two topics that differ only in letter case get the same
    result, whatever the random source. *)
Theorem matched_selection_deterministic
    (shuffle1 shuffle2 : list QuizQuestion -> list QuizQuestion) (T1 T2 : string) :
  toLowerCase T1 = toLowerCase T2 ->
  (getProperty skillMatches (toLowerCase T1) <> None
   \/ collectMatches (toLowerCase T1) <> []) ->
  getFallbackQuiz shuffle1 T1 = getFallbackQuiz shuffle2 T2.
Proof.
  intros Hcase Hmatched. unfold getFallbackQuiz. rewrite <- Hcase.
  destruct (getProperty skillMatches (toLowerCase T1)); [reflexivity|].
  destruct Hmatched as [H | H]; [congruence|].
  destruct (bestMatch (toLowerCase T1)) eqn:Hbest; [reflexivity|].
  apply (proj1 (bestMatch_first_longest _)) in Hbest. contradiction.
Qed.
End ScanRecords.

(** ** Substrings and letter case *)

Section SubstringFacts.

Lemma prefix_app_self (k s : string) : String.prefix k (k ++ s) = true.
Proof.
  induction k as [|c k IH]; cbn; [destruct s; reflexivity|].
  destruct (ascii_dec c c); [assumption | contradiction].
Qed.

Lemma includes_app_r (p s k : string) :
  includes s k = true -> includes (p ++ s) k = true.
Proof.
  intros H. induction p as [|c p IH]; [assumption|].
  cbn [append includes]. destruct (String.prefix k (String c (p ++ s))); auto.
Qed.

Lemma includes_prefix (s k : string) : String.prefix k s = true -> includes s k = true.
Proof. intros H. destruct s; cbn [includes]; now rewrite H. Qed.

(** A string includes what it was built around. *)
Lemma includes_middle (p k s : string) : includes (p ++ k ++ s) k = true.
Proof. apply includes_app_r, includes_prefix, prefix_app_self. Qed.

Lemma prefix_toLowerCase (k s : string) :
  String.prefix k s = true ->
  String.prefix (toLowerCase k) (toLowerCase s) = true.
Proof.
  revert s. induction k as [|c k IH]; intros s; [destruct s; reflexivity|].
  destruct s as [|d s]; cbn; [discriminate|].
  destruct (ascii_dec c d) as [<- | Hne]; [|discriminate].
  intros H. destruct (ascii_dec (lowerChar c) (lowerChar c)); [|contradiction].
  now apply IH.
Qed.

(** Inclusion survives lower-casing both strings. *)
Lemma includes_toLowerCase (s k : string) :
  includes s k = true -> includes (toLowerCase s) (toLowerCase k) = true.
Proof.
  induction s as [|c s IH]; cbn [includes toLowerCase].
  - destruct (String.prefix k "") eqn:E; [|discriminate].
    intros _. apply (prefix_toLowerCase k "") in E. cbn [toLowerCase] in E.
    now rewrite E.
  - destruct (String.prefix k (String c s)) eqn:E.
    + intros _. apply prefix_toLowerCase in E. cbn [toLowerCase] in E.
      now rewrite E.
    + intros H.
      destruct (String.prefix (toLowerCase k) (String (lowerChar c) (toLowerCase s)));
        auto.
Qed.
End SubstringFacts.

(** ** Fallback questions *)

Section FallbackQuestions.
Import Fallback Checks Relevance.
Variable shuffle : list QuizQuestion -> list QuizQuestion.
Hypothesis shuffle_permutes : forall l, Permutation l (shuffle l).

Lemma static_quizzes_complete (k : string) (qs : list QuizQuestion) :
  In (k, qs) fallbackQuizzes ->
  List.length qs = 5%nat /\ forallb completeQuestion qs = true.
Proof.
  simpl. intros H.
  repeat (destruct H as [[= <- <-] | H]; [split; reflexivity|]). contradiction.
Qed.

Lemma templates_complete (T k : string) (qs : list QuizQuestion) :
  In (k, qs) (questionTemplates T) ->
  List.length qs = 5%nat /\ forallb completeQuestion qs = true.
Proof.
  simpl. intros H.
  repeat (destruct H as [[= <- <-] | H]; [split; reflexivity|]). contradiction.
Qed.

Lemma templates_mention_topic (T k : string) (qs : list QuizQuestion) :
  In (k, qs) (questionTemplates T) ->
  Forall (fun q => includes (question q) T = true) qs.
Proof.
  simpl. intros H.
  repeat (destruct H as [[= <- <-] | H];
          [repeat (constructor; [cbn [question]; apply includes_middle|]);
           constructor|]).
  contradiction.
Qed.

(** X12: apart from the two names inherited from [Object.prototype],
    every topic gets exactly five questions, each with a code snippet,
    exactly four options and an answer index between 0 and 3. *)
Theorem fallback_questions_complete (T : string) :
  existsb (String.eqb (toLowerCase T)) objectPrototype = false ->
  exists qs,
    getFallbackQuiz shuffle T = Questions qs
    /\ List.length qs = 5%nat
    /\ Forall (fun q => codeSnippet q <> None
                        /\ List.length (options q) = 4%nat
                        /\ (0 <= correctAnswerIndex q <= 3)%Z) qs.
Proof.
  intros Hown.
  assert (Hspec : forall qs, forallb completeQuestion qs = true ->
            Forall (fun q => codeSnippet q <> None
                             /\ List.length (options q) = 4%nat
                             /\ (0 <= correctAnswerIndex q <= 3)%Z) qs).
  { intros qs H. rewrite forallb_forall in H. apply Forall_forall.
    intros q Hq. specialize (H q Hq). unfold completeQuestion in H.
    repeat (apply andb_true_iff in H as [H ?]).
    destruct (codeSnippet q); [|discriminate].
    rewrite Nat.eqb_eq in *. rewrite Z.leb_le, Z.ltb_lt in *.
    repeat split; (discriminate || assumption || lia). }
  cut (exists qs, getFallbackQuiz shuffle T = Questions qs
                  /\ List.length qs = 5%nat
                  /\ forallb completeQuestion qs = true).
  { intros [qs [Hq [Hl Hc]]]. exists qs. split; [assumption|].
    split; [assumption|]. now apply Hspec. }
  assert (Hkey : forall k, existsb (String.eqb k) objectPrototype = false ->
            exists qs, quizOrJavascript k = Questions qs
                       /\ List.length qs = 5%nat
                       /\ forallb completeQuestion qs = true).
  { intros k Hk. rewrite quizOrJavascript_own by assumption.
    eexists; split; [reflexivity|].
    destruct (assoc k fallbackQuizzes) as [qs|] eqn:E; [|split; reflexivity].
    eapply static_quizzes_complete, assoc_In, E. }
  unfold getFallbackQuiz, getProperty. rewrite Hown.
  destruct (assoc (toLowerCase T) skillMatches); [now apply Hkey|].
  destruct (bestMatch (toLowerCase T)) as [best|] eqn:Hbest.
  - apply Hkey, skill_keys_not_inherited.
    destruct (proj2 (bestMatch_first_longest _) best Hbest)
      as [before [after [Hsplit _]]].
    assert (Hin : In best (collectMatches (toLowerCase T)))
      by (rewrite Hsplit; apply in_elt).
    apply collectMatches_In in Hin as [kws [kw [Hin _]]].
    change (quizKey best) with (fst (quizKey best, kws)). now apply in_map.
  - rewrite legacy_loop_never_selects by assumption.
    eexists; split; [reflexivity|].
    unfold generateRandomQuestions.
    destruct (domain_pool T) as [pool [Hpool _]]. rewrite Hpool.
    apply assoc_In in Hpool. apply templates_complete in Hpool as [Hlen Hall].
    pose proof (shuffle_permutes pool) as Hperm.
    assert (Hlen' : List.length (shuffle pool) = 5%nat)
      by (rewrite <- Hlen; symmetry; now apply Permutation_length).
    rewrite firstn_all2 by lia. split; [assumption|].
    rewrite forallb_forall in *. intros q Hq. apply Hall.
    eapply Permutation_in; [apply Permutation_sym|]; eassumption.
Qed.

(** X13: every question of [generateRandomQuestions] quotes the topic as
    given, and so passes [validateQuestionRelevance] for that topic. *)
Theorem random_questions_mention_topic (T : string) :
  Forall (fun q => includes (question q) T = true
                   /\ validateQuestionRelevance (question q) T = true)
         (generateRandomQuestions shuffle T).
Proof.
  unfold generateRandomQuestions.
  destruct (domain_pool T) as [pool [Hpool _]]. rewrite Hpool.
  apply assoc_In in Hpool.
  pose proof (templates_mention_topic _ _ _ Hpool) as Hall.
  pose proof (shuffle_permutes pool) as Hperm.
  assert (Hsh : Forall (fun q => includes (question q) T = true) (shuffle pool))
    by (eapply Permutation_Forall; eassumption).
  apply Forall_forall. intros q Hq.
  assert (Hin : In q (shuffle pool))
    by (rewrite <- (firstn_skipn 5 (shuffle pool)); apply in_or_app; now left).
  rewrite Forall_forall in Hsh. specialize (Hsh q Hin).
  split; [assumption|].
  unfold validateQuestionRelevance. cbn [existsb].
  now rewrite (includes_toLowerCase _ _ Hsh).
Qed.
End FallbackQuestions.

(** X14: a question that mentions the skill, in any letter case, is judged
    relevant; in particular every question is relevant to the empty skill
    name; and for a skill outside the four listed groups relevance is
    exactly that mention. *)
Theorem relevance_by_mention (question skillName : string) :
  (includes (toLowerCase question) (toLowerCase skillName) = true ->
   Relevance.validateQuestionRelevance question skillName = true)
  /\ Relevance.validateQuestionRelevance question "" = true
  /\ (Relevance.relatedTerms (toLowerCase skillName) = [] ->
      Relevance.validateQuestionRelevance question skillName
      = includes (toLowerCase question) (toLowerCase skillName)).
Proof.
  unfold Relevance.validateQuestionRelevance. cbn [existsb]. split; [|split].
  - now intros ->.
  - cbn [toLowerCase]. destruct (toLowerCase question); reflexivity.
  - intros ->. cbn [existsb]. now rewrite orb_false_r.
Qed.

(** ** Gemini service: the client and the single-call operations *)

Section GeminiFacts.
Import Fallback.
Variable JSON_parse : string -> Outcome Json.

(** X15: [getAIClient] builds a client exactly from the first non-empty
    key, [API_KEY] before [GEMINI_API_KEY] (an empty [API_KEY] counts as
    absent), and otherwise throws "API Key not found". *)
Theorem getAIClient_first_nonempty_key (env : Gemini.Env) :
  (forall k,
      Gemini.getAIClient env = Returns (Gemini.GoogleGenAI k) <->
      k <> ""
      /\ (Gemini.API_KEY env = Some k
          \/ ((Gemini.API_KEY env = None \/ Gemini.API_KEY env = Some "")
              /\ Gemini.GEMINI_API_KEY env = Some k)))
  /\ (forall e, Gemini.getAIClient env = Throws e -> e = Error "API Key not found").
Proof.
  destruct env as [[a|] [g|]]; unfold Gemini.getAIClient, Gemini.orElse;
    cbn [Gemini.API_KEY Gemini.GEMINI_API_KEY].
  all: repeat match goal with
         | |- context [String.eqb ?x ""] => destruct (String.eqb_spec x "")
         end.
  all: split; [intros k; split; [intros Hr | intros [Hk Hc]] | intros err He].
  all: try discriminate; try (injection Hr as <-); try (injection He as <-).
  all: try reflexivity.
  all: try (split; [assumption|]).
  all: try (destruct Hc as [Hc | [[Hc1 | Hc1] Hc]]).
  all: try discriminate.
  all: try (injection Hc as <-); try (injection Hc1 as <-).
  all: subst; try contradiction; try congruence; try reflexivity.
  all: try (now left).
  all: try (right; split; [now right | reflexivity]).
  all: try (right; split; [now left | reflexivity]).
Qed.

(** X16: when the client cannot be built, [generateRoadmap] and
    [suggestSkills] reject with that error whatever the remote call would
    answer; the default skill list of [suggestSkills] is not used. *)
Theorem gemini_rejects_without_client (env : Gemini.Env) (e : JsError)
    (currentSkills currentGoals : list string) (response : Outcome (option string)) :
  Gemini.getAIClient env = Throws e ->
  Gemini.generateRoadmap JSON_parse env response = Throws e
  /\ Gemini.suggestSkills JSON_parse env currentSkills currentGoals response
     = Throws e.
Proof.
  intros H. unfold Gemini.generateRoadmap, Gemini.suggestSkills.
  rewrite H. split; reflexivity.
Qed.

(** X17: once the client is built, [analyzeMatch] and [suggestSkills]
    never reject, whatever the remote call and [JSON.parse] do; a response
    without text gives the score-0 result, respectively the empty list. *)
Theorem gemini_single_calls_never_reject (env : Gemini.Env) (ai : Gemini.AIClient)
    (currentSkills currentGoals : list string) (response : Outcome (option string)) :
  Gemini.getAIClient env = Returns ai ->
  (exists v, Gemini.analyzeMatch JSON_parse env response = Returns v)
  /\ (exists v, Gemini.suggestSkills JSON_parse env currentSkills currentGoals
                  response = Returns v)
  /\ (response = Returns None \/ response = Returns (Some "") ->
      Gemini.analyzeMatch JSON_parse env response
      = Returns (JObj [ ("score", JNum (0 # 1));
                        ("reasoning", JStr "Could not analyze match.");
                        ("commonInterests", JArr []) ])
      /\ Gemini.suggestSkills JSON_parse env currentSkills currentGoals response
         = Returns (JArr [])).
Proof.
  intros H. unfold Gemini.analyzeMatch, Gemini.suggestSkills. rewrite H.
  cbn [bind]. split; [|split].
  - destruct response as [[t|]|e]; cbn [bind tryCatch Gemini.parseTextOr];
      try (eexists; reflexivity).
    destruct (String.eqb t ""); [eexists; reflexivity|].
    destruct (JSON_parse t); cbn [tryCatch]; eexists; reflexivity.
  - destruct response as [[t|]|e]; cbn [bind tryCatch];
      try (eexists; reflexivity).
    destruct (String.eqb t ""); cbn [tryCatch]; [eexists; reflexivity|].
    destruct (JSON_parse t) as [data|e]; cbn [bind tryCatch];
      [|eexists; reflexivity].
    destruct (member (Some data) "skills") as [[v|]|e]; cbn [bind tryCatch];
      try (eexists; reflexivity).
    destruct (truthy (Some v)); cbn [tryCatch]; eexists; reflexivity.
  - intros [-> | ->]; split; reflexivity.
Qed.

(** X18: when the remote call (or the decoding) fails, [suggestSkills]
    suggests exactly the default skills, in their order, that are neither
    among the known skills nor among the goals by exact comparison: never
    one the user already listed, and none at all when all five are listed. *)
Theorem suggestSkills_fallback_excludes_known (env : Gemini.Env) (ai : Gemini.AIClient)
    (currentSkills currentGoals : list string) (e : JsError) :
  Gemini.getAIClient env = Returns ai ->
  exists suggested,
    Gemini.suggestSkills JSON_parse env currentSkills currentGoals (Throws e)
    = Returns (JArr (map JStr suggested))
    /\ (forall s, In s suggested <->
          In s ["Machine Learning"; "Cloud Computing"; "Cybersecurity";
                "DevOps"; "Blockchain"]
          /\ ~ In s currentSkills /\ ~ In s currentGoals)
    /\ (List.length suggested <= 5)%nat
    /\ NoDup suggested.
Proof.
  intros H. unfold Gemini.suggestSkills. rewrite H. cbn [bind tryCatch].
  eexists. split; [reflexivity|].
  assert (Hinc : forall l s, Gemini.arrayIncludes l s = true <-> In s l).
  { intros l s. unfold Gemini.arrayIncludes. rewrite existsb_exists. split.
    - intros [x [Hx Heq]]. apply String.eqb_eq in Heq. now subst.
    - intros Hin. exists s. split; [assumption | apply String.eqb_refl]. }
  split; [|split].
  - intros s. rewrite filter_In, andb_true_iff, !negb_true_iff.
    unfold Gemini.defaults. split.
    + intros [Hd [H1 H2]]. split; [assumption|]. split; intros Hin;
        apply Hinc in Hin; congruence.
    + intros [Hd [H1 H2]]. split; [assumption|].
      split; apply not_true_is_false; intros Hin; apply Hinc in Hin; contradiction.
  - apply (filter_length_le _ Gemini.defaults).
  - apply NoDup_filter. unfold Gemini.defaults.
    repeat (constructor; [simpl; intuition discriminate|]). constructor.
Qed.
End GeminiFacts.

(** ** Gemini service: the quiz path *)

Section QuizRuns.
Import Fallback Retry Trace.
Variable JSON_parse : string -> Outcome Json.
Context {W : Type}.
Variable generateContent : W -> Outcome (option string) * W.
Variable random : nat -> Q.
Variable shuffle : list QuizQuestion -> list QuizQuestion.
Variable env : Gemini.Env.

(** X19: when the first remote call answers and its text decodes,
    [generateQuiz] resolves after that single invocation, without any wait,
    with the decoded value exactly as received, whatever its shape; an
    answer without text gives the empty array, not the fallback. *)
Theorem generateQuiz_first_answer (ai : Gemini.AIClient) (skillName : string)
    (text : option string) (w w1 : W) :
  Gemini.getAIClient env = Returns ai ->
  generateContent w = (Returns text, w1) ->
  (text = None \/ text = Some "" ->
   Gemini.generateQuiz JSON_parse generateContent random shuffle env skillName w
   = (Returns (Gemini.Decoded (JArr [])), w1, [Invoke 1]))
  /\ (forall t j, text = Some t -> t <> "" -> JSON_parse t = Returns j ->
      Gemini.generateQuiz JSON_parse generateContent random shuffle env skillName w
      = (Returns (Gemini.Decoded j), w1, [Invoke 1])).
Proof.
  intros Hai Hcall.
  unfold Gemini.generateQuiz, retryWithBackoff, Gemini.generateQuizInternal.
  cbn [retryFrom Nat.leb]. rewrite Hai, Hcall. cbn [bind]. split.
  - intros [-> | ->]; reflexivity.
  - intros t j -> Ht Hj. cbn [Gemini.parseTextOr].
    destruct (String.eqb_spec t ""); [contradiction|]. now rewrite Hj.
Qed.

(** X20: a response text that [JSON.parse] rejects counts as a retryable
    failure: when every answer is such a text the remote endpoint is called
    three times, with two waits, before the fallback selection is
    returned. *)
Theorem generateQuiz_retries_undecodable (ai : Gemini.AIClient) (skillName : string)
    (w : W) :
  Gemini.getAIClient env = Returns ai ->
  (forall s, exists t e,
      fst (generateContent s) = Returns (Some t) /\ t <> ""
      /\ JSON_parse t = Throws e /\ isClientError e = false) ->
  let '(r, w', tr) :=
    Gemini.generateQuiz JSON_parse generateContent random shuffle env skillName w in
  r = Returns (Gemini.Fallback (getFallbackQuiz shuffle skillName))
  /\ w' = stateAfter generateContent 3 w
  /\ invokedAttempts tr = [1; 2; 3]%nat
  /\ List.length (sleeps tr) = 2%nat.
Proof.
  intros Hai Hbad. unfold Gemini.generateQuiz, retryWithBackoff.
  set (op := Gemini.generateQuizInternal JSON_parse generateContent env).
  assert (Hop : forall s, snd (op s) = snd (generateContent s)
                  /\ exists e, fst (op s) = Throws e /\ isClientError e = false).
  { intros s. unfold op, Gemini.generateQuizInternal. rewrite Hai.
    destruct (Hbad s) as [t [e [Ht [Hne [Hp Hc]]]]].
    destruct (generateContent s) as [r s1]. cbn [fst snd] in *. subst r.
    split; [reflexivity|]. exists e. cbn [bind Gemini.parseTextOr].
    destruct (String.eqb_spec t ""); [contradiction|]. now split. }
  assert (Hstate : forall j s, stateAfter op j s = stateAfter generateContent j s).
  { induction j as [|j IHj]; intros s; [reflexivity|].
    rewrite !stateAfter_succ_r, IHj. f_equal. apply (proj1 (Hop s)). }
  destruct (retryFrom_run op random 3 (1000 # 1) 2 3 1 w) as [tr [Hrun [Hinv Hsl]]];
    try lia.
  { intros j _. apply (proj2 (Hop _)). }
  rewrite Hrun. destruct (proj2 (Hop (stateAfter op 2 w))) as [e [He _]].
  rewrite He. cbn [bind tryCatch]. rewrite Hstate.
  repeat split; assumption.
Qed.

(** X21: without an API key [generateQuiz] never calls the remote
    endpoint, yet it still goes through its two backoff waits, of
    [1000 + Math.random() * 1000] and [2000 + Math.random() * 1000]
    milliseconds, before it returns the fallback selection. *)
Theorem generateQuiz_waits_without_key (skillName : string) (w : W) :
  Gemini.API_KEY env = None ->
  Gemini.GEMINI_API_KEY env = None ->
  let '(r, w', tr) :=
    Gemini.generateQuiz JSON_parse generateContent random shuffle env skillName w in
  w' = w
  /\ exists d1 d2,
       tr = [Invoke 1; Sleep d1; Invoke 2; Sleep d2; Invoke 3]
       /\ (d1 == (1000 # 1) + random 1%nat * (1000 # 1))%Q
       /\ (d2 == (2000 # 1) + random 2%nat * (1000 # 1))%Q.
Proof.
  intros H1 H2. pose proof (getAIClient_no_key env H1 H2) as Hc.
  unfold Gemini.generateQuiz, retryWithBackoff.
  set (op := Gemini.generateQuizInternal JSON_parse generateContent env).
  assert (Hop : forall s, op s = (Throws (Error "API Key not found"), s))
    by (intros s; now apply generateQuizInternal_no_key).
  cbn [retryFrom Nat.leb Nat.eqb]. rewrite !Hop. cbn.
  split; [reflexivity|]. do 2 eexists. split; [reflexivity|].
  split; vm_compute; destruct (random _) as [n d]; cbn; lia.
Qed.
End QuizRuns.


(** ** Direct Mistral integration *)

Section DirectFacts.
Import Payload.
Variable JSON_parse : string -> Outcome Json.

(** X22: the direct operations never reject: whatever the HTTP exchange
    and [JSON.parse] do, each resolves with an array, and an HTTP reply
    that is not OK gives the fixed fallback even if its body is usable. *)
Theorem direct_operations_always_resolve (skill : string)
    (fetch : Outcome MistralDirect.Response) :
  (exists items,
      MistralDirect.suggestSkillsDirect JSON_parse fetch = Returns (JArr items))
  /\ (exists items,
        MistralDirect.generateRoadmapDirect JSON_parse skill fetch
        = Returns (JArr items))
  /\ (forall response,
        fetch = Returns response -> MistralDirect.ok response = false ->
        MistralDirect.suggestSkillsDirect JSON_parse fetch
        = Returns MistralDirect.fallbackSkills
        /\ MistralDirect.generateRoadmapDirect JSON_parse skill fetch
           = Returns (MistralDirect.fallbackRoadmap skill)).
Proof.
  split; [|split].
  - destruct (suggestSkillsDirect_total JSON_parse fetch) as [H | H];
      [rewrite H; eexists; reflexivity | exact H].
  - destruct (generateRoadmapDirect_total JSON_parse skill fetch) as [H | H];
      [rewrite H; eexists; reflexivity | exact H].
  - intros response -> Hok.
    unfold MistralDirect.suggestSkillsDirect, MistralDirect.generateRoadmapDirect,
      MistralDirect.decodeReply.
    cbn [bind]. rewrite Hok. split; reflexivity.
Qed.

(** X23: for every skill the fallback roadmap of [generateRoadmapDirect]
    has six steps that pass the server-side step validation, and its
    fallback skill list has five entries. *)
Theorem direct_fallbacks_well_formed (skill : string) :
  (exists steps,
      MistralDirect.fallbackRoadmap skill = JArr steps
      /\ List.length steps = 6%nat
      /\ MistralServer.validateSteps steps 0 = Returns tt)
  /\ (exists skills,
        MistralDirect.fallbackSkills = JArr (map JStr skills)
        /\ List.length skills = 5%nat).
Proof.
  split.
  - eexists. split; [reflexivity|]. split; reflexivity.
  - eexists. split; reflexivity.
Qed.

Lemma stripFences_plain (body rest : string) :
  noBacktick body = true ->
  stripFences 0 (body ++ rest) = body ++ stripFences 0 rest.
Proof.
  induction body as [|c body IH]; [reflexivity|].
  cbn [noBacktick]. intros H. apply andb_true_iff in H as [Hc Hb].
  apply negb_true_iff, Ascii.eqb_neq in Hc.
  cbn [append stripFences String.prefix].
  destruct (ascii_dec "`" c) as [Heq | _]; [symmetry in Heq; contradiction|].
  now rewrite IH.
Qed.

Lemma stripFences_unfenced (body : string) :
  noBacktick body = true -> stripFences 0 body = body.
Proof.
  induction body as [|c body IH]; [reflexivity|].
  cbn [noBacktick]. intros H. apply andb_true_iff in H as [Hc Hb].
  apply negb_true_iff, Ascii.eqb_neq in Hc.
  cbn [stripFences String.prefix].
  destruct (ascii_dec "`" c) as [Heq | _]; [symmetry in Heq; contradiction|].
  now rewrite IH.
Qed.

Lemma trimEnd_app_nl (s : string) : trimEnd (s ++ nl) = trimEnd s.
Proof.
  induction s as [|c s IH]; [reflexivity|].
  cbn [append trimEnd]. now rewrite IH.
Qed.

Lemma trim_app_nl (s : string) : trim (s ++ nl) = trim s.
Proof.
  unfold trim. induction s as [|c s IH]; [reflexivity|].
  cbn [append trimStart]. destruct (isSpace c); [assumption|].
  apply (trimEnd_app_nl (String c s)).
Qed.

(** X24: a payload without backticks comes out of the cleaning step as
    its trimmed text, whether the reply carries it bare, inside a code
    fence, or inside a fence tagged [json]. *)
Theorem cleanContent_unwraps_fences (body : string) :
  noBacktick body = true ->
  cleanContent (Some (JStr body)) = Returns (trim body)
  /\ cleanContent (Some (JStr (fenced body))) = Returns (trim body)
  /\ cleanContent (Some (JStr (fencedJson body))) = Returns (trim body).
Proof.
  intros H. unfold cleanContent, fenced, fencedJson.
  assert (Htail : stripFences 0 (nl ++ "```") = nl) by reflexivity.
  split; [|split]; apply f_equal.
  - now rewrite stripFences_unfenced.
  - assert (Hhead : stripFences 0 ("```" ++ nl ++ body ++ nl ++ "```")
                    = stripFences 0 ((nl ++ body) ++ nl ++ "```"))
      by (cbv [append nl]; cbn; reflexivity).
    rewrite Hhead, stripFences_plain, Htail.
    + assert (Hlead : trim ((nl ++ body) ++ nl) = trim (body ++ nl))
        by reflexivity.
      rewrite Hlead. apply trim_app_nl.
    + exact H.
  - assert (Hhead : stripFences 0 ("```json" ++ nl ++ body ++ nl ++ "```")
                    = stripFences 0 (body ++ nl ++ "```"))
      by (destruct body; cbv [append nl]; cbn; reflexivity).
    rewrite Hhead, stripFences_plain, Htail by assumption.
    apply trim_app_nl.
Qed.
End DirectFacts.

(** ** Server-side Mistral service *)

Section ServerFacts.
Import Payload.
Variable JSON_parse : string -> Outcome Json.

Lemma validateStep_accepts (step : Json) (index : nat) :
  validStep step -> MistralServer.validateStep step index = Returns tt.
Proof.
  intros [fields [title [description [duration [r1 [r2 [r3
            [-> [Ht [Htn [Hd [Hdn [Hu [Hun Hr]]]]]]]]]]]]]].
  unfold MistralServer.validateStep. cbn [member bind].
  rewrite Ht. cbn [MistralServer.notNonEmptyString].
  destruct (String.eqb_spec title ""); [contradiction|].
  rewrite Hd. cbn [MistralServer.notNonEmptyString].
  destruct (String.eqb_spec description ""); [contradiction|].
  rewrite Hu. cbn [MistralServer.notNonEmptyString].
  destruct (String.eqb_spec duration ""); [contradiction|].
  rewrite Hr. reflexivity.
Qed.

Lemma validateSteps_accepts (steps : list Json) (index : nat) :
  Forall validStep steps -> MistralServer.validateSteps steps index = Returns tt.
Proof.
  intros H. revert index. induction H as [|step rest Hstep _ IH]; intros index;
    cbn [MistralServer.validateSteps]; [reflexivity|].
  rewrite validateStep_accepts by assumption. cbn [bind]. apply IH.
Qed.

(** X25: the server-side validation accepts every well-shaped answer and
    returns its list unchanged: a content string that, once cleaned,
    decodes to an object with an array of five skills, respectively of six
    valid roadmap steps, makes the operation resolve with that array. *)
Theorem server_accepts_well_shaped (content : string) (fields : list (string * Json))
    (items : list Json) :
  JSON_parse (trim (stripFences 0 content)) = Returns (JObj fields) ->
  (assoc "skills" fields = Some (JArr items) -> List.length items = 5%nat ->
   MistralServer.suggestSkills JSON_parse (Returns (Some (JStr content)))
   = Returns (JArr items))
  /\ (assoc "roadmap" fields = Some (JArr items) -> List.length items = 6%nat ->
      Forall validStep items ->
      MistralServer.generateRoadmap JSON_parse (Returns (Some (JStr content)))
      = Returns (JArr items)).
Proof.
  intros Hparse. split.
  - intros Hs Hlen.
    unfold MistralServer.suggestSkills, MistralServer.decodeContent,
      MistralServer.requireArray.
    cbn [bind cleanContent]. rewrite Hparse. cbn [bind member]. rewrite Hs.
    cbn [bind]. rewrite Hlen. reflexivity.
  - intros Hr Hlen Hall.
    unfold MistralServer.generateRoadmap, MistralServer.decodeContent,
      MistralServer.requireArray.
    cbn [bind cleanContent]. rewrite Hparse. cbn [bind member]. rewrite Hr.
    cbn [bind]. rewrite Hlen. cbn [Nat.eqb negb].
    rewrite validateSteps_accepts by assumption. reflexivity.
Qed.

(** X26: a decoded answer with the wrong number of entries is rejected
    with a message that reports the count: any skill list not of length 5,
    and any roadmap not of length 6 (a five-step roadmap included). *)
Theorem server_rejects_wrong_count (content : string) (fields : list (string * Json))
    (items : list Json) :
  JSON_parse (trim (stripFences 0 content)) = Returns (JObj fields) ->
  (assoc "skills" fields = Some (JArr items) -> List.length items <> 5%nat ->
   MistralServer.suggestSkills JSON_parse (Returns (Some (JStr content)))
   = Throws (Error ("Failed to suggest skills: Expected 5 skills, got "
                    ++ showNat (List.length items))))
  /\ (assoc "roadmap" fields = Some (JArr items) -> List.length items <> 6%nat ->
      MistralServer.generateRoadmap JSON_parse (Returns (Some (JStr content)))
      = Throws (Error ("Failed to generate roadmap: Expected 6 roadmap steps, got "
                       ++ showNat (List.length items)))).
Proof.
  intros Hparse. split.
  - intros Hs Hlen.
    unfold MistralServer.suggestSkills, MistralServer.decodeContent,
      MistralServer.requireArray.
    cbn [bind cleanContent]. rewrite Hparse. cbn [bind member]. rewrite Hs.
    cbn [bind]. apply Nat.eqb_neq in Hlen. rewrite Hlen. reflexivity.
  - intros Hr Hlen.
    unfold MistralServer.generateRoadmap, MistralServer.decodeContent,
      MistralServer.requireArray.
    cbn [bind cleanContent]. rewrite Hparse. cbn [bind member]. rewrite Hr.
    cbn [bind]. apply Nat.eqb_neq in Hlen. rewrite Hlen. reflexivity.
Qed.

(** X27: every rejection of the server-side operations is a fresh error
    that carries only a message, prefixed with the operation's "Failed to"
    text: the code and status of the original error are not passed on. *)
Theorem server_errors_are_wrapped (invoke : Outcome (option Json)) (e : JsError) :
  (MistralServer.suggestSkills JSON_parse invoke = Throws e ->
   err_code e = None /\ err_status e = None
   /\ exists m, err_message e = Some ("Failed to suggest skills: " ++ m))
  /\ (MistralServer.generateRoadmap JSON_parse invoke = Throws e ->
      err_code e = None /\ err_status e = None
      /\ exists m, err_message e = Some ("Failed to generate roadmap: " ++ m)).
Proof.
  split.
  - unfold MistralServer.suggestSkills.
    match goal with
    | |- tryCatch ?body _ = _ -> _ => destruct body as [v|e0]
    end; cbn [tryCatch]; [discriminate|].
    intros [= <-]. repeat split. now exists (messageOf e0).
  - unfold MistralServer.generateRoadmap.
    match goal with
    | |- tryCatch ?body _ = _ -> _ => destruct body as [v|e0]
    end; cbn [tryCatch]; [discriminate|].
    intros [= <-]. repeat split. now exists (messageOf e0).
Qed.
End ServerFacts.


(** * Further instances *)

(** X1 on an operation that fails once with 503 and then succeeds: two
    invocations, one wait. *)
Lemma retry_stops_at_first_final_outcome_witness :
  let '(r, w', tr) :=
    Retry.retryWithBackoff MoreSamples.failsOnce Samples.halves 3 (10 # 1) 0%nat in
  r = Returns 1%nat
  /\ w' = 2%nat
  /\ Trace.invokedAttempts tr = [1; 2]%nat
  /\ Retry.invocations tr = 2%nat
  /\ List.length (Retry.sleeps tr) = 1%nat.
Proof.
  apply (retry_stops_at_first_final_outcome MoreSamples.failsOnce Samples.halves 3
           (10 # 1) 2 0%nat).
  - lia.
  - lia.
  - intros j Hj. assert (j = 0)%nat by lia. subst j.
    exists Samples.unavailable. split; reflexivity.
  - left. reflexivity.
Defined.

(** X2 on an operation that always answers 503. *)
Lemma retry_trace_shape_witness :
  exists k,
    Trace.invokedAttempts
      (snd (Retry.retryWithBackoff (@Samples.alwaysUnavailable unit) Samples.halves 3
                                   (10 # 1) 0%nat))
    = seq 1 k
    /\ (k <= 3)%nat
    /\ ((1 <= 3)%nat -> (1 <= k)%nat)
    /\ List.length
         (Retry.sleeps
            (snd (Retry.retryWithBackoff (@Samples.alwaysUnavailable unit)
                                         Samples.halves 3 (10 # 1) 0%nat)))
       = (k - 1)%nat
    /\ (3%nat = 0%nat ->
        snd (Retry.retryWithBackoff (@Samples.alwaysUnavailable unit) Samples.halves
                                    3 (10 # 1) 0%nat) = [])
    /\ ((1 <= 3)%nat ->
        snd (Retry.retryWithBackoff (@Samples.alwaysUnavailable unit) Samples.halves
                                    3 (10 # 1) 0%nat)
        = Trace.schedule 1
            (Retry.sleeps
               (snd (Retry.retryWithBackoff (@Samples.alwaysUnavailable unit)
                                            Samples.halves 3 (10 # 1) 0%nat)))).
Proof.
  exact (retry_trace_shape (@Samples.alwaysUnavailable unit) Samples.halves 3
                           (10 # 1) 0%nat).
Defined.

(** X5 at the first attempt, base delay 1000, draw 0.5: 3000 against 1500. *)
Lemma delay_503_at_least_other_witness :
  (Retry.backoffDelay MoreSamples.timeout (1000 # 1) 1 (1 # 2)
   <= Retry.backoffDelay Samples.unavailable (1000 # 1) 1 (1 # 2))%Q
  /\ (Retry.backoffDelay Samples.unavailable (1000 # 1) 1 (1 # 2)
      == (2 # 1) * Retry.backoffDelay MoreSamples.timeout (1000 # 1) 1 (1 # 2))%Q.
Proof.
  apply (delay_503_at_least_other Samples.unavailable MoreSamples.timeout
           (1000 # 1) (1 # 2) 1).
  - lia.
  - vm_compute. discriminate.
  - vm_compute. discriminate.
  - reflexivity.
  - reflexivity.
Defined.

(** X6 on an operation that always answers 503, base delay 10. *)
Lemma retry_waits_at_least_base_witness :
  Forall (fun d => ((10 # 1) <= d)%Q)
         (Retry.sleeps
            (snd (Retry.retryWithBackoff (@Samples.alwaysUnavailable unit)
                                         Samples.halves 3 (10 # 1) 0%nat))).
Proof.
  apply (retry_waits_at_least_base nat unit (@Samples.alwaysUnavailable unit)
           Samples.halves 3 (10 # 1)).
  - vm_compute. discriminate.
  - intros a. vm_compute. discriminate.
Defined.

(** X8 on a topic that includes [react], [css], [js] and [ts]. *)
Lemma bestMatch_first_longest_witness :
  exists before after,
    Fallback.collectMatches "my reactjs app with css3 and ts"
    = (before ++ Fallback.mkMatch "react" "react" 5 :: after)%list
    /\ Forall (fun x => (Fallback.length x < 5)%nat) before
    /\ Forall (fun x => (Fallback.length x <= 5)%nat) after.
Proof.
  apply (proj2 (bestMatch_first_longest "my reactjs app with css3 and ts")
               (Fallback.mkMatch "react" "react" 5)).
  reflexivity.
Defined.

(** X9 on the match recorded for [css] in the same topic. *)
Lemma collectMatches_one_per_key_witness :
  exists before after,
    In ("css", (before ++ "css" :: after)%list) Fallback.skillMatches
    /\ includes "my reactjs app with css3 and ts" "css" = true
    /\ Forall (fun alias => includes "my reactjs app with css3 and ts" alias = false)
              before
    /\ 3%nat = String.length "css".
Proof.
  apply (proj2 (proj2 (collectMatches_one_per_key "my reactjs app with css3 and ts"))
               (Fallback.mkMatch "css" "css" 3)).
  simpl. tauto.
Defined.

(** X10 on the topic [yoga]. *)
Lemma legacy_loop_never_selects_witness :
  find (fun entry => includes "yoga" (fst entry)) Fallback.fallbackQuizzes = None.
Proof. apply (legacy_loop_never_selects "yoga"). reflexivity. Defined.

(** X11 on [JAVA] and [java], with two different rearrangements. *)
Lemma matched_selection_deterministic_witness :
  Fallback.getFallbackQuiz Samples.reversed "JAVA"
  = Fallback.getFallbackQuiz (fun l => l) "java".
Proof.
  apply (matched_selection_deterministic Samples.reversed (fun l => l) "JAVA" "java").
  - reflexivity.
  - left. discriminate.
Defined.

(** X12 on the topic [Cooking], which the scan resolves through [ng]. *)
Lemma fallback_questions_complete_witness :
  exists qs,
    Fallback.getFallbackQuiz Samples.reversed "Cooking" = Fallback.Questions qs
    /\ List.length qs = 5%nat
    /\ Forall (fun q => Fallback.codeSnippet q <> None
                        /\ List.length (Fallback.options q) = 4%nat
                        /\ (0 <= Fallback.correctAnswerIndex q <= 3)%Z) qs.
Proof.
  apply (fallback_questions_complete Samples.reversed).
  - intros l. apply Permutation_rev.
  - reflexivity.
Defined.

(** X13 on the topic [Yoga]. *)
Lemma random_questions_mention_topic_witness :
  Forall (fun q => includes (Fallback.question q) "Yoga" = true
                   /\ Relevance.validateQuestionRelevance (Fallback.question q) "Yoga"
                      = true)
         (Fallback.generateRandomQuestions Samples.reversed "Yoga").
Proof.
  apply (random_questions_mention_topic Samples.reversed).
  intros l. apply Permutation_rev.
Defined.

(** X14 on a question that mentions [Yoga], asked about [YOGA]. *)
Lemma relevance_by_mention_witness :
  Relevance.validateQuestionRelevance MoreSamples.yogaQuestion "YOGA" = true
  /\ Relevance.validateQuestionRelevance MoreSamples.yogaQuestion "YOGA"
     = includes (toLowerCase MoreSamples.yogaQuestion) (toLowerCase "YOGA").
Proof.
  destruct (relevance_by_mention MoreSamples.yogaQuestion "YOGA") as [H1 [_ H3]].
  split; [apply H1 | apply H3]; reflexivity.
Defined.

(** X15 on an environment whose [API_KEY] is empty and whose
    [GEMINI_API_KEY] is set. *)
Lemma getAIClient_first_nonempty_key_witness :
  Gemini.getAIClient (Gemini.mkEnv (Some "") (Some "gemini-key"))
  = Returns (Gemini.GoogleGenAI "gemini-key").
Proof.
  apply (proj1 (getAIClient_first_nonempty_key
                  (Gemini.mkEnv (Some "") (Some "gemini-key")))).
  split; [discriminate|]. right. split; [now right | reflexivity].
Defined.

(** X17 with a key and a response without text. *)
Lemma gemini_single_calls_never_reject_witness :
  Gemini.analyzeMatch Samples.parseSamples Samples.withKey (Returns None)
  = Returns (JObj [ ("score", JNum (0 # 1));
                    ("reasoning", JStr "Could not analyze match.");
                    ("commonInterests", JArr []) ])
  /\ Gemini.suggestSkills Samples.parseSamples Samples.withKey ["Go"] [] (Returns None)
     = Returns (JArr []).
Proof.
  apply (gemini_single_calls_never_reject Samples.parseSamples Samples.withKey
           (Gemini.GoogleGenAI "key") ["Go"] [] (Returns None)).
  - reflexivity.
  - now left.
Defined.

(** X18 for a user who knows [DevOps] and aims at [Blockchain]. *)
Lemma suggestSkills_fallback_excludes_known_witness :
  exists suggested,
    Gemini.suggestSkills Samples.parseSamples Samples.withKey ["DevOps"] ["Blockchain"]
                         (Throws Samples.unavailable)
    = Returns (JArr (map JStr suggested))
    /\ (forall s, In s suggested <->
          In s ["Machine Learning"; "Cloud Computing"; "Cybersecurity";
                "DevOps"; "Blockchain"]
          /\ ~ In s ["DevOps"] /\ ~ In s ["Blockchain"])
    /\ (List.length suggested <= 5)%nat
    /\ NoDup suggested.
Proof.
  apply (suggestSkills_fallback_excludes_known Samples.parseSamples Samples.withKey
           (Gemini.GoogleGenAI "key") ["DevOps"] ["Blockchain"] Samples.unavailable).
  reflexivity.
Defined.

(** X19 on an endpoint that answers the five-skill text: the quiz call
    hands back that object. *)
Lemma generateQuiz_first_answer_witness :
  Gemini.generateQuiz Samples.parseSamples
    (MoreSamples.answers (Some Samples.fiveSkillsText)) Samples.halves
    Samples.reversed Samples.withKey "Java" 0%nat
  = (Returns (Gemini.Decoded Samples.fiveSkills), 1%nat, [Retry.Invoke 1]).
Proof.
  apply (proj2 (generateQuiz_first_answer Samples.parseSamples
                  (MoreSamples.answers (Some Samples.fiveSkillsText)) Samples.halves
                  Samples.reversed Samples.withKey (Gemini.GoogleGenAI "key") "Java"
                  (Some Samples.fiveSkillsText) 0%nat 1%nat eq_refl eq_refl)
               Samples.fiveSkillsText Samples.fiveSkills).
  - reflexivity.
  - discriminate.
  - reflexivity.
Defined.

(** X20 on an endpoint that always answers a text that does not decode. *)
Lemma generateQuiz_retries_undecodable_witness :
  let '(r, w', tr) :=
    Gemini.generateQuiz Samples.parseSamples (MoreSamples.answers (Some "oops"))
      Samples.halves Samples.reversed Samples.withKey "Java" 0%nat in
  r = Returns (Gemini.Fallback (Fallback.getFallbackQuiz Samples.reversed "Java"))
  /\ w' = Trace.stateAfter (MoreSamples.answers (Some "oops")) 3 0%nat
  /\ Trace.invokedAttempts tr = [1; 2; 3]%nat
  /\ List.length (Retry.sleeps tr) = 2%nat.
Proof.
  apply (generateQuiz_retries_undecodable Samples.parseSamples
           (MoreSamples.answers (Some "oops")) Samples.halves Samples.reversed
           Samples.withKey (Gemini.GoogleGenAI "key") "Java" 0%nat).
  - reflexivity.
  - intros s. exists "oops", (Error "Unexpected token").
    repeat split; (reflexivity || discriminate).
Defined.

(** X21 in an environment without keys. *)
Lemma generateQuiz_waits_without_key_witness :
  let '(r, w', tr) :=
    Gemini.generateQuiz Samples.parseSamples
      (MoreSamples.answers (Some Samples.fiveSkillsText)) Samples.halves
      Samples.reversed Samples.withoutKey "Java" 0%nat in
  w' = 0%nat
  /\ exists d1 d2,
       tr = [Retry.Invoke 1; Retry.Sleep d1; Retry.Invoke 2; Retry.Sleep d2;
             Retry.Invoke 3]
       /\ (d1 == (1000 # 1) + Samples.halves 1%nat * (1000 # 1))%Q
       /\ (d2 == (2000 # 1) + Samples.halves 2%nat * (1000 # 1))%Q.
Proof.
  apply (generateQuiz_waits_without_key Samples.parseSamples
           (MoreSamples.answers (Some Samples.fiveSkillsText)) Samples.halves
           Samples.reversed Samples.withoutKey "Java" 0%nat);
    reflexivity.
Defined.

(** X22 on an HTTP 500 reply. *)
Lemma direct_operations_always_resolve_witness :
  MistralDirect.suggestSkillsDirect Samples.parseSamples MoreSamples.serverError
  = Returns MistralDirect.fallbackSkills
  /\ MistralDirect.generateRoadmapDirect Samples.parseSamples "Go"
       MoreSamples.serverError
     = Returns (MistralDirect.fallbackRoadmap "Go").
Proof.
  apply (proj2 (proj2 (direct_operations_always_resolve Samples.parseSamples "Go"
                         MoreSamples.serverError))
               (MistralDirect.mkResponse false 500 "Internal Server Error"
                                         (Returns JNull)));
    reflexivity.
Defined.

(** X24 on the one-skill text. *)
Lemma cleanContent_unwraps_fences_witness :
  cleanContent (Some (JStr Samples.oneSkillText))
  = Returns (trim Samples.oneSkillText)
  /\ cleanContent (Some (JStr (Payload.fenced Samples.oneSkillText)))
     = Returns (trim Samples.oneSkillText)
  /\ cleanContent (Some (JStr (Payload.fencedJson Samples.oneSkillText)))
     = Returns (trim Samples.oneSkillText).
Proof.
  apply (cleanContent_unwraps_fences Samples.oneSkillText). reflexivity.
Defined.

(** X25 on the five-skill text and on the six-step roadmap text, the
    latter wrapped in a tagged fence. *)
Lemma server_accepts_well_shaped_witness :
  MistralServer.suggestSkills Samples.parseSamples
    (Returns (Some (JStr Samples.fiveSkillsText)))
  = Returns (JArr (map JStr ["Go"; "Rust"; "SQL"; "Docker"; "Git"]))
  /\ MistralServer.generateRoadmap Samples.parseSamples
       (Returns (Some (JStr (Payload.fencedJson Samples.sixStepsText))))
     = Returns (JArr [ Samples.step 1 "Basics"; Samples.step 2 "Syntax";
                       Samples.step 3 "Tooling"; Samples.step 4 "Projects";
                       Samples.step 5 "Testing"; Samples.step 6 "Mastery" ]).
Proof.
  split.
  - apply (proj1 (server_accepts_well_shaped Samples.parseSamples
                    Samples.fiveSkillsText
                    [("skills", JArr (map JStr ["Go"; "Rust"; "SQL"; "Docker"; "Git"]))]
                    (map JStr ["Go"; "Rust"; "SQL"; "Docker"; "Git"]) eq_refl));
      reflexivity.
  - apply (proj2 (server_accepts_well_shaped Samples.parseSamples
                    (Payload.fencedJson Samples.sixStepsText)
                    [("roadmap", JArr [ Samples.step 1 "Basics"; Samples.step 2 "Syntax";
                                        Samples.step 3 "Tooling";
                                        Samples.step 4 "Projects";
                                        Samples.step 5 "Testing";
                                        Samples.step 6 "Mastery" ])]
                    _ eq_refl)); [reflexivity | reflexivity |].
    repeat (constructor;
            [unfold Payload.validStep, Samples.step, MistralDirect.roadmapStep;
             do 7 eexists; repeat split; (reflexivity || discriminate)|]).
    constructor.
Defined.

(** X26 on the one-skill text. *)
Lemma server_rejects_wrong_count_witness :
  MistralServer.suggestSkills MoreSamples.parseOneSkill
    (Returns (Some (JStr Samples.oneSkillText)))
  = Throws (Error "Failed to suggest skills: Expected 5 skills, got 1").
Proof.
  apply (proj1 (server_rejects_wrong_count MoreSamples.parseOneSkill
                  Samples.oneSkillText [("skills", JArr [JStr "Go"])] [JStr "Go"]
                  eq_refl)).
  - reflexivity.
  - discriminate.
Defined.

(** X27 on a rejected call: the 503 code is gone from the error thrown. *)
Lemma server_errors_are_wrapped_witness :
  err_code (Error "Failed to suggest skills: Service Unavailable") = None
  /\ err_status (Error "Failed to suggest skills: Service Unavailable") = None
  /\ exists m, err_message (Error "Failed to suggest skills: Service Unavailable")
               = Some ("Failed to suggest skills: " ++ m).
Proof.
  apply (proj1 (server_errors_are_wrapped Samples.parseSamples
                  (Throws Samples.unavailable) _)).
  reflexivity.
Defined.

(** X16 in an environment without keys, with a remote call that would
    have failed. *)
Lemma gemini_rejects_without_client_witness :
  Gemini.generateRoadmap Samples.parseSamples Samples.withoutKey
    (Throws Samples.unavailable)
  = Throws (Error "API Key not found")
  /\ Gemini.suggestSkills Samples.parseSamples Samples.withoutKey ["Go"] []
       (Throws Samples.unavailable)
     = Throws (Error "API Key not found").
Proof.
  apply (gemini_rejects_without_client Samples.parseSamples Samples.withoutKey
           (Error "API Key not found") ["Go"] [] (Throws Samples.unavailable)).
  reflexivity.
Defined.


(** * Failure handling, by kind of failure *)

Section FailureKinds.
Import Fallback Failure.
Variable JSON_parse : string -> Outcome Json.

(** Past the HTTP status check and the reading of the body, the [try] body
    of a direct operation goes on with the content of the first choice. *)
Lemma decodeReply_content (response : MistralDirect.Response) (data : Json) :
  MistralDirect.ok response = true ->
  MistralDirect.json response = Returns data ->
  MistralDirect.decodeReply JSON_parse (Returns response)
  = bind (replyContent data)
         (fun content =>
            if negb (truthy content)
            then Throws (Error "No content received from Mistral API")
            else bind (cleanContent content) JSON_parse).
Proof.
  intros Hok Hjson. unfold MistralDirect.decodeReply, replyContent.
  cbn [bind]. rewrite Hok, Hjson. cbn [negb bind].
  destruct (member (Some data) "choices") as [choices|e]; cbn [bind]; [|reflexivity].
  destruct (index0 choices) as [choice|e]; cbn [bind]; [|reflexivity].
  destruct (optMember choice "message") as [message|e]; cbn [bind]; reflexivity.
Qed.

Lemma arrayField_invalid (field : string) (parsed : Json) :
  ~ hasArray field parsed ->
  exists e, MistralDirect.arrayField parsed field = Throws e.
Proof.
  intros Hnot. unfold MistralDirect.arrayField.
  destruct parsed as [| | | | |fields]; cbn [member bind];
    try (eexists; reflexivity).
  destruct (assoc field fields) as [[| | | |items|]|] eqn:E;
    try (eexists; reflexivity).
  exfalso. apply Hnot. now exists fields, items.
Qed.

(** Every kind of failure makes the [try] body of a direct operation
    throw. *)
Lemma direct_body_throws (field : string) (fetch : Outcome MistralDirect.Response) :
  DirectFails JSON_parse (hasArray field) fetch ->
  exists e,
    bind (MistralDirect.decodeReply JSON_parse fetch)
         (fun parsed => MistralDirect.arrayField parsed field) = Throws e.
Proof.
  intros H.
  destruct H as [e | r Hok | r e Hok Hj | r data e Hok Hj Hc
                 | r data content Hok Hj Hc Ht | r data content Hok Hj Hc Ht Hn
                 | r data s e Hok Hj Hc Hs Hp | r data s parsed Hok Hj Hc Hs Hp Hv].
  - eexists; reflexivity.
  - unfold MistralDirect.decodeReply. cbn [bind]. rewrite Hok.
    eexists; reflexivity.
  - unfold MistralDirect.decodeReply. cbn [bind]. rewrite Hok, Hj.
    eexists; reflexivity.
  - rewrite (decodeReply_content r data Hok Hj), Hc. eexists; reflexivity.
  - rewrite (decodeReply_content r data Hok Hj), Hc. cbn [bind]. rewrite Ht.
    eexists; reflexivity.
  - rewrite (decodeReply_content r data Hok Hj), Hc. cbn [bind]. rewrite Ht.
    cbn [negb]. destruct content as [[| | |s| |]|]; cbn [cleanContent bind];
      try (eexists; reflexivity).
    exfalso. now apply (Hn s).
  - rewrite (decodeReply_content r data Hok Hj), Hc. cbn [bind truthy].
    destruct (String.eqb_spec s ""); [contradiction|].
    cbn [negb cleanContent bind]. rewrite Hp. eexists; reflexivity.
  - rewrite (decodeReply_content r data Hok Hj), Hc. cbn [bind truthy].
    destruct (String.eqb_spec s ""); [contradiction|].
    cbn [negb cleanContent bind]. rewrite Hp. cbn [bind].
    now apply arrayField_invalid.
Qed.

Lemma server_decode_fails (valid : Json -> Prop) (invoke : Outcome (option Json)) :
  ServerFails JSON_parse valid invoke ->
  (exists e, MistralServer.decodeContent JSON_parse invoke = Throws e)
  \/ (exists parsed,
        MistralServer.decodeContent JSON_parse invoke = Returns parsed
        /\ ~ valid parsed).
Proof.
  intros [e | content Hn | s e Hp | s parsed Hp Hv];
    unfold MistralServer.decodeContent; cbn [bind].
  - left. eexists; reflexivity.
  - left. destruct content as [[| | |s| |]|]; cbn [cleanContent bind];
      try (eexists; reflexivity).
    exfalso. now apply (Hn s).
  - left. cbn [cleanContent bind]. rewrite Hp. eexists; reflexivity.
  - right. cbn [cleanContent bind]. rewrite Hp. now exists parsed.
Qed.

Lemma suggestSkills_invalid (parsed : Json) :
  ~ hasFiveSkills parsed ->
  exists e,
    bind (MistralServer.requireArray parsed "skills"
                                     "Invalid skills response structure")
         (fun skills =>
            if negb (List.length skills =? 5)%nat
            then Throws (Error ("Expected 5 skills, got "
                                ++ showNat (List.length skills)))
            else Returns (JArr skills)) = Throws e.
Proof.
  intros Hnot. unfold MistralServer.requireArray.
  destruct parsed as [| | | | |fields]; cbn [member bind];
    try (eexists; reflexivity).
  destruct (assoc "skills" fields) as [[| | | |items|]|] eqn:E; cbn [bind];
    try (eexists; reflexivity).
  destruct (List.length items =? 5)%nat eqn:Hlen; cbn [negb];
    [|eexists; reflexivity].
  exfalso. apply Hnot. exists fields, items. apply Nat.eqb_eq in Hlen. auto.
Qed.

Lemma generateRoadmap_invalid (parsed : Json) :
  ~ hasSixValidSteps parsed ->
  exists e,
    bind (MistralServer.requireArray parsed "roadmap"
                                     "Invalid roadmap response structure")
         (fun roadmap =>
            if negb (List.length roadmap =? 6)%nat
            then Throws (Error ("Expected 6 roadmap steps, got "
                                ++ showNat (List.length roadmap)))
            else bind (MistralServer.validateSteps roadmap 0)
                      (fun _ => Returns (JArr roadmap))) = Throws e.
Proof.
  intros Hnot. unfold MistralServer.requireArray.
  destruct parsed as [| | | | |fields]; cbn [member bind];
    try (eexists; reflexivity).
  destruct (assoc "roadmap" fields) as [[| | | |items|]|] eqn:E; cbn [bind];
    try (eexists; reflexivity).
  destruct (List.length items =? 6)%nat eqn:Hlen; cbn [negb];
    [|eexists; reflexivity].
  destruct (MistralServer.validateSteps items 0) as [[]|e] eqn:Hsteps;
    cbn [bind]; [|eexists; reflexivity].
  exfalso. apply Hnot. exists fields, items. apply Nat.eqb_eq in Hlen.
  repeat split; auto.
  apply validateSteps_shape in Hsteps.
  eapply Forall_impl; [|exact Hsteps].
  intros step [i Hi]. eapply validateStep_shape, Hi.
Qed.

(** C2 (amended): whenever the remote path fails, the operations that have
    a fallback return it rather than propagating the error:
    - [generateQuiz], with or without an API key, never rejects, and
      returns the fallback selection when its retried operation ends in an
      error, be it a client error at the first attempt or three failed
      attempts (a rejected call or a text that does not decode);
    - the Gemini [suggestSkills], when the call is rejected or the text
      does not decode (or decodes to [null]), returns the default skills
      the user has not listed;
    - [suggestSkillsDirect] and [generateRoadmapDirect], when the request
      is rejected, the HTTP reply is not OK, its body or content cannot be
      used, the text does not decode or the decoded answer fails the shape
      check, return their fixed fallback;
    - [analyzeMatch], when the call is rejected or the text does not
      decode, returns the neutral result (score 50, no common interests).
    The Gemini [generateRoadmap] rethrows the error instead, and the
    server-side [suggestSkills] and [generateRoadmap] throw an error that
    wraps its message, also when the answer fails their validation. For
    the Gemini operations other than [generateQuiz] this supposes the
    client could be built. *)
Theorem remote_failure_handling :
  (forall (W : Type) (generateContent : W -> Outcome (option string) * W)
          (random : nat -> Q) (shuffle : list QuizQuestion -> list QuizQuestion)
          (env : Gemini.Env) (skillName : string) (w : W),
      let op := Gemini.generateQuizInternal JSON_parse generateContent env in
      let result := Gemini.generateQuiz JSON_parse generateContent random shuffle
                                        env skillName w in
      let fallback := Returns (Gemini.Fallback (getFallbackQuiz shuffle skillName)) in
      (exists v, fst (fst result) = Returns v)
      /\ (forall e,
            fst (fst (Retry.retryWithBackoff op random 3 (1000 # 1) w)) = Throws e ->
            fst (fst result) = fallback)
      /\ (forall e,
            fst (op w) = Throws e -> Retry.isClientError e = true ->
            result = (fallback, snd (op w), [Retry.Invoke 1]))
      /\ ((forall s, exists e,
              fst (op s) = Throws e /\ Retry.isClientError e = false) ->
          fst (fst result) = fallback
          /\ Trace.invokedAttempts (snd result) = [1; 2; 3]%nat))
  /\ (forall (env : Gemini.Env) (ai : Gemini.AIClient)
             (response : Outcome (option string)) (e : JsError)
             (currentSkills currentGoals : list string),
        Gemini.getAIClient env = Returns ai ->
        GeminiFails JSON_parse response e ->
        Gemini.suggestSkills JSON_parse env currentSkills currentGoals response
        = Returns (JArr (map JStr
            (filter (fun s => negb (Gemini.arrayIncludes currentSkills s)
                              && negb (Gemini.arrayIncludes currentGoals s))
                    ["Machine Learning"; "Cloud Computing"; "Cybersecurity";
                     "DevOps"; "Blockchain"])))
        /\ Gemini.analyzeMatch JSON_parse env response
           = Returns (JObj [ ("score", JNum (50 # 1));
                             ("reasoning", JStr "AI analysis unavailable.");
                             ("commonInterests", JArr []) ])
        /\ Gemini.generateRoadmap JSON_parse env response = Throws e)
  /\ (forall (env : Gemini.Env) (ai : Gemini.AIClient) (t : string)
             (currentSkills currentGoals : list string),
        Gemini.getAIClient env = Returns ai ->
        t <> "" -> JSON_parse t = Returns JNull ->
        Gemini.suggestSkills JSON_parse env currentSkills currentGoals
                             (Returns (Some t))
        = Returns (JArr (map JStr
            (filter (fun s => negb (Gemini.arrayIncludes currentSkills s)
                              && negb (Gemini.arrayIncludes currentGoals s))
                    ["Machine Learning"; "Cloud Computing"; "Cybersecurity";
                     "DevOps"; "Blockchain"]))))
  /\ (forall fetch,
        DirectFails JSON_parse (hasArray "skills") fetch ->
        MistralDirect.suggestSkillsDirect JSON_parse fetch
        = Returns (JArr (map JStr ["React"; "Node.js"; "TypeScript"; "Docker";
                                   "AWS"])))
  /\ (forall skill fetch,
        DirectFails JSON_parse (hasArray "roadmap") fetch ->
        MistralDirect.generateRoadmapDirect JSON_parse skill fetch
        = Returns (MistralDirect.fallbackRoadmap skill))
  /\ (forall invoke,
        ServerFails JSON_parse hasFiveSkills invoke ->
        exists m,
          MistralServer.suggestSkills JSON_parse invoke
          = Throws (Error ("Failed to suggest skills: " ++ m)))
  /\ (forall invoke,
        ServerFails JSON_parse hasSixValidSteps invoke ->
        exists m,
          MistralServer.generateRoadmap JSON_parse invoke
          = Throws (Error ("Failed to generate roadmap: " ++ m)))
  /\ (forall e,
        MistralServer.suggestSkills JSON_parse (Throws e)
        = Throws (Error ("Failed to suggest skills: " ++ messageOf e))
        /\ MistralServer.generateRoadmap JSON_parse (Throws e)
           = Throws (Error ("Failed to generate roadmap: " ++ messageOf e))).
Proof.
  split; [|split; [|split; [|split; [|split; [|split; [|split]]]]]].
  - intros W generateContent random shuffle env skillName w op result fallback.
    pose proof (generateQuiz_falls_back JSON_parse generateContent random shuffle
                  env skillName w) as Hq.
    cbv zeta in Hq. fold op in Hq. fold result in Hq.
    destruct Hq as [Hthrow [_ [Hres _]]].
    split; [exact Hres|]. split; [exact Hthrow|]. split.
    + intros e He Hc. unfold result, Gemini.generateQuiz. fold op.
      unfold Retry.retryWithBackoff.
      rewrite (retryFrom_client_error op random (1000 # 1) 3 2 1 w e)
        by (assumption || lia).
      reflexivity.
    + intros Hall.
      destruct (retryFrom_run op random 3 (1000 # 1) 2 3 1 w)
        as [tr [Hrun [Hinv _]]]; try lia.
      { intros j _. apply Hall. }
      destruct (Hall (Trace.stateAfter op 2 w)) as [e [He _]].
      unfold result, Gemini.generateQuiz. fold op. unfold Retry.retryWithBackoff.
      rewrite Hrun, He. cbn [fst snd bind tryCatch]. split; [reflexivity | exact Hinv].
  - intros env ai response e cs cg Hai Hfail.
    unfold Gemini.suggestSkills, Gemini.analyzeMatch, Gemini.generateRoadmap.
    rewrite Hai. cbn [bind].
    destruct Hfail as [e | t e Ht Hp]; cbn [bind tryCatch Gemini.parseTextOr].
    + repeat split.
    + destruct (String.eqb_spec t ""); [contradiction|].
      rewrite Hp. cbn [bind tryCatch]. repeat split.
  - intros env ai t cs cg Hai Ht Hp. unfold Gemini.suggestSkills.
    rewrite Hai. cbn [bind]. destruct (String.eqb_spec t ""); [contradiction|].
    rewrite Hp. reflexivity.
  - intros fetch Hfail. unfold MistralDirect.suggestSkillsDirect.
    destruct (direct_body_throws "skills" fetch Hfail) as [e He].
    unfold bind in He. cbn [bind]. unfold bind. rewrite He. reflexivity.
  - intros skill fetch Hfail. unfold MistralDirect.generateRoadmapDirect.
    destruct (direct_body_throws "roadmap" fetch Hfail) as [e He].
    unfold bind in He. unfold bind. rewrite He. reflexivity.
  - intros invoke Hfail. unfold MistralServer.suggestSkills.
    destruct (server_decode_fails _ _ Hfail) as [[e He] | [parsed [Hp Hv]]].
    + rewrite He. cbn [bind tryCatch]. eexists; reflexivity.
    + rewrite Hp. cbn [bind].
      destruct (suggestSkills_invalid parsed Hv) as [e He].
      unfold bind in He. unfold bind. rewrite He. cbn [tryCatch].
      eexists; reflexivity.
  - intros invoke Hfail. unfold MistralServer.generateRoadmap.
    destruct (server_decode_fails _ _ Hfail) as [[e He] | [parsed [Hp Hv]]].
    + rewrite He. cbn [bind tryCatch]. eexists; reflexivity.
    + rewrite Hp. cbn [bind].
      destruct (generateRoadmap_invalid parsed Hv) as [e He].
      unfold bind in He. unfold bind. rewrite He. cbn [tryCatch].
      eexists; reflexivity.
  - intros e. split; reflexivity.
Qed.
End FailureKinds.


(** * Without an API key *)

Section MissingKey.
Import Fallback.
Variable JSON_parse : string -> Outcome Json.
Context {W : Type}.
Variable generateContent : W -> Outcome (option string) * W.
Variable random : nat -> Q.
Variable shuffle : list QuizQuestion -> list QuizQuestion.

(** Without a key, and apart from the two names inherited from
    [Object.prototype], [generateQuiz] resolves with a fallback quiz of
    five questions with in-range answer indices. *)
Lemma missing_api_key_quiz_shape (env : Gemini.Env) (skillName : string) (w : W) :
  (forall l, Permutation l (shuffle l)) ->
  Gemini.API_KEY env = None ->
  Gemini.GEMINI_API_KEY env = None ->
  existsb (String.eqb (toLowerCase skillName)) objectPrototype = false ->
  exists qs,
    fst (fst (Gemini.generateQuiz JSON_parse generateContent random shuffle env
                                  skillName w))
    = Returns (Gemini.Fallback (Questions qs))
    /\ List.length qs = 5%nat
    /\ Forall (fun q => (0 <= correctAnswerIndex q
                         < Z.of_nat (List.length (options q)))%Z) qs.
Proof.
  intros Hperm H1 H2 Hown.
  destruct (fallback_quiz_shape shuffle Hperm skillName Hown) as [qs [Hq [Hl Hall]]].
  exists qs. split; [|split; assumption].
  pose proof (missing_api_key JSON_parse generateContent random shuffle env
                (Returns None) skillName w H1 H2) as [_ [_ Hquiz]].
  destruct (Gemini.generateQuiz JSON_parse generateContent random shuffle env
                                skillName w) as [[r w'] tr].
  destruct Hquiz as [-> _]. cbn [fst]. now rewrite Hq.
Qed.

(** C10 (failing input): with neither [API_KEY] nor [GEMINI_API_KEY] set,
    [analyzeMatch] rejects with "API Key not found" as the claim says, but
    [generateQuiz] for the topic ["constructor"], after its three attempts,
    resolves with the member of [Object.prototype] that [getFallbackQuiz]
    hands back for that topic, which is no quiz. *)
Theorem missing_api_key_constructor (response : Outcome (option string)) (w : W) :
  Gemini.analyzeMatch JSON_parse (Gemini.mkEnv None None) response
  = Throws (Error "API Key not found")
  /\ (let '(r, w', tr) :=
        Gemini.generateQuiz JSON_parse generateContent random shuffle
                            (Gemini.mkEnv None None) "constructor" w in
      r = Returns (Gemini.Fallback (PrototypeMember "constructor"))
      /\ (forall qs, r <> Returns (Gemini.Fallback (Questions qs)))
      /\ w' = w
      /\ Retry.invocations tr = 3%nat).
Proof.
  pose proof (missing_api_key JSON_parse generateContent random shuffle
                (Gemini.mkEnv None None) response "constructor" w eq_refl eq_refl)
    as [Hmatch [_ Hquiz]].
  split; [exact Hmatch|].
  destruct (Gemini.generateQuiz JSON_parse generateContent random shuffle
                                (Gemini.mkEnv None None) "constructor" w)
    as [[r w'] tr].
  destruct Hquiz as [-> [-> Hinv]].
  repeat split; try assumption. intros qs H. vm_compute in H. discriminate.
Qed.
End MissingKey.

(** C2 on the sample parser: an HTTP 500 reply and a decoded answer
    without a [skills] array for the direct skills operation, a text that
    does not decode for [analyzeMatch] and the Gemini [generateRoadmap], an
    answer without skills for the server-side [suggestSkills], and an
    endpoint that always answers 503 for [generateQuiz]. *)
Lemma remote_failure_handling_witness :
  MistralDirect.suggestSkillsDirect Samples.parseSamples MoreSamples.serverError
  = Returns (JArr (map JStr ["React"; "Node.js"; "TypeScript"; "Docker"; "AWS"]))
  /\ MistralDirect.suggestSkillsDirect Samples.parseSamples
       (Samples.okReply Samples.sixStepsText)
     = Returns (JArr (map JStr ["React"; "Node.js"; "TypeScript"; "Docker"; "AWS"]))
  /\ Gemini.analyzeMatch Samples.parseSamples Samples.withKey (Returns (Some "oops"))
     = Returns (JObj [ ("score", JNum (50 # 1));
                       ("reasoning", JStr "AI analysis unavailable.");
                       ("commonInterests", JArr []) ])
  /\ Gemini.generateRoadmap Samples.parseSamples Samples.withKey
       (Returns (Some "oops"))
     = Throws (Error "Unexpected token")
  /\ (exists m,
        MistralServer.suggestSkills Samples.parseSamples
          (Returns (Some (JStr Samples.sixStepsText)))
        = Throws (Error ("Failed to suggest skills: " ++ m)))
  /\ fst (fst (Gemini.generateQuiz Samples.parseSamples
                 (@Samples.alwaysUnavailable (option string)) Samples.halves
                 Samples.reversed Samples.withKey "Java" 0%nat))
     = Returns (Gemini.Fallback (Fallback.getFallbackQuiz Samples.reversed "Java")).
Proof.
  destruct (remote_failure_handling Samples.parseSamples)
    as [Hquiz [Hgemini [_ [Hskills [_ [Hserver _]]]]]].
  assert (Hnoarray : ~ Failure.hasArray "skills" Samples.sixSteps).
  { intros [fields [items [Heq Ha]]]. injection Heq as <-. discriminate Ha. }
  assert (Hnofive : ~ Failure.hasFiveSkills Samples.sixSteps).
  { intros [fields [items [Heq [Ha _]]]]. injection Heq as <-. discriminate Ha. }
  destruct (Hgemini Samples.withKey (Gemini.GoogleGenAI "key")
                    (Returns (Some "oops")) (Error "Unexpected token") [] []
                    eq_refl)
    as [_ [Hmatch Hroadmap]].
  { apply Failure.TextUndecodable; [discriminate | reflexivity]. }
  split; [|split; [|split; [|split; [|split]]]].
  - apply Hskills. apply Failure.HttpNotOk. reflexivity.
  - apply Hskills.
    apply (Failure.ReplyInvalid Samples.parseSamples _ _
             (Samples.chatBody Samples.sixStepsText) Samples.sixStepsText
             Samples.sixSteps); try reflexivity; [discriminate | exact Hnoarray].
  - exact Hmatch.
  - exact Hroadmap.
  - apply Hserver.
    apply (Failure.AnswerInvalid Samples.parseSamples _ Samples.sixStepsText
                                 Samples.sixSteps); [reflexivity | exact Hnofive].
  - destruct (Hquiz nat (@Samples.alwaysUnavailable (option string)) Samples.halves
                    Samples.reversed Samples.withKey "Java" 0%nat)
      as [_ [Hthrow _]].
    apply (Hthrow Samples.unavailable). reflexivity.
Defined.
